(** * Streaming XLSX writer: StreamFileBuilder and StreamFile

    A shallow embedding of [stream_file_builder.go] (package [xlsx]) and the
    properties of its builder and of its streaming session.

    Go values are modelled as follows.
    - [int] is [Z]; the only unbounded increment, [rowCount++], wraps at 64 bits.
    - [string] is [string]; [len], slicing, [strings.HasPrefix], [strings.Split],
      [strconv.Atoi] and [strconv.Itoa] are written out below.
    - a function returning [error] returns [option error] ([None] is [nil]);
      a function returning [(T, error)] returns [result T].
    - a run-time panic (index or slice out of range, call through a nil
      interface) is the outcome [Panics]; every method is a computation in a
      small state-and-panic monad over the receiver.
    - [*zip.Writer] is the record [zip_Writer]: the entries handed to the
      archive so far, in creation order, and a script of the I/O faults the
      underlying [io.Writer] is going to raise. *)

From Stdlib Require Import ZArith String Ascii List Lia Bool DecimalString DecimalPos.
From stdpp Require Import base tactics option list strings.
Import ListNotations.

Local Open Scope Z_scope.

(** ** Errors and panics *)

Inductive error : Type :=
| BuiltStreamFileBuilderError
| NoCurrentSheetError
| WrongNumberOfRowsError
| AlreadyOnLastSheetError
| FailedToWriteHeaders          (* "Failed to write headers" *)
| UnexpectedSheetFileName       (* "Unexpected sheet file name from xlsx package" *)
| UnexpectedSheetIndex          (* "Unexpected sheet index" *)
| SheetDataCloseTagNotFound     (* "Unexpected Sheet XML from. SheetData close tag not found." *)
| DuplicateSheetName (name : string)  (* File.AddSheet: the name is taken *)
| PackageError (msg : string)   (* any other error made by the xlsx package outside this file *)
| SinkError (code : nat)        (* an I/O error of the underlying io.Writer *)
| ZipClosedFile                 (* archive/zip: write to an entry that is closed *)
| ZipClosedTwice.               (* archive/zip: Close on a closed writer *)

Inductive panic : Type :=
| IndexOutOfRange
| SliceBoundsOutOfRange
| NilDereference
| OutOfFuel.

Inductive result (A : Type) : Type :=
| Ok (a : A)
| Err (e : error).
Arguments Ok {A} a.
Arguments Err {A} e.

Inductive outcome (A : Type) : Type :=
| Done (a : A)
| Panics (p : panic).
Arguments Done {A} a.
Arguments Panics {A} p.

(** ** The state-and-panic monad *)

Definition M (S A : Type) : Type := S -> outcome (A * S).

Definition ret {S A} (a : A) : M S A := fun s => Done (a, s).

Definition bind {S A B} (m : M S A) (k : A -> M S B) : M S B :=
  fun s => match m s with
           | Done (a, s') => k a s'
           | Panics p => Panics p
           end.

Definition get {S} : M S S := fun s => Done (s, s).
Definition gets {S A} (f : S -> A) : M S A := fun s => Done (f s, s).
Definition modify {S} (f : S -> S) : M S unit := fun s => Done (tt, f s).
Definition throw {S A} (p : panic) : M S A := fun _ => Panics p.
Definition lift {S A} (o : outcome A) : M S A :=
  fun s => match o with Done a => Done (a, s) | Panics p => Panics p end.

Notation "x <- m ;; k" := (bind m (fun x => k))
  (at level 100, m at next level, right associativity).
Notation "m ;;; k" := (bind m (fun _ => k))
  (at level 100, right associativity).

(** ** Go primitives *)

Definition len {A} (l : list A) : Z := Z.of_nat (length l).
Definition slen (s : string) : Z := Z.of_nat (String.length s).

(** [l[i]]: panics unless [0 <= i < len l]. *)
Definition index_at {A} (l : list A) (i : Z) : outcome A :=
  if i <? 0 then Panics IndexOutOfRange
  else match l !! Z.to_nat i with
       | Some x => Done x
       | None => Panics IndexOutOfRange
       end.

Fixpoint sdrop (n : nat) (s : string) : string :=
  match n, s with
  | O, _ => s
  | S n', String _ s' => sdrop n' s'
  | S _, EmptyString => EmptyString
  end.

Fixpoint stake (n : nat) (s : string) : string :=
  match n, s with
  | O, _ => EmptyString
  | S n', String c s' => String c (stake n' s')
  | S _, EmptyString => EmptyString
  end.

(** [s[a:b]]: panics unless [0 <= a <= b <= len s]. *)
Definition slice (s : string) (a b : Z) : outcome string :=
  if (0 <=? a) && (a <=? b) && (b <=? slen s)
  then Done (stake (Z.to_nat (b - a)) (sdrop (Z.to_nat a) s))
  else Panics SliceBoundsOutOfRange.

Definition int64_min : Z := - 2 ^ 63.
Definition int64_max : Z := 2 ^ 63 - 1.

(** Two's complement wrap-around of a 64-bit [int]. *)
Definition wrap64 (z : Z) : Z := (z + 2 ^ 63) mod 2 ^ 64 - 2 ^ 63.

(** [strconv.Itoa]. *)
Definition Itoa (z : Z) : string := NilZero.string_of_int (Z.to_int z).

Definition digit_of (c : ascii) : option Z :=
  let n := Z.of_nat (nat_of_ascii c) in
  if (48 <=? n) && (n <=? 57) then Some (n - 48) else None.

Fixpoint digits_value (s : string) (acc : Z) : option Z :=
  match s with
  | EmptyString => Some acc
  | String c s' =>
      match digit_of c with
      | Some d => digits_value s' (10 * acc + d)
      | None => None
      end
  end.

(** [strconv.Atoi]: an optional sign, then one or more decimal digits; the
    value has to fit a 64-bit [int]. [None] stands for the syntax and range
    errors. *)
Definition Atoi (s : string) : option Z :=
  let '(neg, body) :=
    match s with
    | String "-"%char s' => (true, s')
    | String "+"%char s' => (false, s')
    | _ => (false, s)
    end in
  match body with
  | EmptyString => None
  | _ => match digits_value body 0 with
         | Some v =>
             let v' := if neg then - v else v in
             if (int64_min <=? v') && (v' <=? int64_max) then Some v' else None
         | None => None
         end
  end.

(** [strings.Index s sep]: position of the first occurrence of [sep]. *)
Fixpoint Index (s sep : string) : option nat :=
  if String.prefix sep s then Some O
  else match s with
       | EmptyString => None
       | String _ s' => option_map S (Index s' sep)
       end.

(** The loop of [strings.Split] for a non-empty separator: cut at the first
    occurrence and go on behind it. Each round consumes at least one byte, so
    [String.length s] rounds are enough. *)
Fixpoint genSplit (fuel : nat) (s sep : string) : list string :=
  match Index s sep with
  | None => [s]
  | Some m =>
      match fuel with
      | O => [s]
      | S fuel' =>
          stake m s :: genSplit fuel' (sdrop (m + String.length sep) s) sep
      end
  end.

Definition Split (s sep : string) : list string :=
  genSplit (String.length s) s sep.

(** Number of positions of [s] at which [sep] occurs. *)
Fixpoint occurrences (sep s : string) : nat :=
  ((if String.prefix sep s then 1 else 0) +
   match s with
   | EmptyString => 0
   | String _ s' => occurrences sep s'
   end)%nat.

(** ** The archive writer *)

Record zip_Writer : Type := ZipWriter {
  entries : list (string * string);  (* path and bytes of each entry, oldest first *)
  zclosed : bool;                    (* Close has run *)
  faults : list (option nat)         (* outcome of the next I/O calls; none left: success *)
}.

Definition tick (z : zip_Writer) : option nat * zip_Writer :=
  match faults z with
  | [] => (None, z)
  | f :: fs => (f, {| entries := entries z; zclosed := zclosed z; faults := fs |})
  end.

(** The sink raises no fault from here on. *)
Definition healthy (z : zip_Writer) : Prop := Forall (fun f => f = None) (faults z).

(** [zip.Writer.Create]: closes the entry that is open and starts a new one;
    the writer it returns is the position of the new entry. *)
Definition zw_Create (path : string) (z : zip_Writer) : result nat * zip_Writer :=
  match tick z with
  | (Some c, z') => (Err (SinkError c), z')
  | (None, z') =>
      (Ok (length (entries z')),
       {| entries := entries z' ++ [(path, EmptyString)];
          zclosed := zclosed z'; faults := faults z' |})
  end.

(** An entry takes bytes while it is the newest one and the archive is open. *)
Definition entry_open (h : nat) (z : zip_Writer) : bool :=
  negb (zclosed z) && (S h =? length (entries z))%nat.

(** [Write] on the writer of entry [h]. A write that fails hands nothing on. *)
Definition fw_Write (h : nat) (data : string) (z : zip_Writer) : option error * zip_Writer :=
  if entry_open h z then
    match tick z with
    | (Some c, z') => (Some (SinkError c), z')
    | (None, z') =>
        (None,
         {| entries := alter (fun e => (fst e, snd e +:+ data)) h (entries z');
            zclosed := zclosed z'; faults := faults z' |})
    end
  else (Some ZipClosedFile, z).

(** [zip.Writer.Flush]. *)
Definition zw_Flush (z : zip_Writer) : option error * zip_Writer :=
  match tick z with
  | (Some c, z') => (Some (SinkError c), z')
  | (None, z') => (None, z')
  end.

(** [zip.Writer.Close]. *)
Definition zw_Close (z : zip_Writer) : option error * zip_Writer :=
  if zclosed z then (Some ZipClosedTwice, z)
  else match tick z with
       | (Some c, z') => (Some (SinkError c), z')
       | (None, z') =>
           (None, {| entries := entries z'; zclosed := true; faults := faults z' |})
       end.

(** ** The xlsx package outside this file *)

(** Modelled from the spec: the shared-string table [RefTable], which is not
    part of this file. The strings are kept in insertion order; the position
    of a string is its index. *)
Record RefTable : Type := { indexedStrings : list string }.

Fixpoint find_string (v : string) (l : list string) : option nat :=
  match l with
  | [] => None
  | x :: l' => if String.eqb x v then Some O else option_map S (find_string v l')
  end.

(** Modelled from the spec: [RefTable.AddString], which is not part of this
    file. It returns the index of a string that is known, and appends a new
    one, whose index is the number of strings before it. *)
Definition AddString (v : string) (rt : RefTable) : Z * RefTable :=
  match find_string v (indexedStrings rt) with
  | Some i => (Z.of_nat i, rt)
  | None => (len (indexedStrings rt), {| indexedStrings := indexedStrings rt ++ [v] |})
  end.

(** Modelled from the spec: the types [File], [Sheet] and [Col], which are not
    part of this file. Only the name of a sheet and its columns matter here. *)
Inductive Col : Type := MkCol.
Record Sheet : Type := { Name : string; Cols : list Col }.
Record File : Type := { Sheets : list Sheet }.

(** Modelled from the spec: [File.AddSheet], which is not part of this file.
    It refuses a name that is taken and otherwise appends an empty sheet, which
    it returns. *)
Definition File_AddSheet (name : string) (f : File) : result (File * Sheet) :=
  if existsb (fun sh => String.eqb (Name sh) name) (Sheets f)
  then Err (DuplicateSheetName name)
  else let sheet := {| Name := name; Cols := [] |} in
       Ok ({| Sheets := Sheets f ++ [sheet] |}, sheet).

(** The sheet [File.AddSheet] returned is a pointer to the last sheet of the
    file: what is done to it is done there. *)
Definition update_last_sheet (sheet : Sheet) (f : File) : File :=
  {| Sheets := <[Nat.pred (length (Sheets f)) := sheet]> (Sheets f) |}.

(** The functions of the package that this file calls and does not define.
    - [WriteSlice sheet headers] is [sheet.AddRow().WriteSlice(&headers, -1)]:
      the sheet with its header row, and the number of cells written.
    - [MarshallPartsForStreaming] renders the parts of the empty workbook; the
      list gives the parts in the order in which [range] visits the map.
    - [makeXLSXRowForStreaming] followed by [xml.Marshal] encodes a row, and
      interns its strings.
    - [makeXLSXSST] followed by [marshalFullFile] renders the string table.
    Where the source gets [(T, error)] from them, they return [T + string]:
    the value, or the message of an error that is none of this file's. *)
Class Collaborators : Type := {
  WriteSlice : Sheet -> list string -> Sheet * Z;
  MarshallPartsForStreaming : File -> RefTable -> RefTable * (list (string * string) + string);
  xlsxRow : Type;
  makeXLSXRowForStreaming : Z -> list string -> RefTable -> RefTable * xlsxRow;
  xml_Marshal : xlsxRow -> string + string;
  xlsxSST : Type;
  makeXLSXSST : RefTable -> xlsxSST;
  marshalFullFile : xlsxSST -> string + string;
  sharedStringsFilePath : string
}.

(** ** The data of the builder and of the session *)

Definition sheetFilePathPrefix : string := "xl/worksheets/sheet".
Definition sheetFilePathSuffix : string := ".xml".
Definition endSheetDataTag : string := "</sheetData>".

Record StreamFileBuilder : Type := {
  sb_built : bool;
  sb_file : File;
  sb_zipWriter : zip_Writer;
  sb_refTable : RefTable
}.

Record streamSheet : Type := {
  index : Z;               (* the XLSX sheet index, which starts at 1 *)
  rowCount : Z;            (* the number of rows written to the sheet so far *)
  columnCount : Z;         (* the number of columns in the sheet *)
  writer : option nat      (* the writer of this sheet's entry; [None] is nil *)
}.

Record StreamFile : Type := {
  file : File;
  sheetXmlPrefix : list string;
  sheetXmlSuffix : list string;
  zipWriter : zip_Writer;
  currentSheet : option streamSheet;
  refTable : RefTable;
  err : option error
}.

Definition set_built (b : bool) (sb : StreamFileBuilder) : StreamFileBuilder :=
  {| sb_built := b; sb_file := sb_file sb;
     sb_zipWriter := sb_zipWriter sb; sb_refTable := sb_refTable sb |}.

Definition set_sb_file (f : File) (sb : StreamFileBuilder) : StreamFileBuilder :=
  {| sb_built := sb_built sb; sb_file := f;
     sb_zipWriter := sb_zipWriter sb; sb_refTable := sb_refTable sb |}.

Definition set_sb_refTable (rt : RefTable) (sb : StreamFileBuilder) : StreamFileBuilder :=
  {| sb_built := sb_built sb; sb_file := sb_file sb;
     sb_zipWriter := sb_zipWriter sb; sb_refTable := rt |}.

Definition set_sb_zipWriter (z : zip_Writer) (sb : StreamFileBuilder) : StreamFileBuilder :=
  {| sb_built := sb_built sb; sb_file := sb_file sb;
     sb_zipWriter := z; sb_refTable := sb_refTable sb |}.

Definition set_err (e : option error) (sf : StreamFile) : StreamFile :=
  {| file := file sf; sheetXmlPrefix := sheetXmlPrefix sf;
     sheetXmlSuffix := sheetXmlSuffix sf; zipWriter := zipWriter sf;
     currentSheet := currentSheet sf; refTable := refTable sf; err := e |}.

Definition set_currentSheet (cs : option streamSheet) (sf : StreamFile) : StreamFile :=
  {| file := file sf; sheetXmlPrefix := sheetXmlPrefix sf;
     sheetXmlSuffix := sheetXmlSuffix sf; zipWriter := zipWriter sf;
     currentSheet := cs; refTable := refTable sf; err := err sf |}.

Definition set_zipWriter (z : zip_Writer) (sf : StreamFile) : StreamFile :=
  {| file := file sf; sheetXmlPrefix := sheetXmlPrefix sf;
     sheetXmlSuffix := sheetXmlSuffix sf; zipWriter := z;
     currentSheet := currentSheet sf; refTable := refTable sf; err := err sf |}.

Definition set_refTable (rt : RefTable) (sf : StreamFile) : StreamFile :=
  {| file := file sf; sheetXmlPrefix := sheetXmlPrefix sf;
     sheetXmlSuffix := sheetXmlSuffix sf; zipWriter := zipWriter sf;
     currentSheet := currentSheet sf; refTable := rt; err := err sf |}.

Definition set_sheetXmlPrefix (l : list string) (sf : StreamFile) : StreamFile :=
  {| file := file sf; sheetXmlPrefix := l;
     sheetXmlSuffix := sheetXmlSuffix sf; zipWriter := zipWriter sf;
     currentSheet := currentSheet sf; refTable := refTable sf; err := err sf |}.

Definition set_sheetXmlSuffix (l : list string) (sf : StreamFile) : StreamFile :=
  {| file := file sf; sheetXmlPrefix := sheetXmlPrefix sf;
     sheetXmlSuffix := l; zipWriter := zipWriter sf;
     currentSheet := currentSheet sf; refTable := refTable sf; err := err sf |}.

Definition set_writer (w : option nat) (ss : streamSheet) : streamSheet :=
  {| index := index ss; rowCount := rowCount ss;
     columnCount := columnCount ss; writer := w |}.

Definition set_rowCount (n : Z) (ss : streamSheet) : streamSheet :=
  {| index := index ss; rowCount := n;
     columnCount := columnCount ss; writer := writer ss |}.

(** A call on the archive writer of the session. *)
Definition with_zip {A} (f : zip_Writer -> A * zip_Writer) : M StreamFile A :=
  fun sf => let '(a, z) := f (zipWriter sf) in Done (a, set_zipWriter z sf).

(** [l[i] = x]: panics unless [0 <= i < len l]. *)
Definition store_at {A} (l : list A) (i : Z) (x : A) : outcome (list A) :=
  if (0 <=? i) && (i <? len l) then Done (<[Z.to_nat i := x]> l)
  else Panics IndexOutOfRange.

(** ** The streaming session *)

Section Session.
Context `{Collaborators}.

(** [streamSheet.write]. *)
Definition streamSheet_write (ss : streamSheet) (data : string) : M StreamFile (option error) :=
  match writer ss with
  | None => throw NilDereference
  | Some w => with_zip (fw_Write w data)
  end.

(** [StreamFile.write]. The [Row] of [Cell]s the source builds from [cells]
    only carries them to [makeXLSXRowForStreaming]. *)
Definition write (cells : list string) : M StreamFile (option error) :=
  cur <- gets currentSheet ;;
  match cur with
  | None => ret (Some NoCurrentSheetError)
  | Some cs =>
      if negb (len cells =? columnCount cs) then ret (Some WrongNumberOfRowsError)
      else
        let cs' := set_rowCount (wrap64 (rowCount cs + 1)) cs in
        modify (set_currentSheet (Some cs')) ;;;
        rt <- gets refTable ;;
        let '(rt', xRow) := makeXLSXRowForStreaming (wrap64 (rowCount cs' - 1)) cells rt in
        modify (set_refTable rt') ;;;
        match xml_Marshal xRow with
        | inr msg => ret (Some (PackageError msg))
        | inl rowBytes =>
            e <- streamSheet_write cs' rowBytes ;;
            match e with
            | Some e => ret (Some e)
            | None => with_zip zw_Flush
            end
        end
  end.

(** [StreamFile.Write]. *)
Definition Write (cells : list string) : M StreamFile (option error) :=
  e <- gets err ;;
  match e with
  | Some e => ret (Some e)
  | None =>
      e <- write cells ;;
      match e with
      | Some e => modify (set_err (Some e)) ;;; ret (Some e)
      | None => with_zip zw_Flush
      end
  end.

(** The [range] loop of [StreamFile.WriteAll]. *)
Fixpoint WriteAll_rows (records : list (list string)) : M StreamFile (option error) :=
  match records with
  | [] => ret None
  | row :: records' =>
      e <- write row ;;
      match e with
      | Some e => modify (set_err (Some e)) ;;; ret (Some e)
      | None => WriteAll_rows records'
      end
  end.

(** [StreamFile.WriteAll]. *)
Definition WriteAll (records : list (list string)) : M StreamFile (option error) :=
  e <- gets err ;;
  match e with
  | Some e => ret (Some e)
  | None =>
      e <- WriteAll_rows records ;;
      match e with
      | Some e => ret (Some e)
      | None => with_zip zw_Flush
      end
  end.

(** [StreamFile.Error]. *)
Definition Error : M StreamFile (option error) := gets err.

(** [StreamFile.Flush]. *)
Definition Flush : M StreamFile unit :=
  e <- gets err ;;
  match e with
  | Some _ => e' <- with_zip zw_Flush ;; modify (set_err e')
  | None => ret tt
  end.

(** [StreamFile.writeSheetStart]. *)
Definition writeSheetStart : M StreamFile (option error) :=
  cur <- gets currentSheet ;;
  match cur with
  | None => ret (Some NoCurrentSheetError)
  | Some cs =>
      l <- gets sheetXmlPrefix ;;
      prefix <- lift (index_at l (index cs - 1)) ;;
      streamSheet_write cs prefix
  end.

(** [StreamFile.writeSheetEnd]. *)
Definition writeSheetEnd : M StreamFile (option error) :=
  cur <- gets currentSheet ;;
  match cur with
  | None => ret (Some NoCurrentSheetError)
  | Some cs =>
      e <- streamSheet_write cs endSheetDataTag ;;
      match e with
      | Some e => ret (Some e)
      | None =>
          l <- gets sheetXmlSuffix ;;
          suffix <- lift (index_at l (index cs - 1)) ;;
          streamSheet_write cs suffix
      end
  end.

Definition sheetPath (i : Z) : string :=
  sheetFilePathPrefix +:+ Itoa i +:+ sheetFilePathSuffix.

(** The second half of [StreamFile.NextSheet], from [sheetIndex++] on;
    [sheetIndex] comes in with the index of the sheet that was closed, or 0. *)
Definition NextSheet_open (sheetIndex : Z) : M StreamFile (option error) :=
  let sheetIndex := sheetIndex + 1 in
  sheets <- gets (fun sf => Sheets (file sf)) ;;
  sheet <- lift (index_at sheets (sheetIndex - 1)) ;;
  let cs := {| index := sheetIndex; columnCount := len (Cols sheet);
               rowCount := 1; writer := None |} in
  modify (set_currentSheet (Some cs)) ;;;
  r <- with_zip (zw_Create (sheetPath (index cs))) ;;
  match r with
  | Err e => modify (set_err (Some e)) ;;; ret (Some e)
  | Ok fileWriter =>
      modify (set_currentSheet (Some (set_writer (Some fileWriter) cs))) ;;;
      e <- writeSheetStart ;;
      match e with
      | Some e => modify (set_err (Some e)) ;;; ret (Some e)
      | None => ret None
      end
  end.

(** [StreamFile.NextSheet]. *)
Definition NextSheet : M StreamFile (option error) :=
  e <- gets err ;;
  match e with
  | Some e => ret (Some e)
  | None =>
      cur <- gets currentSheet ;;
      match cur with
      | Some cs =>
          n <- gets (fun sf => len (Sheets (file sf))) ;;
          if n <=? index cs then
            modify (set_err (Some AlreadyOnLastSheetError)) ;;;
            ret (Some AlreadyOnLastSheetError)
          else
            e <- writeSheetEnd ;;
            match e with
            | Some e =>
                modify (set_currentSheet None) ;;;
                modify (set_err (Some e)) ;;;
                ret (Some e)
            | None => NextSheet_open (index cs)
            end
      | None => NextSheet_open 0
      end
  end.

(** The [for] loop of [StreamFile.Close]. Every round that goes on raises the
    index of the current sheet by one, so the number of sheets that are left
    bounds the rounds. *)
Fixpoint Close_sheets (fuel : nat) : M StreamFile (option error) :=
  cur <- gets currentSheet ;;
  match cur with
  | None => throw NilDereference
  | Some cs =>
      n <- gets (fun sf => len (Sheets (file sf))) ;;
      if index cs <? n then
        match fuel with
        | O => throw OutOfFuel
        | S fuel' =>
            e <- NextSheet ;;
            match e with
            | Some e => modify (set_err (Some e)) ;;; ret (Some e)
            | None => Close_sheets fuel'
            end
        end
      else ret None
  end.

(** The tail of [StreamFile.Close]: the shared strings and the archive. *)
Definition Close_finish : M StreamFile (option error) :=
  rt <- gets refTable ;;
  let xSST := makeXLSXSST rt in
  match marshalFullFile xSST with
  | inr msg => ret (Some (PackageError msg))
  | inl sharedStringsXML =>
      r <- with_zip (zw_Create sharedStringsFilePath) ;;
      match r with
      | Err e => ret (Some e)
      | Ok metadataFile =>
          e <- with_zip (fw_Write metadataFile sharedStringsXML) ;;
          match e with
          | Some e => ret (Some e)
          | None =>
              e <- with_zip zw_Close ;;
              match e with
              | Some e => modify (set_err (Some e)) ;;; ret (Some e)
              | None => ret None
              end
          end
      end
  end.

(** [StreamFile.Close]. *)
Definition Close : M StreamFile (option error) :=
  e <- gets err ;;
  match e with
  | Some e => ret (Some e)
  | None =>
      cur <- gets currentSheet ;;
      match cur with
      | Some cs =>
          n <- gets (fun sf => len (Sheets (file sf))) ;;
          e <- Close_sheets (Z.to_nat (n - index cs)) ;;
          match e with
          | Some e => ret (Some e)
          | None =>
              e <- writeSheetEnd ;;
              match e with
              | Some e => modify (set_err (Some e)) ;;; ret (Some e)
              | None => Close_finish
              end
          end
      | None => Close_finish
      end
  end.

(** ** The builder *)

(** [StreamFileBuilder.AddSheet]. *)
Definition AddSheet (name : string) (headers : list string) : M StreamFileBuilder (option error) :=
  b <- gets sb_built ;;
  if b then ret (Some BuiltStreamFileBuilderError)
  else
    f <- gets sb_file ;;
    match File_AddSheet name f with
    | Err e => modify (set_built true) ;;; ret (Some e)
    | Ok (f', sheet) =>
        let '(sheet', count) := WriteSlice sheet headers in
        modify (set_sb_file (update_last_sheet sheet' f')) ;;;
        if negb (count =? len headers)
        then modify (set_built true) ;;; ret (Some FailedToWriteHeaders)
        else ret None
    end.

(** [StreamFileBuilder.AddSharedStrings]. *)
Definition AddSharedStrings (sharedStrings : list string) : M StreamFileBuilder unit :=
  modify (fun sb =>
    set_sb_refTable
      (fold_left (fun rt str => snd (AddString str rt)) sharedStrings (sb_refTable sb)) sb).

(** [splitSheetIntoPrefixAndSuffix]. *)
Definition splitSheetIntoPrefixAndSuffix (data : string) : result (string * string) :=
  let sheetParts := Split data endSheetDataTag in
  if negb (len sheetParts =? 2) then Err SheetDataCloseTagNotFound
  else Ok (nth 0 sheetParts EmptyString, nth 1 sheetParts EmptyString).

(** [getSheetIndex]. *)
Definition getSheetIndex (sf : StreamFile) (path : string) : outcome (result Z) :=
  match slice path (slen sheetFilePathPrefix) (slen path - slen sheetFilePathSuffix) with
  | Panics p => Panics p
  | Done indexString =>
      match Atoi indexString with
      | None => Done (Err UnexpectedSheetFileName)
      | Some sheetXLSXIndex =>
          if (sheetXLSXIndex <? 1)
             || (len (sheetXmlPrefix sf) <? sheetXLSXIndex)
             || (len (sheetXmlSuffix sf) <? sheetXLSXIndex)
             || (len (Sheets (file sf)) <? sheetXLSXIndex)
          then Done (Err UnexpectedSheetIndex)
          else Done (Ok (sheetXLSXIndex - 1))
      end
  end.

(** [StreamFileBuilder.processEmptySheetXML]; it only touches the session. *)
Definition processEmptySheetXML (path data : string) : M StreamFile (option error) :=
  sf <- get ;;
  r <- lift (getSheetIndex sf path) ;;
  match r with
  | Err e => ret (Some e)
  | Ok sheetIndex =>
      match splitSheetIntoPrefixAndSuffix data with
      | Err e => ret (Some e)
      | Ok (prefix, suffix) =>
          l <- lift (store_at (sheetXmlPrefix sf) sheetIndex prefix) ;;
          modify (set_sheetXmlPrefix l) ;;;
          l' <- lift (store_at (sheetXmlSuffix sf) sheetIndex suffix) ;;
          modify (set_sheetXmlSuffix l') ;;;
          ret None
      end
  end.

(** The [range] loop of [StreamFileBuilder.Build]. The archive writer of the
    builder is the one the session holds. *)
Fixpoint Build_parts (parts : list (string * string)) : M StreamFile (option error) :=
  match parts with
  | [] => ret None
  | (path, data) :: parts' =>
      if String.prefix sheetFilePathPrefix path then
        e <- processEmptySheetXML path data ;;
        match e with
        | Some e => ret (Some e)
        | None => Build_parts parts'
        end
      else
        r <- with_zip (zw_Create path) ;;
        match r with
        | Err e => ret (Some e)
        | Ok metadataFile =>
            e <- with_zip (fw_Write metadataFile data) ;;
            match e with
            | Some e => ret (Some e)
            | None => Build_parts parts'
            end
        end
  end.

(** Runs a computation of the session inside the builder. The archive writer
    and the string table are shared by pointer: what the session does to them
    shows in the builder. *)
Definition on_session {A} (m : M StreamFile A) (es : StreamFile) : M StreamFileBuilder (A * StreamFile) :=
  fun sb => match m es with
            | Done (a, es') =>
                Done ((a, es'),
                      set_sb_zipWriter (zipWriter es') (set_sb_refTable (refTable es') sb))
            | Panics p => Panics p
            end.

(** The [StreamFile] that [Build] allocates: no sheet is open, and every
    sheet has an empty prefix and an empty suffix. *)
Definition newStreamFile (f : File) (rt : RefTable) (z : zip_Writer) : StreamFile :=
  {| zipWriter := z; file := f; refTable := rt;
     sheetXmlPrefix := replicate (length (Sheets f)) EmptyString;
     sheetXmlSuffix := replicate (length (Sheets f)) EmptyString;
     currentSheet := None; err := None |}.

(** [StreamFileBuilder.Build]. *)
Definition Build : M StreamFileBuilder (result StreamFile) :=
  b <- gets sb_built ;;
  if b then ret (Err BuiltStreamFileBuilderError)
  else
    modify (set_built true) ;;;
    f <- gets sb_file ;;
    rt <- gets sb_refTable ;;
    let '(rt', r) := MarshallPartsForStreaming f rt in
    modify (set_sb_refTable rt') ;;;
    match r with
    | inr msg => ret (Err (PackageError msg))
    | inl parts =>
        z <- gets sb_zipWriter ;;
        let es := newStreamFile f rt' z in
        r <- on_session (Build_parts parts) es ;;
        match r with
        | (Some e, _) => ret (Err e)
        | (None, es) =>
            r <- on_session NextSheet es ;;
            match r with
            | (Some e, _) => ret (Err e)
            | (None, es) => ret (Ok es)
            end
        end
    end.

End Session.

(** ** A plain rendering of the collaborators

    It is used to run the model on concrete workbooks: every header cell
    becomes a column, an empty sheet is rendered with its header row, a row is
    rendered from its cells, which are interned on the way. *)

Definition demo_sheet_xml : string :=
  "<worksheet><sheetData><row/></sheetData></worksheet>".

Definition demo_parts (f : File) : list (string * string) :=
  ("[Content_Types].xml", "<Types/>")
    :: imap (fun i _ => (sheetPath (Z.of_nat i + 1), demo_sheet_xml)) (Sheets f).

Definition demo_row_xml (cells : list string) : string :=
  "<row>" +:+ String.concat "," cells +:+ "</row>".

Definition demo : Collaborators := {|
  WriteSlice sheet headers :=
    ({| Name := Name sheet; Cols := replicate (length headers) MkCol |}, len headers);
  MarshallPartsForStreaming f rt := (rt, inl (demo_parts f));
  xlsxRow := list string;
  makeXLSXRowForStreaming _ cells rt :=
    (fold_left (fun rt str => snd (AddString str rt)) cells rt, cells);
  xml_Marshal cells := inl (demo_row_xml cells);
  xlsxSST := list string;
  makeXLSXSST rt := indexedStrings rt;
  marshalFullFile sst := inl ("<sst>" +:+ String.concat "," sst +:+ "</sst>");
  sharedStringsFilePath := "xl/sharedStrings.xml"
|}.

(** The same collaborators, but for the empty sheets, which come without the
    end tag of their data. *)
Definition demo_broken : Collaborators := {|
  WriteSlice := @WriteSlice demo;
  MarshallPartsForStreaming f rt :=
    (rt, inl (imap (fun i _ => (sheetPath (Z.of_nat i + 1), "<worksheet/>")) (Sheets f)));
  xlsxRow := @xlsxRow demo;
  makeXLSXRowForStreaming := @makeXLSXRowForStreaming demo;
  xml_Marshal := @xml_Marshal demo;
  xlsxSST := @xlsxSST demo;
  makeXLSXSST := @makeXLSXSST demo;
  marshalFullFile := @marshalFullFile demo;
  sharedStringsFilePath := @sharedStringsFilePath demo
|}.

(** A new builder on a sink that raises the faults [fs]. *)
Definition NewStreamFileBuilder (fs : list (option nat)) : StreamFileBuilder :=
  {| sb_built := false; sb_file := {| Sheets := [] |};
     sb_zipWriter := {| entries := []; zclosed := false; faults := fs |};
     sb_refTable := {| indexedStrings := [] |} |}.

(** ** Invariant of a session and vocabulary of the statements *)

(** The sink after one call that went through. *)
Definition drain (z : zip_Writer) : zip_Writer :=
  {| entries := entries z; zclosed := zclosed z; faults := drop 1 (faults z) |}.

(** What [NextSheet] leaves behind for the sheet that is open: an index that
    names a registered sheet, the column count of that sheet, and the writer
    of the newest entry of an archive that is open. *)
Definition current_ok (sf : StreamFile) (cs : streamSheet) : bool :=
  (1 <=? index cs) && (index cs <=? len (Sheets (file sf)))
  && match Sheets (file sf) !! Z.to_nat (index cs - 1) with
     | Some sheet => columnCount cs =? len (Cols sheet)
     | None => false
     end
  && match writer cs with
     | Some w => entry_open w (zipWriter sf)
     | None => false
     end.

(** What [Build] sets up: a prefix and a suffix for every sheet. *)
Definition well_formed (sf : StreamFile) : bool :=
  (length (sheetXmlPrefix sf) =? length (Sheets (file sf)))%nat
  && (length (sheetXmlSuffix sf) =? length (Sheets (file sf)))%nat
  && match currentSheet sf with
     | Some cs => current_ok sf cs
     | None => true
     end.

(** The stored template of the sheet at position [j], counted from 0. *)
Definition prefix_of (sf : StreamFile) (j : nat) : string :=
  default EmptyString (sheetXmlPrefix sf !! j).
Definition suffix_of (sf : StreamFile) (j : nat) : string :=
  default EmptyString (sheetXmlSuffix sf !! j).

(** The entry of a sheet that got no row. *)
Definition empty_sheet_entry (sf : StreamFile) (j : nat) : string * string :=
  (sheetPath (Z.of_nat j + 1),
   prefix_of sf j +:+ endSheetDataTag +:+ suffix_of sf j).

(** Appending [data] to the entry at position [w]. *)
Definition append_entry (w : nat) (data : string) (l : list (string * string)) :
    list (string * string) :=
  alter (fun e => (fst e, snd e +:+ data)) w l.

(** The entries of the archive once the sheet that is open got its end. *)
Definition closed_entries (sf : StreamFile) : list (string * string) :=
  match currentSheet sf with
  | Some cs =>
      match writer cs with
      | Some w =>
          append_entry w (endSheetDataTag +:+ suffix_of sf (Z.to_nat (index cs - 1)))
            (entries (zipWriter sf))
      | None => entries (zipWriter sf)
      end
  | None => entries (zipWriter sf)
  end.

(** [l'] has the entries of [l], each with the bytes it had and maybe more. *)
Definition grown (l l' : list (string * string)) : Prop :=
  Forall2 (fun e e' => fst e' = fst e /\ exists d, snd e' = snd e +:+ d) l l'.

(** The calls a builder takes. *)
Inductive builder_call : Type :=
| CallAddSheet (name : string) (headers : list string)
| CallAddSharedStrings (sharedStrings : list string)
| CallBuild.

Section Vocabulary.
Context `{Collaborators}.

(** A call and the error it returns; [AddSharedStrings] has no result. *)
Definition call (c : builder_call) : M StreamFileBuilder (option error) :=
  match c with
  | CallAddSheet name headers => AddSheet name headers
  | CallAddSharedStrings sharedStrings => AddSharedStrings sharedStrings ;;; ret None
  | CallBuild =>
      r <- Build ;;
      match r with
      | Ok _ => ret None
      | Err e => ret (Some e)
      end
  end.

(** The bytes [write] appends for [rows], one after the other, to a sheet with
    the row counter [rc] when the string table is [rt]. *)
Fixpoint rows_xml (rc : Z) (rt : RefTable) (rows : list (list string)) : string :=
  match rows with
  | [] => EmptyString
  | row :: rows' =>
      let rc' := wrap64 (rc + 1) in
      let '(rt', xRow) := makeXLSXRowForStreaming (wrap64 (rc' - 1)) row rt in
      match xml_Marshal xRow with
      | inl rowBytes => rowBytes +:+ rows_xml rc' rt' rows'
      | inr _ => EmptyString
      end
  end.

(** Calls in a row, and what each returned. *)
Fixpoint calls (cs : list builder_call) : M StreamFileBuilder (list (option error)) :=
  match cs with
  | [] => ret []
  | c :: cs' => e <- call c ;; es <- calls cs' ;; ret (e :: es)
  end.

(** What a builder that is spent answers. *)
Definition refusal (c : builder_call) : option error :=
  match c with
  | CallAddSharedStrings _ => None
  | _ => Some BuiltStreamFileBuilderError
  end.

(** [rows_written rows sf sf']: [write] takes the rows one after the other
    without an error and leads from [sf] to [sf']. *)
Inductive rows_written : list (list string) -> StreamFile -> StreamFile -> Prop :=
| rows_written_nil sf : rows_written [] sf sf
| rows_written_cons row rows sf sf1 sf2 :
    write row sf = Done (None, sf1) ->
    rows_written rows sf1 sf2 ->
    rows_written (row :: rows) sf sf2.

End Vocabulary.

(** [sf'] differs from [sf] in the archive and in the templates at most. *)
Definition same_shape (sf sf' : StreamFile) : Prop :=
  file sf' = file sf
  /\ length (sheetXmlPrefix sf') = length (sheetXmlPrefix sf)
  /\ length (sheetXmlSuffix sf') = length (sheetXmlSuffix sf)
  /\ currentSheet sf' = currentSheet sf
  /\ refTable sf' = refTable sf
  /\ err sf' = err sf.

(** A part of the workbook: the path of a sheet, or not. *)
Definition is_sheet_part (part : string * string) : bool :=
  String.prefix sheetFilePathPrefix (fst part).

(** The empty sheet of a part has the end tag once. *)
Definition one_end_tag (part : string * string) : bool :=
  (occurrences endSheetDataTag (snd part) =? 1)%nat.

(** The session [Build] returns for the sheets S1 (headers A, B) and S2
    (header C) with the plain collaborators, on a sink with the faults [fs]
    still to come. *)
Definition demo_session (fs : list (option nat)) : StreamFile :=
  {| file := {| Sheets := [ {| Name := "S1"; Cols := [MkCol; MkCol] |};
                            {| Name := "S2"; Cols := [MkCol] |} ] |};
     sheetXmlPrefix := ["<worksheet><sheetData><row/>"; "<worksheet><sheetData><row/>"];
     sheetXmlSuffix := ["</worksheet>"; "</worksheet>"];
     zipWriter := {| entries := [ ("[Content_Types].xml", "<Types/>");
                                  ("xl/worksheets/sheet1.xml", "<worksheet><sheetData><row/>") ];
                     zclosed := false; faults := fs |};
     currentSheet := Some {| index := 1; rowCount := 1; columnCount := 2; writer := Some 1%nat |};
     refTable := {| indexedStrings := [] |};
     err := None |}.

(** The same session on its last sheet. *)
Definition demo_session_last (fs : list (option nat)) : StreamFile :=
  {| file := file (demo_session fs);
     sheetXmlPrefix := sheetXmlPrefix (demo_session fs);
     sheetXmlSuffix := sheetXmlSuffix (demo_session fs);
     zipWriter :=
       {| entries := [ ("[Content_Types].xml", "<Types/>");
                       ("xl/worksheets/sheet1.xml",
                        "<worksheet><sheetData><row/></sheetData></worksheet>");
                       ("xl/worksheets/sheet2.xml", "<worksheet><sheetData><row/>") ];
          zclosed := false; faults := fs |};
     currentSheet := Some {| index := 2; rowCount := 1; columnCount := 1;
                             writer := Some 2%nat |};
     refTable := {| indexedStrings := [] |};
     err := None |}.

(** The same session as [Build] has it before it opens the first sheet. *)
Definition demo_session_idle (fs : list (option nat)) : StreamFile :=
  {| file := file (demo_session fs);
     sheetXmlPrefix := sheetXmlPrefix (demo_session fs);
     sheetXmlSuffix := sheetXmlSuffix (demo_session fs);
     zipWriter := {| entries := [ ("[Content_Types].xml", "<Types/>") ];
                     zclosed := false; faults := fs |};
     currentSheet := None;
     refTable := {| indexedStrings := [] |};
     err := None |}.

(** The builder that was given these two sheets. *)
Definition demo_builder (fs : list (option nat)) : StreamFileBuilder :=
  {| sb_built := false;
     sb_file := {| Sheets := [ {| Name := "S1"; Cols := [MkCol; MkCol] |};
                               {| Name := "S2"; Cols := [MkCol] |} ] |};
     sb_zipWriter := {| entries := []; zclosed := false; faults := fs |};
     sb_refTable := {| indexedStrings := [] |} |}.

(** ** Further vocabulary *)

(** [l'] is [l] with bytes added to entries and entries added behind. *)
Definition archive_extended (l l' : list (string * string)) : Prop :=
  exists k1 k2, l' = k1 ++ k2 /\ grown l k1.

(** A computation of the session that leaves the archive extended, whatever
    it returns. *)
Definition extends_archive {A} (m : M StreamFile A) : Prop :=
  forall sf a sf',
    m sf = Done (a, sf') ->
    archive_extended (entries (zipWriter sf)) (entries (zipWriter sf')).

(** The calls a session takes that return an error. *)
Inductive session_call : Type :=
| CallWrite (cells : list string)
| CallWriteAll (records : list (list string))
| CallNextSheet
| CallClose.

Section SessionCalls.
Context `{Collaborators}.

Definition session_run (c : session_call) : M StreamFile (option error) :=
  match c with
  | CallWrite cells => Write cells
  | CallWriteAll records => WriteAll records
  | CallNextSheet => NextSheet
  | CallClose => Close
  end.

(** Calls in a row, and what each returned. *)
Fixpoint session_runs (cs : list session_call) : M StreamFile (list (option error)) :=
  match cs with
  | [] => ret []
  | c :: cs' => e <- session_run c ;; es <- session_runs cs' ;; ret (e :: es)
  end.

(** The string table once the rows are encoded, the first of them at the row
    position [rc]. *)
Fixpoint rows_table (rc : Z) (rt : RefTable) (rows : list (list string)) : RefTable :=
  match rows with
  | [] => rt
  | row :: rows' =>
      let rc' := wrap64 (rc + 1) in
      rows_table rc' (fst (makeXLSXRowForStreaming (wrap64 (rc' - 1)) row rt)) rows'
  end.

(** Every row has [k] cells and an encoding. *)
Fixpoint rows_encode (k rc : Z) (rt : RefTable) (rows : list (list string)) : bool :=
  match rows with
  | [] => true
  | row :: rows' =>
      let rc' := wrap64 (rc + 1) in
      let '(rt', xRow) := makeXLSXRowForStreaming (wrap64 (rc' - 1)) row rt in
      (len row =? k)
      && match xml_Marshal xRow with
         | inl _ => rows_encode k rc' rt' rows'
         | inr _ => false
         end
  end.

End SessionCalls.

(** The parts of the workbook that are no sheets. *)
Definition metadata_parts (parts : list (string * string)) : list (string * string) :=
  List.filter (fun part => negb (is_sheet_part part)) parts.

(** A computation of the session that relates the session it leaves to the
    one it found by [R], whatever it returns. *)
Definition session_keeps {A} (R : StreamFile -> StreamFile -> Prop)
    (m : M StreamFile A) : Prop :=
  forall sf a sf', m sf = Done (a, sf') -> R sf sf'.

(** The workbook and the templates [Build] set up are the same. *)
Definition same_templates (sf sf' : StreamFile) : Prop :=
  file sf' = file sf
  /\ sheetXmlPrefix sf' = sheetXmlPrefix sf
  /\ sheetXmlSuffix sf' = sheetXmlSuffix sf.

(** The archive is as open or as closed as it was. *)
Definition same_openness (sf sf' : StreamFile) : Prop :=
  zclosed (zipWriter sf') = zclosed (zipWriter sf).

(** * Properties *)

(** ** The monad and the sink *)

Lemma tick_healthy z : healthy z -> tick z = (None, drain z).
Proof.
  unfold healthy, tick, drain. destruct z as [es c fs]; simpl.
  destruct fs as [|f fs]; [reflexivity|].
  intros Hf. inversion Hf; subst. reflexivity.
Qed.

Lemma healthy_drop es c n z :
  healthy z -> healthy {| entries := es; zclosed := c; faults := drop n (faults z) |}.
Proof. unfold healthy. simpl. apply Forall_drop. Qed.

Lemma healthy_drain z : healthy z -> healthy (drain z).
Proof. apply healthy_drop. Qed.

Lemma demo_builder_run fs :
  (@AddSheet demo "S1" ["A"; "B"] ;;; @AddSheet demo "S2" ["C"])
    (NewStreamFileBuilder fs) = Done (None, demo_builder fs).
Proof. reflexivity. Qed.

Lemma demo_session_built :
  exists sb, @Build demo (demo_builder []) = Done (Ok (demo_session []), sb).
Proof. eexists. vm_compute. reflexivity. Qed.

(** ** Strings and entries *)

Lemma sapp_cons (x : ascii) (a b : string) : String x a +:+ b = String x (a +:+ b).
Proof. reflexivity. Qed.

Lemma sapp_nil_l (a : string) : EmptyString +:+ a = a.
Proof. reflexivity. Qed.

Lemma sapp_assoc (a b c : string) : (a +:+ b) +:+ c = a +:+ (b +:+ c).
Proof.
  induction a as [|x a IH]; [reflexivity|].
  rewrite !sapp_cons, IH. reflexivity.
Qed.

Lemma sapp_nil_r (a : string) : a +:+ EmptyString = a.
Proof.
  induction a as [|x a IH]; [reflexivity|].
  rewrite sapp_cons, IH. reflexivity.
Qed.

Lemma append_entry_twice w a b l :
  append_entry w b (append_entry w a l) = append_entry w (a +:+ b) l.
Proof.
  unfold append_entry. rewrite list_alter_alter_eq.
  apply list_alter_ext; [|reflexivity]. intros [p c] _. simpl.
  rewrite sapp_assoc. reflexivity.
Qed.

Lemma append_entry_new l path data :
  append_entry (length l) data (l ++ [(path, EmptyString)]) = l ++ [(path, data)].
Proof.
  unfold append_entry.
  replace (length l) with (length l + 0)%nat by lia.
  rewrite alter_app_r. reflexivity.
Qed.

Lemma length_append_entry w data l : length (append_entry w data l) = length l.
Proof. apply length_alter. Qed.

Lemma append_entry_nil w l : append_entry w EmptyString l = l.
Proof.
  unfold append_entry. apply list_alter_id. intros [p c]. simpl.
  rewrite sapp_nil_r. reflexivity.
Qed.

Lemma grown_refl l : grown l l.
Proof.
  unfold grown. apply Forall_Forall2_diag, Forall_forall. intros e _.
  split; [reflexivity|]. exists EmptyString. symmetry. apply sapp_nil_r.
Qed.

Lemma grown_append_entry w data l : grown l (append_entry w data l).
Proof.
  unfold grown, append_entry. apply Forall2_alter_r; [apply grown_refl|].
  intros e e' _ _ [Hp [d Hd]]. simpl. split; [exact Hp|].
  exists (d +:+ data). rewrite Hd. apply sapp_assoc.
Qed.

(** ** The sticky error *)

Section StickyError.
Context `{Collaborators}.

(** Every operation but [Flush] hands a stored error back and does nothing. *)
Lemma Write_refused sf e cells :
  err sf = Some e -> Write cells sf = Done (Some e, sf).
Proof. intros He. unfold Write, bind, gets, ret. rewrite He. reflexivity. Qed.

Lemma WriteAll_refused sf e records :
  err sf = Some e -> WriteAll records sf = Done (Some e, sf).
Proof. intros He. unfold WriteAll, bind, gets, ret. rewrite He. reflexivity. Qed.

Lemma NextSheet_refused sf e :
  err sf = Some e -> NextSheet sf = Done (Some e, sf).
Proof. intros He. unfold NextSheet, bind, gets, ret. rewrite He. reflexivity. Qed.

Lemma Close_refused sf e :
  err sf = Some e -> Close sf = Done (Some e, sf).
Proof. intros He. unfold Close, bind, gets, ret. rewrite He. reflexivity. Qed.

(** [Flush] on a session without a stored error does nothing at all, and on a
    session with one it stores what the flush of the sink returns instead. *)
Lemma Flush_without_error sf :
  err sf = None -> Flush sf = Done (tt, sf).
Proof. intros He. unfold Flush, bind, gets, ret. rewrite He. reflexivity. Qed.

Lemma Flush_with_error sf e :
  err sf = Some e ->
  Flush sf = Done (tt, set_err (fst (zw_Flush (zipWriter sf)))
                         (set_zipWriter (snd (zw_Flush (zipWriter sf))) sf)).
Proof.
  intros He. unfold Flush, bind, gets, with_zip, modify. rewrite He.
  destruct (zw_Flush (zipWriter sf)) as [e' z']. reflexivity.
Qed.

End StickyError.

(** C1. The stored error is not kept for good. On the session [Build] returns
    for the two sheets, [Write] with one cell stores the column-count error;
    [Flush] on a sink without faults then puts nil in its place, and the next
    [Write] is taken as if nothing had happened. *)
Theorem Flush_clears_stored_error :
  exists sf1 sf2 sf3,
    @Write demo ["1"] (demo_session []) = Done (Some WrongNumberOfRowsError, sf1)
    /\ err sf1 = Some WrongNumberOfRowsError
    /\ Flush sf1 = Done (tt, sf2)
    /\ err sf2 = None
    /\ @Write demo ["1"; "2"] sf2 = Done (None, sf3).
Proof.
  do 3 eexists.
  split; [vm_compute; reflexivity|].
  split; [vm_compute; reflexivity|].
  split; [vm_compute; reflexivity|].
  split; vm_compute; reflexivity.
Qed.


(** ** Rows and the column count *)

Section Rows.
Context `{Collaborators}.

Lemma write_wrong_count sf cs cells :
  currentSheet sf = Some cs -> len cells <> columnCount cs ->
  write cells sf = Done (Some WrongNumberOfRowsError, sf).
Proof.
  intros Hc Hn. unfold write, bind, gets, ret. rewrite Hc.
  apply Z.eqb_neq in Hn. rewrite Hn. reflexivity.
Qed.


(** With the right number of cells, no error of [write] is the column-count
    error: what is left are the errors of the encoder and of the sink. *)
Lemma write_right_count sf cs cells e sf' :
  currentSheet sf = Some cs -> len cells = columnCount cs ->
  write cells sf = Done (Some e, sf') ->
  (exists msg, e = PackageError msg) \/ (exists c, e = SinkError c) \/ e = ZipClosedFile.
Proof.
  intros Hc Hn. unfold write, bind, gets, ret, modify. rewrite Hc.
  apply Z.eqb_eq in Hn. rewrite Hn. simpl.
  destruct (makeXLSXRowForStreaming _ _ _) as [rt' xRow].
  destruct (xml_Marshal xRow) as [rowBytes|msg].
  - unfold streamSheet_write, with_zip, throw. simpl.
    destruct (writer cs) as [w|]; [|discriminate]. simpl.
    unfold fw_Write, zw_Flush.
    destruct (entry_open w (zipWriter sf)).
    + destruct (tick (zipWriter sf)) as [[c|] z'].
      * intros [= <- _]. eauto.
      * simpl. destruct (tick _) as [[c|] z'']; intros [= <- _]. eauto.
    + intros [= <- _]. auto.
  - intros [= <- _]. eauto.
Qed.

(** What a [write] that returns leaves behind. *)
Lemma write_effect sf cells r sf' :
  write cells sf = Done (r, sf') ->
  file sf' = file sf /\ sheetXmlPrefix sf' = sheetXmlPrefix sf
  /\ sheetXmlSuffix sf' = sheetXmlSuffix sf /\ err sf' = err sf
  /\ grown (entries (zipWriter sf)) (entries (zipWriter sf')).
Proof.
  unfold write, bind, gets, ret, modify.
  destruct (currentSheet sf) as [cs|].
  2:{ intros [= _ <-]. repeat split; auto. apply grown_refl. }
  destruct (len cells =? columnCount cs); simpl.
  2:{ intros [= _ <-]. repeat split; auto. apply grown_refl. }
  destruct (makeXLSXRowForStreaming _ _ _) as [rt' xRow].
  destruct (xml_Marshal xRow) as [rowBytes|msg].
  2:{ intros [= _ <-]. repeat split; auto. apply grown_refl. }
  unfold streamSheet_write, with_zip, throw. simpl.
  destruct (writer cs) as [w|]; [|discriminate]. simpl.
  unfold fw_Write, zw_Flush.
  destruct (entry_open w (zipWriter sf)).
  2:{ intros [= _ <-]. repeat split; auto. apply grown_refl. }
  destruct (zipWriter sf) as [es c fs]. unfold tick. simpl.
  destruct fs as [|[n|] fs]; simpl.
  - intros [= _ <-]. repeat split; auto. apply grown_append_entry.
  - intros [= _ <-]. repeat split; auto. apply grown_refl.
  - destruct fs as [|[n|] fs]; simpl; intros [= _ <-]; repeat split; auto;
      apply grown_append_entry.
Qed.

(** What a [write] that succeeds did. *)
Lemma write_done sf cells sf' :
  write cells sf = Done (None, sf') ->
  exists cs w rowBytes,
    currentSheet sf = Some cs /\ writer cs = Some w
    /\ xml_Marshal (snd (makeXLSXRowForStreaming
                          (wrap64 (wrap64 (rowCount cs + 1) - 1)) cells (refTable sf)))
       = inl rowBytes
    /\ entries (zipWriter sf') = append_entry w rowBytes (entries (zipWriter sf))
    /\ currentSheet sf' = Some (set_rowCount (wrap64 (rowCount cs + 1)) cs)
    /\ refTable sf' = fst (makeXLSXRowForStreaming
                             (wrap64 (wrap64 (rowCount cs + 1) - 1)) cells (refTable sf)).
Proof.
  unfold write, bind, gets, ret, modify.
  destruct (currentSheet sf) as [cs|]; [|discriminate].
  destruct (len cells =? columnCount cs); simpl; [|discriminate].
  destruct (makeXLSXRowForStreaming _ _ _) as [rt' xRow] eqn:Hmk. simpl.
  destruct (xml_Marshal xRow) as [rowBytes|msg] eqn:Hm; [|discriminate].
  unfold streamSheet_write, with_zip, throw. simpl.
  destruct (writer cs) as [w|] eqn:Hw; [|discriminate]. simpl.
  unfold fw_Write, zw_Flush.
  destruct (entry_open w (zipWriter sf)); [|discriminate].
  destruct (zipWriter sf) as [es c fs]. unfold tick. simpl.
  destruct fs as [|[n|] fs]; simpl; try discriminate.
  - intros [= <-]. exists cs, w, rowBytes. rewrite Hmk.
    repeat split; (assumption || reflexivity).
  - destruct fs as [|[n|] fs]; simpl; try discriminate;
      intros [= <-]; exists cs, w, rowBytes; rewrite Hmk;
      repeat split; (assumption || reflexivity).
Qed.

(** The rows that were written are in the entry of the sheet. *)
Lemma rows_written_entries rows sf sf' :
  rows_written rows sf sf' ->
  forall cs w, currentSheet sf = Some cs -> writer cs = Some w ->
    entries (zipWriter sf') =
      append_entry w (rows_xml (rowCount cs) (refTable sf) rows) (entries (zipWriter sf)).
Proof.
  induction 1 as [sf|row rows sf sf1 sf2 Hw Hrows IH]; intros cs w Hc Hwr.
  - cbn [rows_xml]. rewrite append_entry_nil. reflexivity.
  - destruct (write_done _ _ _ Hw) as (cs' & w' & rowBytes & Hc' & Hw' & Hm & He & Hc1 & Hr).
    rewrite Hc in Hc'. injection Hc' as <-. rewrite Hwr in Hw'. injection Hw' as <-.
    rewrite (IH _ w Hc1 Hwr), He, append_entry_twice. cbn [rows_xml rowCount set_rowCount].
    destruct (makeXLSXRowForStreaming _ _ _) as [rt' xRow]. simpl in Hm, Hr.
    rewrite Hm, Hr. reflexivity.
Qed.

Lemma WriteAll_rows_stops pre : forall sf sf1 sf2 row post e,
  rows_written pre sf sf1 -> write row sf1 = Done (Some e, sf2) ->
  WriteAll_rows (pre ++ row :: post) sf = Done (Some e, set_err (Some e) sf2).
Proof.
  intros sf sf1 sf2 row post e Hpre. revert sf2 row post e.
  induction Hpre as [sf|r rows sf sf1 sf' Hw Hrows IH]; intros sf2 row post e Hrow.
  - cbn [app WriteAll_rows]. unfold bind. rewrite Hrow. reflexivity.
  - cbn [app WriteAll_rows]. unfold bind at 1. rewrite Hw. apply IH. exact Hrow.
Qed.

(** C9. [WriteAll] on a session without a stored error writes the rows in
    order and stops at the first row [write] refuses: if [write] took the rows
    [pre], which left their bytes in the entry of the sheet, and returns the
    error [e] for [row], then [WriteAll] returns [e], stores it, and leaves the
    session as the failed [write] left it, whatever the rows [post] are;
    nothing that was in the archive is taken back. *)
Theorem WriteAll_stops_at_first_failure sf sf1 sf2 pre row post e :
  err sf = None ->
  rows_written pre sf sf1 ->
  write row sf1 = Done (Some e, sf2) ->
  WriteAll (pre ++ row :: post) sf = Done (Some e, set_err (Some e) sf2)
  /\ (forall cs w, currentSheet sf = Some cs -> writer cs = Some w ->
       entries (zipWriter sf1) =
         append_entry w (rows_xml (rowCount cs) (refTable sf) pre) (entries (zipWriter sf)))
  /\ grown (entries (zipWriter sf1)) (entries (zipWriter (set_err (Some e) sf2))).
Proof.
  intros He Hpre Hrow. split; [|split].
  - unfold WriteAll, bind at 1, gets. rewrite He. unfold bind.
    rewrite (WriteAll_rows_stops _ _ _ _ _ post _ Hpre Hrow). reflexivity.
  - intros cs w. apply rows_written_entries. exact Hpre.
  - apply (write_effect _ _ _ _ Hrow).
Qed.

(** C5. The sheet that is open is the registered sheet [sheet] with [k]
    columns, and its column count is the one [NextSheet] took from it. [Write]
    with [k] cells does not return the column-count error; [Write] with any
    other number of cells returns it and changes nothing but the stored error:
    the row counter and the archive are as they were. *)
Theorem Write_checks_column_count sf cs sheet k cells :
  err sf = None -> currentSheet sf = Some cs ->
  Sheets (file sf) !! Z.to_nat (index cs - 1) = Some sheet ->
  len (Cols sheet) = k -> columnCount cs = len (Cols sheet) ->
  (len cells = k ->
     forall sf', Write cells sf <> Done (Some WrongNumberOfRowsError, sf'))
  /\ (len cells <> k ->
       Write cells sf =
         Done (Some WrongNumberOfRowsError, set_err (Some WrongNumberOfRowsError) sf)).
Proof.
  intros He Hc _ Hk Hcc. split; intros Hn.
  - assert (Hlen : len cells = columnCount cs) by congruence.
    intros sf'. unfold Write, bind, gets, ret, modify. rewrite He.
    destruct (write cells sf) as [[[e|] sf1]|p] eqn:Hw; [| |discriminate].
    + destruct (write_right_count _ _ _ _ _ Hc Hlen Hw)
        as [[msg ->]|[[c ->]| ->]]; discriminate.
    + unfold with_zip, zw_Flush. destruct (tick (zipWriter sf1)) as [[c|] z]; discriminate.
  - unfold Write, bind, gets, ret, modify. rewrite He.
    rewrite (write_wrong_count _ cs) by congruence. reflexivity.
Qed.


End Rows.

(** ** Moving to the next sheet *)

Section NextSheet.
Context `{Collaborators}.

Lemma index_at_lookup {A} (l : list A) (i : Z) (x : A) :
  0 <= i -> l !! Z.to_nat i = Some x -> index_at l i = Done x.
Proof.
  intros Hi Hl. unfold index_at.
  destruct (Z.ltb_spec i 0); [lia|]. rewrite Hl. reflexivity.
Qed.

Lemma streamSheet_write_healthy sf cs w data :
  writer cs = Some w -> entry_open w (zipWriter sf) = true -> healthy (zipWriter sf) ->
  streamSheet_write cs data sf =
    Done (None,
          set_zipWriter {| entries := append_entry w data (entries (zipWriter sf));
                           zclosed := zclosed (zipWriter sf);
                           faults := drop 1 (faults (zipWriter sf)) |} sf).
Proof.
  intros Hw Ho Hh. unfold streamSheet_write, with_zip, fw_Write.
  rewrite Hw, Ho, (tick_healthy _ Hh). reflexivity.
Qed.

Lemma entry_open_append w v data z n :
  entry_open w z = true ->
  entry_open w {| entries := append_entry v data (entries z);
                  zclosed := zclosed z; faults := drop n (faults z) |} = true.
Proof. unfold entry_open. simpl. rewrite length_append_entry. auto. Qed.

Lemma writeSheetEnd_healthy sf cs w suf :
  currentSheet sf = Some cs -> writer cs = Some w ->
  entry_open w (zipWriter sf) = true -> healthy (zipWriter sf) ->
  1 <= index cs -> sheetXmlSuffix sf !! Z.to_nat (index cs - 1) = Some suf ->
  writeSheetEnd sf =
    Done (None,
          set_zipWriter {| entries := append_entry w (endSheetDataTag +:+ suf)
                                        (entries (zipWriter sf));
                           zclosed := zclosed (zipWriter sf);
                           faults := drop 2 (faults (zipWriter sf)) |} sf).
Proof.
  intros Hc Hw Ho Hh Hi Hsuf.
  assert (Hx : index_at (sheetXmlSuffix sf) (index cs - 1) = Done suf)
    by (apply index_at_lookup; [lia|exact Hsuf]).
  unfold writeSheetEnd, bind, gets. rewrite Hc.
  rewrite (streamSheet_write_healthy _ _ _ _ Hw Ho Hh).
  cbn [sheetXmlSuffix set_zipWriter]. unfold lift. rewrite Hx.
  rewrite (streamSheet_write_healthy _ _ w).
  - cbn [zipWriter set_zipWriter entries zclosed faults].
    rewrite append_entry_twice, drop_drop. reflexivity.
  - exact Hw.
  - cbn [zipWriter set_zipWriter]. apply entry_open_append. exact Ho.
  - cbn [zipWriter set_zipWriter]. apply healthy_drop. exact Hh.
Qed.

Lemma well_formed_current sf cs :
  well_formed sf = true -> currentSheet sf = Some cs ->
  length (sheetXmlPrefix sf) = length (Sheets (file sf))
  /\ length (sheetXmlSuffix sf) = length (Sheets (file sf))
  /\ 1 <= index cs <= len (Sheets (file sf))
  /\ (exists sheet, Sheets (file sf) !! Z.to_nat (index cs - 1) = Some sheet
                    /\ columnCount cs = len (Cols sheet))
  /\ (exists w, writer cs = Some w /\ zclosed (zipWriter sf) = false
                /\ S w = length (entries (zipWriter sf))).
Proof.
  unfold well_formed, current_ok, entry_open. intros Hwf Hc. rewrite Hc in Hwf.
  repeat match goal with
         | Hx : _ && _ = true |- _ => apply andb_true_iff in Hx; destruct Hx
         end.
  destruct (Sheets (file sf) !! Z.to_nat (index cs - 1)) as [sheet|]; [|discriminate].
  destruct (writer cs) as [w|]; [|discriminate].
  repeat match goal with
         | Hx : _ && _ = true |- _ => apply andb_true_iff in Hx; destruct Hx
         | Hx : negb _ = true |- _ => apply negb_true_iff in Hx
         | Hx : (_ =? _)%nat = true |- _ => apply Nat.eqb_eq in Hx
         | Hx : (_ =? _) = true |- _ => apply Z.eqb_eq in Hx
         | Hx : (_ <=? _) = true |- _ => apply Z.leb_le in Hx
         end.
  repeat split; eauto; lia.
Qed.

Lemma NextSheet_open_healthy sf i sheet pre :
  0 <= i ->
  Sheets (file sf) !! Z.to_nat i = Some sheet ->
  sheetXmlPrefix sf !! Z.to_nat i = Some pre ->
  healthy (zipWriter sf) -> zclosed (zipWriter sf) = false ->
  NextSheet_open i sf =
    Done (None,
          set_zipWriter
            {| entries := entries (zipWriter sf) ++ [(sheetPath (i + 1), pre)];
               zclosed := false;
               faults := drop 2 (faults (zipWriter sf)) |}
            (set_currentSheet
               (Some {| index := i + 1; rowCount := 1;
                        columnCount := len (Cols sheet);
                        writer := Some (length (entries (zipWriter sf))) |}) sf)).
Proof.
  intros Hi Hs Hpre Hh Hcl.
  assert (Hx : index_at (Sheets (file sf)) (i + 1 - 1) = Done sheet).
  { apply index_at_lookup; [lia|]. replace (i + 1 - 1) with i by lia. exact Hs. }
  assert (Hy : index_at (sheetXmlPrefix sf) (i + 1 - 1) = Done pre).
  { apply index_at_lookup; [lia|]. replace (i + 1 - 1) with i by lia. exact Hpre. }
  unfold NextSheet_open, bind, gets, lift, modify. rewrite Hx.
  unfold with_zip at 1, zw_Create.
  cbn [zipWriter set_currentSheet index]. rewrite (tick_healthy _ Hh).
  unfold writeSheetStart, bind, gets, lift.
  cbn [currentSheet set_currentSheet set_zipWriter sheetXmlPrefix index set_writer].
  rewrite Hy.
  erewrite streamSheet_write_healthy; [| reflexivity | |].
  - cbn [zipWriter set_zipWriter set_currentSheet drain entries zclosed faults].
    rewrite append_entry_new, Hcl, drop_drop. reflexivity.
  - unfold entry_open.
    cbn [zipWriter set_zipWriter set_currentSheet drain entries zclosed faults].
    rewrite Hcl, length_app. cbn [length negb andb].
    rewrite Nat.add_1_r, Nat.eqb_refl. reflexivity.
  - cbn [zipWriter set_zipWriter set_currentSheet drain entries zclosed faults].
    apply healthy_drop. exact Hh.
Qed.

Lemma NextSheet_advances sf cs w sheet :
  err sf = None -> currentSheet sf = Some cs -> well_formed sf = true ->
  index cs < len (Sheets (file sf)) -> healthy (zipWriter sf) ->
  writer cs = Some w ->
  Sheets (file sf) !! Z.to_nat (index cs) = Some sheet ->
  NextSheet sf =
    Done (None,
      {| file := file sf;
         sheetXmlPrefix := sheetXmlPrefix sf;
         sheetXmlSuffix := sheetXmlSuffix sf;
         zipWriter :=
           {| entries :=
                append_entry w (endSheetDataTag +:+ suffix_of sf (Z.to_nat (index cs - 1)))
                  (entries (zipWriter sf))
                ++ [(sheetPath (index cs + 1), prefix_of sf (Z.to_nat (index cs)))];
              zclosed := false;
              faults := drop 4 (faults (zipWriter sf)) |};
         currentSheet :=
           Some {| index := index cs + 1; rowCount := 1;
                   columnCount := len (Cols sheet);
                   writer := Some (length (entries (zipWriter sf))) |};
         refTable := refTable sf;
         err := None |}).
Proof.
  intros He Hc Hwf Hlt Hh Hw Hs.
  destruct (well_formed_current _ _ Hwf Hc) as (Hlp & Hls & Hi & _ & (w' & Hw' & Hcl & Hlen)).
  rewrite Hw in Hw'. injection Hw' as <-.
  assert (Ho : entry_open w (zipWriter sf) = true).
  { unfold entry_open. rewrite Hcl, Hlen, Nat.eqb_refl. reflexivity. }
  destruct (lookup_lt_is_Some_2 (sheetXmlSuffix sf) (Z.to_nat (index cs - 1))) as [suf Hsuf];
    [unfold len in *; lia|].
  destruct (lookup_lt_is_Some_2 (sheetXmlPrefix sf) (Z.to_nat (index cs))) as [pre Hpre];
    [unfold len in *; lia|].
  unfold NextSheet, bind, gets, ret, modify. rewrite He, Hc.
  destruct (Z.leb_spec (len (Sheets (file sf))) (index cs)); [lia|].
  rewrite (writeSheetEnd_healthy _ _ _ _ Hc Hw Ho Hh ltac:(lia) Hsuf).
  erewrite NextSheet_open_healthy;
    [| lia | exact Hs | exact Hpre | apply healthy_drop; exact Hh | exact Hcl].
  unfold suffix_of, prefix_of. rewrite Hsuf, Hpre.
  cbn [zipWriter set_zipWriter set_currentSheet entries zclosed faults default
       file sheetXmlPrefix sheetXmlSuffix refTable err].
  rewrite length_append_entry, drop_drop.
  unfold set_zipWriter, set_currentSheet.
  cbn [file sheetXmlPrefix sheetXmlSuffix refTable err id]. rewrite He. reflexivity.
Qed.

(** C3. On a session without a stored error whose sheet [cs] is open:
    [NextSheet] returns [AlreadyOnLastSheetError] when no sheet is left behind
    [cs]; otherwise, on a sink that takes every call, it appends the end tag
    and the suffix of [cs] to the entry of [cs], starts the entry
    xl/worksheets/sheetN.xml of the next sheet, N being its index counted
    from 1, with the prefix of that sheet as its bytes, and makes that sheet
    the current one, with the row counter 1. *)
Theorem NextSheet_transition sf cs :
  err sf = None -> currentSheet sf = Some cs ->
  (len (Sheets (file sf)) <= index cs ->
     NextSheet sf =
       Done (Some AlreadyOnLastSheetError, set_err (Some AlreadyOnLastSheetError) sf))
  /\ (index cs < len (Sheets (file sf)) ->
       well_formed sf = true -> healthy (zipWriter sf) ->
       exists w sheet,
         writer cs = Some w
         /\ Sheets (file sf) !! Z.to_nat (index cs) = Some sheet
         /\ NextSheet sf =
              Done (None,
                {| file := file sf;
                   sheetXmlPrefix := sheetXmlPrefix sf;
                   sheetXmlSuffix := sheetXmlSuffix sf;
                   zipWriter :=
                     {| entries :=
                          append_entry w
                            (endSheetDataTag +:+ suffix_of sf (Z.to_nat (index cs - 1)))
                            (entries (zipWriter sf))
                          ++ [(sheetFilePathPrefix +:+ Itoa (index cs + 1)
                                 +:+ sheetFilePathSuffix,
                               prefix_of sf (Z.to_nat (index cs)))];
                        zclosed := false;
                        faults := drop 4 (faults (zipWriter sf)) |};
                   currentSheet :=
                     Some {| index := index cs + 1; rowCount := 1;
                             columnCount := len (Cols sheet);
                             writer := Some (length (entries (zipWriter sf))) |};
                   refTable := refTable sf;
                   err := None |})).
Proof.
  intros He Hc. split.
  - intros Hlast. unfold NextSheet, bind, gets, ret, modify. rewrite He, Hc.
    destruct (Z.leb_spec (len (Sheets (file sf))) (index cs)); [reflexivity|lia].
  - intros Hlt Hwf Hh.
    destruct (well_formed_current _ _ Hwf Hc) as (_ & _ & Hi & _ & (w & Hw & _ & _)).
    destruct (lookup_lt_is_Some_2 (Sheets (file sf)) (Z.to_nat (index cs))) as [sheet Hs];
      [unfold len in *; lia|].
    exists w, sheet. split; [exact Hw|]. split; [exact Hs|].
    apply NextSheet_advances; assumption.
Qed.

Lemma NextSheet_advances_invariant sf cs w sheet sf' :
  err sf = None -> currentSheet sf = Some cs -> well_formed sf = true ->
  index cs < len (Sheets (file sf)) -> healthy (zipWriter sf) ->
  writer cs = Some w ->
  Sheets (file sf) !! Z.to_nat (index cs) = Some sheet ->
  NextSheet sf = Done (None, sf') ->
  well_formed sf' = true /\ healthy (zipWriter sf')
  /\ closed_entries sf' = closed_entries sf ++ [empty_sheet_entry sf (Z.to_nat (index cs))].
Proof.
  intros He Hc Hwf Hlt Hh Hw Hs Hn.
  rewrite (NextSheet_advances _ _ _ _ He Hc Hwf Hlt Hh Hw Hs) in Hn.
  injection Hn as <-.
  destruct (well_formed_current _ _ Hwf Hc) as (Hlp & Hls & Hi & _ & _).
  split; [|split].
  - unfold well_formed, current_ok, entry_open.
    cbn [file sheetXmlPrefix sheetXmlSuffix currentSheet zipWriter index columnCount
         writer entries zclosed].
    rewrite Hlp, Hls, !Nat.eqb_refl.
    replace (index cs + 1 - 1) with (index cs) by lia. rewrite Hs, Z.eqb_refl.
    rewrite length_app, length_append_entry. cbn [length].
    rewrite Nat.add_1_r, Nat.eqb_refl.
    destruct (Z.leb_spec 1 (index cs + 1)); [|lia].
    destruct (Z.leb_spec (index cs + 1) (len (Sheets (file sf)))); [|lia].
    reflexivity.
  - apply healthy_drop. exact Hh.
  - unfold closed_entries at 1 2.
    cbn [currentSheet writer zipWriter entries index]. rewrite Hc, Hw.
    unfold append_entry at 1.
    rewrite <- (length_append_entry w
      (endSheetDataTag +:+ suffix_of sf (Z.to_nat (index cs - 1))) (entries (zipWriter sf))).
    rewrite <- (Nat.add_0_r (length (append_entry _ _ _))), alter_app_r.
    cbn [alter list_alter fst snd]. unfold empty_sheet_entry.
    replace (index cs + 1 - 1) with (index cs) by lia.
    rewrite Z2Nat.id by lia. unfold suffix_of at 2, prefix_of.
    cbn [sheetXmlSuffix sheetXmlPrefix]. reflexivity.
Qed.

End NextSheet.

(** ** Closing the session *)

Section Close.
Context `{Collaborators}.

Lemma Close_sheets_healthy k : forall fuel sf cs,
  err sf = None -> currentSheet sf = Some cs ->
  well_formed sf = true -> healthy (zipWriter sf) ->
  Z.to_nat (len (Sheets (file sf)) - index cs) = k -> (k <= fuel)%nat ->
  exists sf' cs',
    Close_sheets fuel sf = Done (None, sf')
    /\ file sf' = file sf
    /\ sheetXmlPrefix sf' = sheetXmlPrefix sf
    /\ sheetXmlSuffix sf' = sheetXmlSuffix sf
    /\ refTable sf' = refTable sf
    /\ err sf' = None
    /\ currentSheet sf' = Some cs'
    /\ index cs' = len (Sheets (file sf))
    /\ well_formed sf' = true
    /\ healthy (zipWriter sf')
    /\ closed_entries sf' =
         closed_entries sf ++ map (empty_sheet_entry sf) (seq (Z.to_nat (index cs)) k).
Proof.
  induction k as [|k IH]; intros fuel sf cs He Hc Hwf Hh Hk Hfuel;
    destruct (well_formed_current _ _ Hwf Hc) as (Hlp & Hls & Hi & _ & (w & Hw & _ & _)).
  - exists sf, cs.
    assert (Hx : Close_sheets fuel sf = Done (None, sf)).
    { destruct fuel; cbn [Close_sheets]; unfold bind, gets, ret; rewrite Hc;
        destruct (Z.ltb_spec (index cs) (len (Sheets (file sf)))); (lia || reflexivity). }
    cbn [seq map]. rewrite app_nil_r. repeat split; auto. lia.
  - destruct fuel as [|fuel]; [lia|].
    assert (Hlt : index cs < len (Sheets (file sf))) by lia.
    destruct (lookup_lt_is_Some_2 (Sheets (file sf)) (Z.to_nat (index cs))) as [sheet Hs];
      [unfold len in *; lia|].
    pose proof (NextSheet_advances _ _ _ _ He Hc Hwf Hlt Hh Hw Hs) as Hn.
    destruct (NextSheet_advances_invariant _ _ _ _ _ He Hc Hwf Hlt Hh Hw Hs Hn)
      as (Hwf' & Hh' & Hce).
    match type of Hn with _ = Done (None, ?s) => set (sf1 := s) in * end.
    destruct (IH fuel sf1 _ eq_refl eq_refl Hwf' Hh') as (sf' & cs' & Hrun & R);
      [subst sf1; cbn [file currentSheet index]; lia | lia |].
    exists sf', cs'. split.
    + cbn [Close_sheets]. unfold bind at 1 2, gets. rewrite Hc.
      destruct (Z.ltb_spec (index cs) (len (Sheets (file sf)))); [|lia].
      unfold bind. rewrite Hn. exact Hrun.
    + destruct R as (? & ? & ? & ? & ? & ? & ? & ? & ? & Hce').
      repeat split; auto.
      rewrite Hce', Hce. cbn [seq map]. rewrite <- app_assoc. cbn [app].
      subst sf1. cbn [currentSheet index].
      replace (Z.to_nat (index cs + 1)) with (S (Z.to_nat (index cs))) by lia.
      reflexivity.
Qed.

Lemma Close_finish_healthy sf xml :
  marshalFullFile (makeXLSXSST (refTable sf)) = inl xml ->
  healthy (zipWriter sf) -> zclosed (zipWriter sf) = false ->
  Close_finish sf =
    Done (None,
          set_zipWriter {| entries := entries (zipWriter sf) ++ [(sharedStringsFilePath, xml)];
                           zclosed := true;
                           faults := drop 3 (faults (zipWriter sf)) |} sf).
Proof.
  intros Hm Hh Hcl. unfold Close_finish, bind, gets. rewrite Hm.
  unfold with_zip at 1, zw_Create. rewrite (tick_healthy _ Hh).
  unfold with_zip at 1, fw_Write, entry_open.
  cbn [zipWriter set_zipWriter drain entries zclosed faults].
  rewrite Hcl, length_app. cbn [length negb andb].
  rewrite Nat.add_1_r, Nat.eqb_refl.
  rewrite tick_healthy by (apply healthy_drop; exact Hh).
  unfold with_zip, zw_Close.
  cbn [zipWriter set_zipWriter drain entries zclosed faults].
  rewrite drop_drop.
  rewrite tick_healthy by (apply healthy_drop; exact Hh).
  cbn [zipWriter set_zipWriter drain entries zclosed faults].
  fold (append_entry (length (entries (zipWriter sf))) xml
          (entries (zipWriter sf) ++ [(sharedStringsFilePath, EmptyString)])).
  rewrite append_entry_new, !drop_drop. reflexivity.
Qed.

(** C4. [Close] on a session without a stored error, whose sheet [cs] is open,
    on a sink that takes every call: it ends the open sheet, gives every sheet
    behind it an entry that is its prefix, the end tag and its suffix, adds
    the string table as one entry at [sharedStringsFilePath], and closes the
    archive. The sheets behind the open one are opened by [NextSheet], which
    is what [Close_sheets] calls. *)
Theorem Close_completes_workbook sf cs w xml :
  err sf = None -> currentSheet sf = Some cs -> writer cs = Some w ->
  well_formed sf = true -> healthy (zipWriter sf) ->
  marshalFullFile (makeXLSXSST (refTable sf)) = inl xml ->
  exists sf',
    Close sf = Done (None, sf')
    /\ entries (zipWriter sf') =
         append_entry w (endSheetDataTag +:+ suffix_of sf (Z.to_nat (index cs - 1)))
           (entries (zipWriter sf))
         ++ map (empty_sheet_entry sf)
              (seq (Z.to_nat (index cs)) (Z.to_nat (len (Sheets (file sf)) - index cs)))
         ++ [(sharedStringsFilePath, xml)]
    /\ zclosed (zipWriter sf') = true
    /\ err sf' = None.
Proof.
  intros He Hc Hw Hwf Hh Hm.
  destruct (Close_sheets_healthy _ _ sf cs He Hc Hwf Hh eq_refl (le_n _))
    as (sf1 & cs1 & Hrun & Hf & Hp & Hs & Hr & He1 & Hc1 & Hi1 & Hwf1 & Hh1 & Hce).
  destruct (well_formed_current _ _ Hwf1 Hc1)
    as (Hlp & Hls & Hi & _ & (w1 & Hw1 & Hcl1 & Hlen1)).
  assert (Ho : entry_open w1 (zipWriter sf1) = true).
  { unfold entry_open. rewrite Hcl1, Hlen1, Nat.eqb_refl. reflexivity. }
  destruct (lookup_lt_is_Some_2 (sheetXmlSuffix sf1) (Z.to_nat (index cs1 - 1))) as [suf Hsuf];
    [unfold len in *; lia|].
  pose proof (writeSheetEnd_healthy _ _ _ _ Hc1 Hw1 Ho Hh1 ltac:(lia) Hsuf) as Hend.
  eexists. split; [|split; [|split]].
  - unfold Close, bind, gets. rewrite He, Hc.
    unfold bind in Hrun. rewrite Hrun, Hend.
    apply Close_finish_healthy.
    + cbn [refTable set_zipWriter]. rewrite Hr. exact Hm.
    + cbn [zipWriter set_zipWriter]. apply healthy_drop. exact Hh1.
    + cbn [zipWriter set_zipWriter zclosed]. exact Hcl1.
  - cbn [zipWriter set_zipWriter entries].
    unfold closed_entries in Hce. rewrite Hc1, Hw1, Hc, Hw in Hce.
    unfold suffix_of in Hce at 1. rewrite Hsuf in Hce.
    change (default EmptyString (Some suf)) with suf in Hce.
    rewrite Hce, <- app_assoc. reflexivity.
  - reflexivity.
  - cbn [err set_zipWriter]. exact He1.
Qed.

End Close.

(** ** The builder *)

Section Builder.
Context `{Collaborators}.

Lemma AddSheet_built sb name headers :
  sb_built sb = true ->
  AddSheet name headers sb = Done (Some BuiltStreamFileBuilderError, sb).
Proof. intros Hb. unfold AddSheet, bind, gets, ret. rewrite Hb. reflexivity. Qed.

Lemma Build_built sb :
  sb_built sb = true -> Build sb = Done (Err BuiltStreamFileBuilderError, sb).
Proof. intros Hb. unfold Build, bind, gets, ret. rewrite Hb. reflexivity. Qed.

Lemma AddSharedStrings_keeps sb sharedStrings sb' :
  AddSharedStrings sharedStrings sb = Done (tt, sb') ->
  sb_built sb' = sb_built sb /\ sb_file sb' = sb_file sb
  /\ sb_zipWriter sb' = sb_zipWriter sb.
Proof. unfold AddSharedStrings, modify. intros [= <-]. auto. Qed.

Lemma AddSheet_failure_spends sb name headers e sb' :
  AddSheet name headers sb = Done (Some e, sb') -> sb_built sb' = true.
Proof.
  unfold AddSheet, bind, gets, ret, modify.
  destruct (sb_built sb) eqn:Hb; [intros [= _ <-]; exact Hb|].
  destruct (File_AddSheet name (sb_file sb)) as [[f' sheet]|e']; [|intros [= _ <-]; reflexivity].
  destruct (WriteSlice sheet headers) as [sheet' count].
  destruct (count =? len headers); simpl; [discriminate|].
  intros [= _ <-]. reflexivity.
Qed.

Lemma Build_spends sb r sb' :
  Build sb = Done (r, sb') -> sb_built sb' = true.
Proof.
  unfold Build, bind, gets, ret, modify.
  destruct (sb_built sb) eqn:Hb; [intros [= _ <-]; exact Hb|].
  destruct (MarshallPartsForStreaming _ _) as [rt' [parts|msg]];
    [|intros [= _ <-]; reflexivity].
  unfold on_session. cbn [sb_zipWriter set_sb_refTable set_built].
  destruct (Build_parts parts _) as [[[e|] es]|p]; [intros [= _ <-]; reflexivity| |discriminate].
  destruct (NextSheet es) as [[[e|] es']|p]; [| |discriminate];
    intros [= _ <-]; reflexivity.
Qed.

(** A sheet that [AddSheet] took is the last sheet of the builder, and it has
    a column for every header cell if the header row gives every cell it
    takes a column, as the row of the package does. *)
Lemma AddSheet_columns sb name headers sb' :
  (forall sheet cells sheet' n,
     WriteSlice sheet cells = (sheet', n) -> len (Cols sheet') = n) ->
  AddSheet name headers sb = Done (None, sb') ->
  exists sheet,
    Sheets (sb_file sb') = Sheets (sb_file sb) ++ [sheet]
    /\ len (Cols sheet) = len headers.
Proof.
  intros Hlaw. unfold AddSheet, bind, gets, ret, modify.
  destruct (sb_built sb); [discriminate|].
  unfold File_AddSheet. destruct (existsb _ _); [discriminate|].
  destruct (WriteSlice _ headers) as [sheet' count] eqn:Hws.
  destruct (Z.eqb_spec count (len headers)) as [Hc|]; [|discriminate].
  cbn [negb]. intros [= <-]. exists sheet'.
  cbn [sb_file set_sb_file update_last_sheet Sheets].
  split; [|rewrite (Hlaw _ _ _ _ Hws); exact Hc].
  rewrite length_app. cbn [length]. rewrite Nat.add_1_r. cbn [Nat.pred].
  rewrite <- (Nat.add_0_r (length (Sheets (sb_file sb)))) at 1.
  rewrite insert_app_r. reflexivity.
Qed.

Lemma calls_on_built cs : forall sb,
  sb_built sb = true ->
  exists sb',
    calls cs sb = Done (map refusal cs, sb')
    /\ sb_built sb' = true /\ sb_file sb' = sb_file sb
    /\ sb_zipWriter sb' = sb_zipWriter sb.
Proof.
  induction cs as [|c cs IH]; intros sb Hb.
  - exists sb. repeat split; auto.
  - assert (Hc : exists sb1, call c sb = Done (refusal c, sb1) /\ sb_built sb1 = true
                             /\ sb_file sb1 = sb_file sb
                             /\ sb_zipWriter sb1 = sb_zipWriter sb).
    { destruct c as [name headers|strs|]; cbn [call refusal].
      - exists sb. rewrite AddSheet_built by exact Hb. auto.
      - eexists. unfold bind, ret, AddSharedStrings, modify. split; [reflexivity|].
        cbn [sb_built sb_file sb_zipWriter set_sb_refTable]. auto.
      - exists sb. unfold bind, ret. rewrite Build_built by exact Hb. auto. }
    destruct Hc as (sb1 & Hc & Hb1 & Hf1 & Hz1).
    destruct (IH sb1 Hb1) as (sb' & Hcs & Hb' & Hf' & Hz').
    exists sb'. cbn [calls map]. unfold bind at 1. rewrite Hc.
    unfold bind, ret. rewrite Hcs. repeat split; congruence.
Qed.

(** C8, as amended. A builder is spent once [Build] has returned, with or
    without an error, or once [AddSheet] has returned an error. On a builder
    that is spent, whatever calls follow, every [AddSheet] and every [Build]
    returns [BuiltStreamFileBuilderError] and leaves the builder as it is, so
    that the builder stays spent, with the sheets and the archive it had;
    [AddSharedStrings] has no error to return. *)
Theorem builder_is_one_shot :
  (forall sb r sb', Build sb = Done (r, sb') -> sb_built sb' = true)
  /\ (forall sb name headers e sb',
        AddSheet name headers sb = Done (Some e, sb') -> sb_built sb' = true)
  /\ (forall sb name headers,
        sb_built sb = true ->
        AddSheet name headers sb = Done (Some BuiltStreamFileBuilderError, sb)
        /\ Build sb = Done (Err BuiltStreamFileBuilderError, sb))
  /\ (forall sb cs,
        sb_built sb = true ->
        exists sb',
          calls cs sb = Done (map refusal cs, sb')
          /\ sb_built sb' = true /\ sb_file sb' = sb_file sb
          /\ sb_zipWriter sb' = sb_zipWriter sb).
Proof.
  split; [|split; [|split]].
  - exact Build_spends.
  - exact AddSheet_failure_spends.
  - intros sb name headers Hb. split; [apply AddSheet_built|apply Build_built]; exact Hb.
  - intros sb cs. apply calls_on_built.
Qed.

End Builder.

(** ** Splitting an empty sheet at the end of its data *)

Section Split.

Lemma prefix_sapp (sep rest : string) : String.prefix sep (sep +:+ rest) = true.
Proof.
  induction sep as [|c sep IH]; [destruct rest; reflexivity|].
  rewrite sapp_cons. cbn [String.prefix].
  destruct (ascii_dec c c); [exact IH|congruence].
Qed.

Lemma prefix_split (sep s : string) :
  String.prefix sep s = true -> s = sep +:+ sdrop (String.length sep) s.
Proof.
  revert s. induction sep as [|c sep IH]; intros s Hp; [reflexivity|].
  destruct s as [|d s]; [discriminate|]. cbn [String.prefix] in Hp.
  destruct (ascii_dec c d) as [->|]; [|discriminate].
  rewrite sapp_cons. cbn [String.length sdrop]. f_equal. apply IH. exact Hp.
Qed.

Lemma Index_None (sep s : string) :
  Index s sep = None <-> occurrences sep s = O.
Proof.
  induction s as [|c s IH]; cbn [Index occurrences].
  - destruct (String.prefix sep EmptyString); split; (discriminate || reflexivity).
  - destruct (String.prefix sep (String c s)); [split; discriminate|].
    destruct (Index s sep); cbn [option_map Nat.add]; split; intros Hx;
      try discriminate; try reflexivity.
    + apply IH in Hx. discriminate.
    + apply IH. reflexivity.
Qed.

(** The first occurrence cuts the string in three, and no occurrence starts
    before it. *)
Lemma Index_Some (sep : string) : forall s m,
  Index s sep = Some m ->
  s = stake m s +:+ sep +:+ sdrop (m + String.length sep) s
  /\ occurrences sep s = occurrences sep (sep +:+ sdrop (m + String.length sep) s).
Proof.
  induction s as [|c s IH]; intros m; cbn [Index].
  - destruct (String.prefix sep EmptyString) eqn:Hp; [|discriminate].
    intros [= <-]. cbn [stake Nat.add]. rewrite sapp_nil_l.
    rewrite <- (prefix_split _ _ Hp). auto.
  - destruct (String.prefix sep (String c s)) eqn:Hp.
    + intros [= <-]. cbn [stake Nat.add]. rewrite sapp_nil_l.
      rewrite <- (prefix_split _ _ Hp). auto.
    + destruct (Index s sep) as [m'|]; [|discriminate]. cbn [option_map].
      intros [= <-]. destruct (IH m' eq_refl) as [Hs Ho].
      cbn [stake Nat.add sdrop]. rewrite sapp_cons. split; [congruence|].
      cbn [occurrences]. rewrite Hp. exact Ho.
Qed.

Lemma occurrences_cons (sep : string) (c : ascii) (s : string) :
  occurrences sep (String c s)
  = ((if String.prefix sep (String c s) then 1 else 0) + occurrences sep s)%nat.
Proof. reflexivity. Qed.

Lemma occurrences_skip (c : ascii) (s : string) :
  c <> "<"%char ->
  occurrences endSheetDataTag (String c s) = occurrences endSheetDataTag s.
Proof.
  intros Hc. cbn [occurrences]. unfold endSheetDataTag at 1. cbn [String.prefix].
  destruct (ascii_dec "<" c); [congruence|reflexivity].
Qed.

(** An occurrence of the end tag overlaps no other. *)
Lemma occurrences_endSheetDataTag (rest : string) :
  occurrences endSheetDataTag (endSheetDataTag +:+ rest)
  = S (occurrences endSheetDataTag rest).
Proof.
  pose proof (prefix_sapp endSheetDataTag rest) as Hp.
  unfold endSheetDataTag in Hp at 2. unfold endSheetDataTag at 2.
  rewrite !sapp_cons, sapp_nil_l in *.
  rewrite occurrences_cons, Hp. cbn [Nat.add].
  rewrite !occurrences_skip by discriminate. reflexivity.
Qed.

Lemma genSplit_nonempty fuel s sep : (1 <= length (genSplit fuel s sep))%nat.
Proof.
  destruct fuel; cbn [genSplit]; destruct (Index s sep); cbn [length]; lia.
Qed.

Lemma slength_sapp (a b : string) :
  String.length (a +:+ b) = (String.length a + String.length b)%nat.
Proof.
  induction a as [|c a IH]; [reflexivity|].
  rewrite sapp_cons. cbn [String.length]. rewrite IH. reflexivity.
Qed.

(** [strings.Split] at the end tag gives two parts exactly when the tag
    occurs once, and the parts are what is before and behind it. *)
Lemma Split_endSheetDataTag (data : string) :
  (length (Split data endSheetDataTag) = 2%nat
   <-> occurrences endSheetDataTag data = 1%nat)
  /\ (length (Split data endSheetDataTag) = 2%nat ->
      nth 0 (Split data endSheetDataTag) EmptyString +:+ endSheetDataTag
        +:+ nth 1 (Split data endSheetDataTag) EmptyString = data).
Proof.
  unfold Split.
  destruct (Index data endSheetDataTag) as [m|] eqn:Hi.
  - destruct (Index_Some _ _ _ Hi) as [Hd Ho].
    set (rest := sdrop (m + String.length endSheetDataTag) data) in *.
    rewrite occurrences_endSheetDataTag in Ho.
    assert (Hlen : String.length data = S (m + 11 + String.length rest - m
                                           + String.length (stake m data) - 0)%nat)
      by (rewrite Hd at 1; rewrite !slength_sapp; cbn [String.length endSheetDataTag]; lia).
    rewrite Hlen. cbn [genSplit]. rewrite Hi. fold rest.
    match goal with |- context [genSplit ?f rest _] => set (fuel := f) end.
    destruct (Index rest endSheetDataTag) as [m'|] eqn:Hr.
    + assert (occurrences endSheetDataTag rest <> O)
        by (intros Hx; apply Index_None in Hx; congruence).
      assert (Hf : exists f', fuel = S f') by (exists (fuel - 1)%nat; subst fuel; lia).
      destruct Hf as [f' Hf]. rewrite Hf. cbn [genSplit]. rewrite Hr. cbn [length].
      pose proof (genSplit_nonempty f'
        (sdrop (m' + String.length endSheetDataTag) rest) endSheetDataTag).
      split; [split; intros; lia|intros; lia].
    + assert (Hg : genSplit fuel rest endSheetDataTag = [rest])
        by (destruct fuel; cbn [genSplit]; rewrite Hr; reflexivity).
      rewrite Hg. cbn [length nth]. apply Index_None in Hr.
      split; [split; intros; lia|]. intros _. symmetry. exact Hd.
  - assert (Hg : forall f, genSplit f data endSheetDataTag = [data])
      by (intros f; destruct f; cbn [genSplit]; rewrite Hi; reflexivity).
    rewrite Hg. cbn [length]. apply Index_None in Hi.
    split; [split; intros; lia|intros; lia].
Qed.

Lemma prefix_empty (sep : string) :
  sep <> EmptyString -> String.prefix sep EmptyString = false.
Proof. destruct sep; [congruence|reflexivity]. Qed.

(** The fuel [Split] gives to its loop is never used up. *)
Lemma genSplit_fuel (sep : string) :
  sep <> EmptyString ->
  forall fuel s, (String.length s <= fuel)%nat ->
    genSplit (S fuel) s sep = genSplit fuel s sep.
Proof.
  intros Hsep. induction fuel as [|fuel IH]; intros s Hlen.
  - destruct s as [|c s]; [|cbn [String.length] in Hlen; lia].
    cbn [genSplit Index]. rewrite (prefix_empty _ Hsep). reflexivity.
  - cbn [genSplit]. destruct (Index s sep) as [m|] eqn:Hi; [|reflexivity].
    f_equal. change (genSplit (S fuel) (sdrop (m + String.length sep) s) sep
                     = genSplit fuel (sdrop (m + String.length sep) s) sep).
    apply IH. destruct (Index_Some _ _ _ Hi) as [Hs _].
    rewrite Hs in Hlen. rewrite !slength_sapp in Hlen.
    destruct sep; [congruence|]. cbn [String.length] in *. lia.
Qed.

Lemma Split_fuel (sep : string) (s : string) (fuel : nat) :
  sep <> EmptyString -> (String.length s <= fuel)%nat ->
  genSplit fuel s sep = Split s sep.
Proof.
  intros Hsep. unfold Split. induction 1 as [|fuel Hle IH]; [reflexivity|].
  rewrite genSplit_fuel by assumption. exact IH.
Qed.

Lemma splitSheetIntoPrefixAndSuffix_ok (data : string) :
  occurrences endSheetDataTag data = 1%nat ->
  exists prefix suffix,
    splitSheetIntoPrefixAndSuffix data = Ok (prefix, suffix)
    /\ prefix +:+ endSheetDataTag +:+ suffix = data.
Proof.
  intros Ho. destruct (Split_endSheetDataTag data) as [Hiff Hcat].
  apply Hiff in Ho. unfold splitSheetIntoPrefixAndSuffix, len. rewrite Ho.
  cbn [Z.of_nat Pos.of_succ_nat Pos.succ Z.eqb Pos.eqb negb].
  eexists _, _. split; [reflexivity|]. apply Hcat. exact Ho.
Qed.

Lemma splitSheetIntoPrefixAndSuffix_malformed (data : string) :
  occurrences endSheetDataTag data <> 1%nat ->
  splitSheetIntoPrefixAndSuffix data = Err SheetDataCloseTagNotFound.
Proof.
  intros Ho. destruct (Split_endSheetDataTag data) as [Hiff _].
  unfold splitSheetIntoPrefixAndSuffix, len.
  destruct (Z.eqb_spec (Z.of_nat (length (Split data endSheetDataTag))) 2) as [He|He];
    [|reflexivity].
  exfalso. apply Ho, Hiff. lia.
Qed.

End Split.

(** ** Building the session *)

Section Build.
Context `{Collaborators}.

Lemma same_shape_refl sf : same_shape sf sf.
Proof. unfold same_shape. repeat split; reflexivity. Qed.

Lemma same_shape_trans sf1 sf2 sf3 :
  same_shape sf1 sf2 -> same_shape sf2 sf3 -> same_shape sf1 sf3.
Proof. unfold same_shape. intuition congruence. Qed.

Lemma getSheetIndex_shape sf sf' path :
  same_shape sf sf' -> getSheetIndex sf' path = getSheetIndex sf path.
Proof.
  intros (Hf & Hp & Hs & _). unfold getSheetIndex, len. rewrite Hf, Hp, Hs. reflexivity.
Qed.

Lemma getSheetIndex_bounds sf path i :
  getSheetIndex sf path = Done (Ok i) ->
  0 <= i < len (sheetXmlPrefix sf) /\ 0 <= i < len (sheetXmlSuffix sf).
Proof.
  unfold getSheetIndex. destruct (slice _ _ _) as [indexString|]; [|discriminate].
  destruct (Atoi indexString) as [k|]; [|discriminate].
  destruct (Z.ltb_spec k 1); [discriminate|].
  destruct (Z.ltb_spec (len (sheetXmlPrefix sf)) k); [discriminate|].
  destruct (Z.ltb_spec (len (sheetXmlSuffix sf)) k); [discriminate|].
  destruct (Z.ltb_spec (len (Sheets (file sf))) k); [discriminate|].
  cbn [orb]. intros [= <-]. lia.
Qed.

Lemma processEmptySheetXML_ok sf path data i :
  getSheetIndex sf path = Done (Ok i) ->
  occurrences endSheetDataTag data = 1%nat ->
  exists sf',
    processEmptySheetXML path data sf = Done (None, sf')
    /\ same_shape sf sf' /\ zipWriter sf' = zipWriter sf.
Proof.
  intros Hi Ho. destruct (getSheetIndex_bounds _ _ _ Hi) as [Hp Hs].
  destruct (splitSheetIntoPrefixAndSuffix_ok _ Ho) as (prefix & suffix & Hsplit & _).
  unfold processEmptySheetXML, bind, get, lift, modify, ret. rewrite Hi, Hsplit.
  unfold store_at.
  destruct (Z.leb_spec 0 i); [|lia].
  destruct (Z.ltb_spec i (len (sheetXmlPrefix sf))); [|lia].
  destruct (Z.ltb_spec i (len (sheetXmlSuffix sf))); [|lia].
  cbn [andb]. eexists. split; [reflexivity|]. split; [|reflexivity].
  unfold same_shape.
  cbn [file sheetXmlPrefix sheetXmlSuffix currentSheet refTable err
       set_sheetXmlPrefix set_sheetXmlSuffix].
  rewrite !length_insert. repeat split; reflexivity.
Qed.

Lemma processEmptySheetXML_malformed sf path data i :
  getSheetIndex sf path = Done (Ok i) ->
  occurrences endSheetDataTag data <> 1%nat ->
  processEmptySheetXML path data sf = Done (Some SheetDataCloseTagNotFound, sf).
Proof.
  intros Hi Ho.
  unfold processEmptySheetXML, bind, get, lift, modify, ret.
  rewrite Hi, (splitSheetIntoPrefixAndSuffix_malformed _ Ho). reflexivity.
Qed.

(** The metadata of a workbook on a sink that takes every call. *)
Lemma Build_metadata_healthy sf path data :
  healthy (zipWriter sf) -> zclosed (zipWriter sf) = false ->
  (r <- with_zip (zw_Create path) ;;
   match r with
   | Err e => ret (Some e)
   | Ok metadataFile => with_zip (fw_Write metadataFile data)
   end) sf
  = Done (None,
          set_zipWriter {| entries := entries (zipWriter sf) ++ [(path, data)];
                           zclosed := false;
                           faults := drop 2 (faults (zipWriter sf)) |} sf).
Proof.
  intros Hh Hcl. unfold bind, with_zip at 1, zw_Create.
  rewrite (tick_healthy _ Hh).
  unfold with_zip, fw_Write, entry_open.
  cbn [zipWriter set_zipWriter drain entries zclosed faults].
  rewrite Hcl, length_app. cbn [length negb andb].
  rewrite Nat.add_1_r, Nat.eqb_refl.
  rewrite tick_healthy by (apply healthy_drop; exact Hh).
  cbn [zipWriter set_zipWriter drain entries zclosed faults].
  fold (append_entry (length (entries (zipWriter sf))) data
          (entries (zipWriter sf) ++ [(path, EmptyString)])).
  rewrite append_entry_new, drop_drop. reflexivity.
Qed.

(** The loop of [Build] on a sink that takes every call, when every sheet
    part names a registered sheet: it ends without an error if every empty
    sheet has the end tag once, and with the error of the split if not. *)
Lemma Build_parts_healthy parts : forall sf,
  healthy (zipWriter sf) -> zclosed (zipWriter sf) = false ->
  Forall (fun part => is_sheet_part part = true ->
                      exists i, getSheetIndex sf (fst part) = Done (Ok i)) parts ->
  exists sf',
    Build_parts parts sf =
      Done (if forallb (fun part => negb (is_sheet_part part) || one_end_tag part) parts
            then None else Some SheetDataCloseTagNotFound, sf')
    /\ same_shape sf sf' /\ healthy (zipWriter sf') /\ zclosed (zipWriter sf') = false.
Proof.
  induction parts as [|[path data] parts IH]; intros sf Hh Hcl Hv.
  - exists sf. cbn [Build_parts forallb]. unfold ret.
    split; [reflexivity|]. split; [apply same_shape_refl|auto].
  - inversion Hv as [|? ? Hpart Hrest]; subst. cbn [Build_parts forallb].
    unfold is_sheet_part, one_end_tag in *. cbn [fst snd] in *.
    destruct (String.prefix sheetFilePathPrefix path) eqn:Hpre; cbn [negb orb].
    + destruct (Hpart eq_refl) as [i Hi].
      destruct (Nat.eqb_spec (occurrences endSheetDataTag data) 1) as [Ho|Ho]; cbn [andb].
      * destruct (processEmptySheetXML_ok _ _ _ _ Hi Ho) as (sf1 & Hrun & Hsh & Hz).
        destruct (IH sf1) as (sf' & Hrun' & Hsh' & Hh' & Hcl').
        { rewrite Hz. exact Hh. }
        { rewrite Hz. exact Hcl. }
        { eapply Forall_impl; [exact Hrest|]. intros part Hx Hy.
          rewrite (getSheetIndex_shape _ _ _ Hsh). auto. }
        exists sf'. unfold bind. rewrite Hrun. split; [exact Hrun'|].
        split; [eapply same_shape_trans; eauto|auto].
      * exists sf. unfold bind, ret.
        rewrite (processEmptySheetXML_malformed _ _ _ _ Hi Ho).
        split; [reflexivity|]. split; [apply same_shape_refl|auto].
    + pose proof (Build_metadata_healthy sf path data Hh Hcl) as Hm.
      match type of Hm with _ = Done (None, ?s) => set (sf1 := s) in * end.
      destruct (IH sf1) as (sf' & Hrun' & Hsh' & Hh' & Hcl').
      { apply healthy_drop. exact Hh. }
      { reflexivity. }
      { eapply Forall_impl; [exact Hrest|]. intros part Hx Hy. apply Hx. exact Hy. }
      exists sf'. split; [|split; [exact Hsh'|auto]].
      unfold bind in *.
      destruct (with_zip (zw_Create path) sf) as [[[metadataFile|e] sf2]|p];
        try discriminate.
      destruct (with_zip (fw_Write metadataFile data) sf2) as [[[e|] sf3]|p];
        try discriminate.
      injection Hm as ->. exact Hrun'.
Qed.

(** [Build] up to its last step, on a sink that takes every call. *)
Lemma Build_healthy sb rt' parts :
  sb_built sb = false ->
  MarshallPartsForStreaming (sb_file sb) (sb_refTable sb) = (rt', inl parts) ->
  healthy (sb_zipWriter sb) -> zclosed (sb_zipWriter sb) = false ->
  Forall (fun part =>
            is_sheet_part part = true ->
            exists i, getSheetIndex (newStreamFile (sb_file sb) rt' (sb_zipWriter sb))
                        (fst part) = Done (Ok i)) parts ->
  exists sf,
    same_shape (newStreamFile (sb_file sb) rt' (sb_zipWriter sb)) sf
    /\ healthy (zipWriter sf) /\ zclosed (zipWriter sf) = false
    /\ Build sb =
         if forallb (fun part => negb (is_sheet_part part) || one_end_tag part) parts
         then match NextSheet sf with
              | Done (Some e, sf') =>
                  Done (Err e, set_sb_zipWriter (zipWriter sf')
                                 (set_sb_refTable (refTable sf')
                                    (set_sb_zipWriter (zipWriter sf)
                                       (set_sb_refTable (refTable sf)
                                          (set_sb_refTable rt' (set_built true sb))))))
              | Done (None, sf') =>
                  Done (Ok sf', set_sb_zipWriter (zipWriter sf')
                                  (set_sb_refTable (refTable sf')
                                     (set_sb_zipWriter (zipWriter sf)
                                        (set_sb_refTable (refTable sf)
                                           (set_sb_refTable rt' (set_built true sb))))))
              | Panics p => Panics p
              end
         else Done (Err SheetDataCloseTagNotFound,
                    set_sb_zipWriter (zipWriter sf)
                      (set_sb_refTable (refTable sf)
                         (set_sb_refTable rt' (set_built true sb)))).
Proof.
  intros Hb Hm Hh Hcl Hv.
  destruct (Build_parts_healthy parts (newStreamFile (sb_file sb) rt' (sb_zipWriter sb))
              Hh Hcl Hv) as (sf & Hrun & Hsh & Hh' & Hcl').
  exists sf. split; [exact Hsh|]. split; [exact Hh'|]. split; [exact Hcl'|].
  unfold Build, bind at 1, gets. rewrite Hb.
  unfold bind, modify, gets, ret.
  cbn [sb_file sb_refTable sb_zipWriter set_built set_sb_refTable].
  rewrite Hm. unfold on_session.
  cbn [sb_file sb_refTable sb_zipWriter set_built set_sb_refTable].
  rewrite Hrun.
  destruct (forallb _ parts); [|reflexivity].
  destruct (NextSheet sf) as [[[e|] sf']|p]; reflexivity.
Qed.

(** C10. [Build] on a builder without a sheet, when the parts of the workbook
    hold no sheet and the sink takes every call: the [NextSheet] at the end of
    [Build] reads the sheet at position 0 of an empty list, and [Build] ends in
    the index-out-of-range panic instead of returning an error. *)
Theorem Build_without_sheets_panics sb rt' parts :
  sb_built sb = false ->
  Sheets (sb_file sb) = [] ->
  MarshallPartsForStreaming (sb_file sb) (sb_refTable sb) = (rt', inl parts) ->
  Forall (fun part => is_sheet_part part = false) parts ->
  healthy (sb_zipWriter sb) -> zclosed (sb_zipWriter sb) = false ->
  Build sb = Panics IndexOutOfRange.
Proof.
  intros Hb Hs Hm Hparts Hh Hcl.
  destruct (Build_healthy sb rt' parts Hb Hm Hh Hcl) as (sf & Hsh & _ & _ & Hrun).
  { eapply Forall_impl; [exact Hparts|]. intros part Hx Hy. congruence. }
  rewrite Hrun.
  assert (Hall : forallb (fun part => negb (is_sheet_part part) || one_end_tag part) parts
                 = true).
  { apply forallb_forall. intros part Hin. rewrite Forall_forall in Hparts.
    rewrite (Hparts part) by (apply list_elem_of_In; exact Hin). reflexivity. }
  rewrite Hall. destruct Hsh as (Hf & _ & _ & Hc & _ & He).
  cbn [newStreamFile file currentSheet err] in Hf, Hc, He.
  unfold NextSheet, bind, gets. rewrite He, Hc.
  unfold NextSheet_open, bind, gets, lift. rewrite Hf, Hs. reflexivity.
Qed.

(** C6. An empty sheet is split at the end tag of its data exactly when the
    tag occurs once in it; the two parts, with the tag between them, are the
    sheet; any other sheet is refused with the error of the malformed
    template, and so is the workbook by [Build], when the sink takes every
    call and every sheet part names a registered sheet. *)
Theorem sheet_is_split_at_end_tag :
  (forall data,
     (exists prefix suffix, splitSheetIntoPrefixAndSuffix data = Ok (prefix, suffix))
     <-> occurrences endSheetDataTag data = 1%nat)
  /\ (forall data prefix suffix,
        splitSheetIntoPrefixAndSuffix data = Ok (prefix, suffix) ->
        prefix +:+ endSheetDataTag +:+ suffix = data)
  /\ (forall data,
        occurrences endSheetDataTag data <> 1%nat ->
        splitSheetIntoPrefixAndSuffix data = Err SheetDataCloseTagNotFound)
  /\ (forall sb rt' parts,
        sb_built sb = false ->
        MarshallPartsForStreaming (sb_file sb) (sb_refTable sb) = (rt', inl parts) ->
        healthy (sb_zipWriter sb) -> zclosed (sb_zipWriter sb) = false ->
        Forall (fun part =>
                  is_sheet_part part = true ->
                  exists i, getSheetIndex (newStreamFile (sb_file sb) rt' (sb_zipWriter sb))
                              (fst part) = Done (Ok i)) parts ->
        Exists (fun part =>
                  is_sheet_part part = true
                  /\ occurrences endSheetDataTag (snd part) <> 1%nat) parts ->
        exists sb', Build sb = Done (Err SheetDataCloseTagNotFound, sb')).
Proof.
  split; [|split; [|split]].
  - intros data. split.
    + intros (prefix & suffix & Hs).
      destruct (Nat.eq_dec (occurrences endSheetDataTag data) 1%nat) as [|Hne]; [assumption|].
      rewrite (splitSheetIntoPrefixAndSuffix_malformed _ Hne) in Hs. discriminate.
    + intros Ho. destruct (splitSheetIntoPrefixAndSuffix_ok _ Ho) as (p & s & Hs & _).
      eauto.
  - intros data prefix suffix Hs.
    destruct (Nat.eq_dec (occurrences endSheetDataTag data) 1%nat) as [Ho|Hne].
    + destruct (splitSheetIntoPrefixAndSuffix_ok _ Ho) as (p & s & Hs' & Hcat).
      congruence.
    + rewrite (splitSheetIntoPrefixAndSuffix_malformed _ Hne) in Hs. discriminate.
  - exact splitSheetIntoPrefixAndSuffix_malformed.
  - intros sb rt' parts Hb Hm Hh Hcl Hv Hex.
    destruct (Build_healthy sb rt' parts Hb Hm Hh Hcl Hv) as (sf & _ & _ & _ & Hrun).
    assert (Hall : forallb (fun part => negb (is_sheet_part part) || one_end_tag part) parts
                   = false).
    { apply not_true_is_false. intros Hall. rewrite forallb_forall in Hall.
      apply Exists_exists in Hex. destruct Hex as (part & Hin & Hsheet & Hocc).
      specialize (Hall part (proj1 (list_elem_of_In _ _) Hin)).
      rewrite Hsheet in Hall. cbn [negb orb] in Hall.
      unfold one_end_tag in Hall. apply Nat.eqb_eq in Hall. contradiction. }
    rewrite Hall in Hrun. eauto.
Qed.

End Build.

(** ** The invariant of the sessions [Build] hands out *)

Section Invariant.
Context `{Collaborators}.

Lemma entry_open_after_write w data z z' :
  entry_open w z = true ->
  fw_Write w data z = (None, z') -> entry_open w z' = true.
Proof.
  unfold fw_Write. intros Ho. rewrite Ho.
  destruct (tick z) as [[c|] z1] eqn:Ht; [discriminate|].
  intros [= <-]. unfold entry_open in *. cbn [zclosed entries].
  rewrite length_alter.
  unfold tick in Ht. destruct (faults z); inversion Ht; subst; exact Ho.
Qed.

(** What [NextSheet] did from [sheetIndex++] on, when it returns no error. *)
Lemma NextSheet_open_done sf i sf' :
  NextSheet_open i sf = Done (None, sf') ->
  exists sheet w,
    0 <= i
    /\ Sheets (file sf) !! Z.to_nat i = Some sheet
    /\ file sf' = file sf
    /\ sheetXmlPrefix sf' = sheetXmlPrefix sf
    /\ sheetXmlSuffix sf' = sheetXmlSuffix sf
    /\ refTable sf' = refTable sf
    /\ err sf' = err sf
    /\ currentSheet sf' =
         Some {| index := i + 1; rowCount := 1;
                 columnCount := len (Cols sheet); writer := Some w |}
    /\ entry_open w (zipWriter sf') = true.
Proof.
  unfold NextSheet_open, bind, gets, lift, modify, index_at.
  destruct (Z.ltb_spec (i + 1 - 1) 0) as [|Hi]; [discriminate|].
  replace (i + 1 - 1) with i in * by lia.
  destruct (Sheets (file sf) !! Z.to_nat i) as [sheet|] eqn:Hs; [|discriminate].
  unfold with_zip at 1, zw_Create. cbn [zipWriter set_currentSheet].
  destruct (tick (zipWriter sf)) as [[c|] z1] eqn:Ht; [discriminate|].
  unfold writeSheetStart, bind, gets, lift, index_at.
  cbn [currentSheet set_currentSheet set_zipWriter sheetXmlPrefix index set_writer].
  destruct (Z.ltb_spec (i + 1 - 1) 0); [discriminate|].
  destruct (sheetXmlPrefix sf !! Z.to_nat (i + 1 - 1)) as [pre|]; [|discriminate].
  unfold streamSheet_write, with_zip.
  cbn [writer set_writer zipWriter set_zipWriter set_currentSheet].
  match goal with |- context [fw_Write ?w ?d ?z] =>
    destruct (fw_Write w d z) as [[e|] z2] eqn:Hw end; [discriminate|].
  intros [= <-]. exists sheet, (length (entries z1)).
  split; [exact Hi|]. split; [reflexivity|].
  repeat (split; [reflexivity|]).
  cbn [zipWriter set_zipWriter].
  eapply entry_open_after_write; [|exact Hw].
  unfold fw_Write in Hw.
  destruct (entry_open _ _) eqn:Ho in Hw; [exact Ho|discriminate].
Qed.

Lemma writeSheetEnd_done sf sf' :
  writeSheetEnd sf = Done (None, sf') ->
  exists z, sf' = set_zipWriter z sf.
Proof.
  unfold writeSheetEnd, bind, gets, lift, ret.
  destruct (currentSheet sf) as [cs|]; [|discriminate].
  unfold streamSheet_write, with_zip, throw.
  destruct (writer cs) as [w|]; [|discriminate].
  destruct (fw_Write w endSheetDataTag (zipWriter sf)) as [[e|] z1]; [discriminate|].
  cbn [sheetXmlSuffix set_zipWriter zipWriter].
  destruct (index_at (sheetXmlSuffix sf) (index cs - 1)) as [suffix|]; [|discriminate].
  cbn [zipWriter set_zipWriter].
  destruct (fw_Write w suffix z1) as [[e|] z2]; [discriminate|].
  intros [= <-]. exists z2. reflexivity.
Qed.

(** What [NextSheet] did when it returns no error: the sheet behind the
    current one, or the first one, is open. *)
Lemma NextSheet_done sf sf' :
  NextSheet sf = Done (None, sf') ->
  exists sheet w,
    let i := match currentSheet sf with Some cs => index cs | None => 0 end in
    err sf = None /\ 0 <= i
    /\ Sheets (file sf) !! Z.to_nat i = Some sheet
    /\ file sf' = file sf
    /\ sheetXmlPrefix sf' = sheetXmlPrefix sf
    /\ sheetXmlSuffix sf' = sheetXmlSuffix sf
    /\ refTable sf' = refTable sf
    /\ err sf' = None
    /\ currentSheet sf' =
         Some {| index := i + 1; rowCount := 1;
                 columnCount := len (Cols sheet); writer := Some w |}
    /\ entry_open w (zipWriter sf') = true.
Proof.
  unfold NextSheet, bind at 1, gets.
  destruct (err sf) as [e|] eqn:He; [discriminate|].
  unfold bind at 1. destruct (currentSheet sf) as [cs|] eqn:Hc.
  - unfold bind at 1, gets.
    destruct (len (Sheets (file sf)) <=? index cs); [discriminate|].
    unfold bind at 1.
    destruct (writeSheetEnd sf) as [[[e|] sf1]|p] eqn:Hend; try discriminate.
    destruct (writeSheetEnd_done _ _ Hend) as [z ->].
    intros Hn. destruct (NextSheet_open_done _ _ _ Hn)
      as (sheet & w & Hi & Hs & Hf & Hp & Hsu & Hr & He' & Hc' & Ho).
    exists sheet, w. cbn [file sheetXmlPrefix sheetXmlSuffix refTable err set_zipWriter] in *.
    split; [reflexivity|]. split; [exact Hi|]. split; [exact Hs|].
    repeat (split; [assumption|]). split; [congruence|]. split; assumption.
  - intros Hn. destruct (NextSheet_open_done _ _ _ Hn)
      as (sheet & w & Hi & Hs & Hf & Hp & Hsu & Hr & He' & Hc' & Ho).
    exists sheet, w. split; [reflexivity|]. split; [exact Hi|]. split; [exact Hs|].
    repeat (split; [assumption|]). split; [congruence|]. split; assumption.
Qed.

(** A [NextSheet] that returns no error leaves a session that is in order. *)
Lemma NextSheet_well_formed sf sf' :
  length (sheetXmlPrefix sf) = length (Sheets (file sf)) ->
  length (sheetXmlSuffix sf) = length (Sheets (file sf)) ->
  NextSheet sf = Done (None, sf') ->
  well_formed sf' = true /\ err sf' = None /\ exists cs, currentSheet sf' = Some cs.
Proof.
  intros Hlp Hls Hn.
  destruct (NextSheet_done _ _ Hn)
    as (sheet & w & He & Hi & Hs & Hf & Hp & Hsu & Hr & He' & Hc' & Ho).
  split; [|split; [exact He'|eauto]].
  unfold well_formed, current_ok. rewrite Hc', Hp, Hsu, Hf, Hlp, Hls, !Nat.eqb_refl.
  cbn [index columnCount writer andb].
  match goal with |- context [?i + 1 - 1] => replace (i + 1 - 1) with i by lia end.
  rewrite Hs, Z.eqb_refl, Ho.
  pose proof (lookup_lt_Some _ _ _ Hs) as Hlt.
  match goal with |- context [1 <=? ?x] => destruct (Z.leb_spec 1 x); [|lia] end.
  match goal with |- context [?x <=? len ?l] =>
    destruct (Z.leb_spec x (len l)); [|unfold len in *; lia] end.
  reflexivity.
Qed.

(** The loop of [Build] leaves the shape of the session alone. *)
Lemma Build_parts_shape parts : forall sf r sf',
  Build_parts parts sf = Done (r, sf') -> same_shape sf sf'.
Proof.
  induction parts as [|[path data] parts IH]; intros sf r sf'; cbn [Build_parts].
  - unfold ret. intros [= _ <-]. apply same_shape_refl.
  - destruct (String.prefix sheetFilePathPrefix path).
    + unfold bind at 1.
      destruct (processEmptySheetXML path data sf) as [[e sf1]|p] eqn:Hp; [|discriminate].
      assert (Hsh : same_shape sf sf1).
      { revert Hp. unfold processEmptySheetXML, bind, get, lift, modify, ret.
        destruct (getSheetIndex sf path) as [[i|e']|p]; [| |discriminate].
        - destruct (splitSheetIntoPrefixAndSuffix data) as [[prefix suffix]|e'].
          + unfold store_at.
            destruct ((0 <=? i) && (i <? len (sheetXmlPrefix sf))); [|discriminate].
            destruct ((0 <=? i) && (i <? len (sheetXmlSuffix sf))); [|discriminate].
            intros [= _ <-]. unfold same_shape.
            cbn [file sheetXmlPrefix sheetXmlSuffix currentSheet refTable err
                 set_sheetXmlPrefix set_sheetXmlSuffix].
            rewrite !length_insert. repeat split; reflexivity.
          + intros [= _ <-]. apply same_shape_refl.
        - intros [= _ <-]. apply same_shape_refl. }
      destruct e as [e|].
      * unfold ret. intros [= _ <-]. exact Hsh.
      * intros Hrest. eapply same_shape_trans; [exact Hsh|]. eapply IH. exact Hrest.
    + unfold bind at 1, with_zip at 1.
      destruct (zw_Create path (zipWriter sf)) as [[metadataFile|e] z1].
      * unfold bind at 1, with_zip. cbn [zipWriter set_zipWriter].
        destruct (fw_Write metadataFile data z1) as [[e|] z2].
        -- unfold ret. intros [= _ <-]. unfold same_shape. repeat split; reflexivity.
        -- intros Hrest. eapply same_shape_trans; [|eapply IH; exact Hrest].
           unfold same_shape. repeat split; reflexivity.
      * unfold ret. intros [= _ <-]. unfold same_shape. repeat split; reflexivity.
Qed.

(** The session [Build] returns is in order, has no stored error, and has its
    first sheet open. *)
Lemma Build_well_formed sb sf sb' :
  Build sb = Done (Ok sf, sb') ->
  well_formed sf = true /\ err sf = None
  /\ exists cs, currentSheet sf = Some cs /\ index cs = 1 /\ rowCount cs = 1.
Proof.
  unfold Build, bind at 1, gets.
  destruct (sb_built sb); [discriminate|].
  unfold bind, modify, gets, ret.
  cbn [sb_file sb_refTable sb_zipWriter set_built set_sb_refTable].
  destruct (MarshallPartsForStreaming _ _) as [rt' [parts|msg]]; [|discriminate].
  unfold on_session. cbn [sb_file sb_refTable sb_zipWriter set_built set_sb_refTable].
  destruct (Build_parts parts _) as [[[e|] sf1]|p] eqn:Hparts; try discriminate.
  destruct (NextSheet sf1) as [[[e|] sf2]|p] eqn:Hn; try discriminate.
  intros [= <- _].
  destruct (Build_parts_shape _ _ _ _ Hparts) as (Hf & Hp & Hs & Hc & _ & _).
  cbn [newStreamFile file sheetXmlPrefix sheetXmlSuffix currentSheet] in Hf, Hp, Hs, Hc.
  rewrite length_replicate in Hp, Hs.
  destruct (NextSheet_well_formed sf1 sf2) as (Hwf & He & _);
    [rewrite Hf; exact Hp|rewrite Hf; exact Hs|exact Hn|].
  split; [exact Hwf|]. split; [exact He|].
  destruct (NextSheet_done _ _ Hn) as (sheet & w & _ & _ & _ & _ & _ & _ & _ & _ & Hc' & _).
  rewrite Hc in Hc'. cbn in Hc'. eexists. split; [exact Hc'|]. split; reflexivity.
Qed.

(** A row that [write] took leaves the session in order. *)
Lemma write_well_formed sf cells sf' :
  well_formed sf = true ->
  write cells sf = Done (None, sf') ->
  well_formed sf' = true /\ err sf' = err sf.
Proof.
  intros Hwf Hw.
  destruct (write_effect _ _ _ _ Hw) as (Hf & Hp & Hs & He & Hg).
  destruct (write_done _ _ _ Hw) as (cs & w & rowBytes & Hc & Hwr & _ & Hes & Hc' & _).
  destruct (well_formed_current _ _ Hwf Hc)
    as (Hlp & Hls & Hi & (sheet & Hsh & Hcc) & (w' & Hw' & Hcl & Hlen)).
  rewrite Hwr in Hw'. injection Hw' as <-.
  split; [|exact He].
  unfold well_formed, current_ok, entry_open.
  rewrite Hc', Hp, Hs, Hf, Hlp, Hls, !Nat.eqb_refl.
  cbn [index columnCount writer set_rowCount andb].
  rewrite Hsh, Hcc, Z.eqb_refl, Hwr, Hes, length_append_entry, <- Hlen, Nat.eqb_refl.
  assert (Hz : zclosed (zipWriter sf') = false).
  { revert Hw. unfold write, bind, gets, ret, modify. rewrite Hc.
    destruct (len cells =? columnCount cs); [|discriminate]. cbn [negb].
    destruct (makeXLSXRowForStreaming _ _ _) as [rt' xRow].
    destruct (xml_Marshal xRow) as [bytes|msg]; [|discriminate].
    unfold streamSheet_write, with_zip. cbn [writer set_rowCount].
    rewrite Hwr. cbn [zipWriter set_refTable set_currentSheet].
    unfold fw_Write, zw_Flush.
    destruct (entry_open w (zipWriter sf)); [|discriminate].
    destruct (zipWriter sf) as [es c fs]. cbn [zclosed] in Hcl. subst c.
    unfold tick. cbn [faults entries zclosed].
    destruct fs as [|[n|] fs]; try discriminate.
    - cbn [faults zipWriter set_zipWriter entries zclosed]. intros [= <-]. reflexivity.
    - cbn [faults zipWriter set_zipWriter entries zclosed].
      destruct fs as [|[n|] fs]; try discriminate; intros [= <-]; reflexivity. }
  rewrite Hz.
  destruct (Z.leb_spec 1 (index cs)); [|lia].
  destruct (Z.leb_spec (index cs) (len (Sheets (file sf)))); [|lia].
  reflexivity.
Qed.

(** *** The fuel of [Close] *)

Lemma bind_fuel {S A B} (m : M S A) (k : A -> M S B) s :
  m s <> Panics OutOfFuel ->
  (forall a s', m s = Done (a, s') -> k a s' <> Panics OutOfFuel) ->
  bind m k s <> Panics OutOfFuel.
Proof.
  unfold bind. intros Hm Hk. destruct (m s) as [[a s']|p]; [apply Hk; reflexivity|].
  intros [= ->]. apply Hm. reflexivity.
Qed.

Lemma index_at_fuel {A} (l : list A) i : index_at l i <> Panics OutOfFuel.
Proof. unfold index_at. destruct (i <? 0); [discriminate|]. destruct (l !! _); discriminate. Qed.

Lemma lift_fuel {S A} (o : outcome A) (s : S) :
  o <> Panics OutOfFuel -> lift o s <> Panics OutOfFuel.
Proof.
  unfold lift. destruct o; [discriminate|]. intros Ho [= ->]. apply Ho. reflexivity.
Qed.

Lemma streamSheet_write_fuel cs data sf :
  streamSheet_write cs data sf <> Panics OutOfFuel.
Proof.
  unfold streamSheet_write, with_zip, throw. destruct (writer cs); [|discriminate].
  destruct (fw_Write _ _ _). discriminate.
Qed.

Lemma writeSheetEnd_fuel sf : writeSheetEnd sf <> Panics OutOfFuel.
Proof.
  unfold writeSheetEnd. apply bind_fuel; [discriminate|]. intros [cs|] s' _; [|discriminate].
  apply bind_fuel; [apply streamSheet_write_fuel|]. intros [e|] s1 _; [discriminate|].
  apply bind_fuel; [discriminate|]. intros l s2 _.
  apply bind_fuel; [apply lift_fuel, index_at_fuel|]. intros suffix s3 _.
  apply streamSheet_write_fuel.
Qed.

Lemma writeSheetStart_fuel sf : writeSheetStart sf <> Panics OutOfFuel.
Proof.
  unfold writeSheetStart. apply bind_fuel; [discriminate|]. intros [cs|] s' _; [|discriminate].
  apply bind_fuel; [discriminate|]. intros l s2 _.
  apply bind_fuel; [apply lift_fuel, index_at_fuel|]. intros prefix s3 _.
  apply streamSheet_write_fuel.
Qed.

Lemma NextSheet_open_fuel i sf : NextSheet_open i sf <> Panics OutOfFuel.
Proof.
  unfold NextSheet_open. apply bind_fuel; [discriminate|]. intros sheets s1 _.
  apply bind_fuel; [apply lift_fuel, index_at_fuel|]. intros sheet s2 _.
  apply bind_fuel; [discriminate|]. intros _ s3 _.
  apply bind_fuel.
  { unfold with_zip. destruct (zw_Create _ _). discriminate. }
  intros [fileWriter|e] s4 _.
  - apply bind_fuel; [discriminate|]. intros _ s5 _.
    apply bind_fuel; [apply writeSheetStart_fuel|]. intros [e|] s6 _; discriminate.
  - discriminate.
Qed.

Lemma NextSheet_fuel sf : NextSheet sf <> Panics OutOfFuel.
Proof.
  unfold NextSheet. apply bind_fuel; [discriminate|]. intros [e|] s1 _; [discriminate|].
  apply bind_fuel; [discriminate|]. intros [cs|] s2 _; [|apply NextSheet_open_fuel].
  apply bind_fuel; [discriminate|]. intros n s3 _.
  destruct (n <=? index cs); [discriminate|].
  apply bind_fuel; [apply writeSheetEnd_fuel|]. intros [e|] s4 _; [discriminate|].
  apply NextSheet_open_fuel.
Qed.

(** The rounds [Close] allows its loop are never used up. *)
Lemma Close_sheets_fuel fuel : forall sf cs,
  currentSheet sf = Some cs ->
  (Z.to_nat (len (Sheets (file sf)) - index cs) <= fuel)%nat ->
  Close_sheets fuel sf <> Panics OutOfFuel.
Proof.
  induction fuel as [|fuel IH]; intros sf cs Hc Hfuel; cbn [Close_sheets];
    unfold bind at 1, gets; rewrite Hc; unfold bind at 1;
    destruct (Z.ltb_spec (index cs) (len (Sheets (file sf)))) as [Hlt|]; try discriminate.
  - lia.
  - apply bind_fuel; [apply NextSheet_fuel|]. intros [e|] sf1 Hn; [discriminate|].
    destruct (NextSheet_done _ _ Hn)
      as (sheet & w & _ & _ & _ & Hf & _ & _ & _ & _ & Hc1 & _).
    rewrite Hc in Hc1. eapply IH; [exact Hc1|].
    rewrite Hf. cbn [index]. lia.
Qed.

Lemma Close_fuel sf : Close sf <> Panics OutOfFuel.
Proof.
  assert (Hfin : forall s, Close_finish s <> Panics OutOfFuel).
  { intros s. unfold Close_finish. apply bind_fuel; [discriminate|]. intros rt s1 _.
    destruct (marshalFullFile _); [|discriminate].
    apply bind_fuel; [unfold with_zip; destruct (zw_Create _ _); discriminate|].
    intros [metadataFile|e] s2 _; [|discriminate].
    apply bind_fuel; [unfold with_zip; destruct (fw_Write _ _ _); discriminate|].
    intros [e|] s3 _; [discriminate|].
    apply bind_fuel; [unfold with_zip; destruct (zw_Close _); discriminate|].
    intros [e|] s4 _; discriminate. }
  unfold Close. apply bind_fuel; [discriminate|]. intros [e|] s1 He; [discriminate|].
  apply bind_fuel; [discriminate|]. intros [cs|] s2 Hc; [|apply Hfin].
  apply bind_fuel; [discriminate|]. intros n s3 Hn.
  unfold gets in He, Hc, Hn. injection He as _ <-. injection Hc as Hc <-.
  injection Hn as <- <-.
  apply bind_fuel; [eapply Close_sheets_fuel; [exact Hc|lia]|].
  intros [e|] s4 _; [discriminate|].
  apply bind_fuel; [apply writeSheetEnd_fuel|]. intros [e|] s5 _; [discriminate|].
  apply Hfin.
Qed.

End Invariant.

(** ** The statements at work on the two-sheet workbook *)

Lemma healthy_nil es c : healthy {| entries := es; zclosed := c; faults := [] |}.
Proof. constructor. Qed.

(** [NextSheet] on the first sheet of two, and on the last. *)
Lemma NextSheet_transition_witness :
  (exists w sheet,
     writer {| index := 1; rowCount := 1; columnCount := 2; writer := Some 1%nat |} = Some w
     /\ Sheets (file (demo_session [])) !! Z.to_nat 1 = Some sheet
     /\ exists sf', @NextSheet (demo_session []) = Done (None, sf')
                    /\ entries (zipWriter sf') =
                         [ ("[Content_Types].xml", "<Types/>");
                           ("xl/worksheets/sheet1.xml",
                            "<worksheet><sheetData><row/></sheetData></worksheet>");
                           ("xl/worksheets/sheet2.xml", "<worksheet><sheetData><row/>") ])
  /\ NextSheet (demo_session_last [])
     = Done (Some AlreadyOnLastSheetError,
             set_err (Some AlreadyOnLastSheetError) (demo_session_last [])).
Proof.
  split.
  - destruct (proj2 (NextSheet_transition (demo_session []) _ eq_refl eq_refl))
      as (w & sheet & Hw & Hs & Hn).
    + unfold len. simpl. lia.
    + reflexivity.
    + apply healthy_nil.
    + exists w, sheet. split; [exact Hw|]. split; [exact Hs|].
      eexists. split; [exact Hn|].
      injection Hw as <-. reflexivity.
  - apply (proj1 (NextSheet_transition (demo_session_last []) _ eq_refl eq_refl)).
    unfold len. simpl. lia.
Defined.

(** [Close] from the first sheet: the second sheet gets its empty entry. *)
Lemma Close_completes_workbook_witness :
  exists sf',
    @Close demo (demo_session []) = Done (None, sf')
    /\ entries (zipWriter sf') =
         [ ("[Content_Types].xml", "<Types/>");
           ("xl/worksheets/sheet1.xml",
            "<worksheet><sheetData><row/></sheetData></worksheet>");
           ("xl/worksheets/sheet2.xml",
            "<worksheet><sheetData><row/></sheetData></worksheet>");
           ("xl/sharedStrings.xml", "<sst></sst>") ]
    /\ zclosed (zipWriter sf') = true
    /\ err sf' = None.
Proof.
  destruct (@Close_completes_workbook demo (demo_session []) _ 1%nat "<sst></sst>"
              eq_refl eq_refl eq_refl eq_refl (healthy_nil _ _) eq_refl)
    as (sf' & Hrun & Hes & Hcl & He).
  exists sf'. split; [exact Hrun|]. split; [|split; assumption].
  rewrite Hes. reflexivity.
Defined.

(** Two cells for the two columns of S1, and one cell too few. *)
Lemma Write_checks_column_count_witness :
  (forall sf', @Write demo ["1"; "2"] (demo_session [])
               <> Done (Some WrongNumberOfRowsError, sf'))
  /\ @Write demo ["1"] (demo_session [])
     = Done (Some WrongNumberOfRowsError,
             set_err (Some WrongNumberOfRowsError) (demo_session [])).
Proof.
  split.
  - apply (proj1 (@Write_checks_column_count demo (demo_session []) _
                    {| Name := "S1"; Cols := [MkCol; MkCol] |} 2 ["1"; "2"]
                    eq_refl eq_refl eq_refl eq_refl eq_refl)).
    reflexivity.
  - apply (proj2 (@Write_checks_column_count demo (demo_session []) _
                    {| Name := "S1"; Cols := [MkCol; MkCol] |} 2 ["1"]
                    eq_refl eq_refl eq_refl eq_refl eq_refl)).
    discriminate.
Defined.

(** A sheet with the end tag once, and a workbook whose sheets have none. *)
Lemma sheet_is_split_at_end_tag_witness :
  (exists prefix suffix,
     splitSheetIntoPrefixAndSuffix "<sheetData><row/></sheetData><x/>"
     = Ok (prefix, suffix))
  /\ "<sheetData><row/>" +:+ endSheetDataTag +:+ "<x/>" = "<sheetData><row/></sheetData><x/>"
  /\ splitSheetIntoPrefixAndSuffix "<worksheet/>" = Err SheetDataCloseTagNotFound
  /\ exists sb', @Build demo_broken (demo_builder [])
                 = Done (Err SheetDataCloseTagNotFound, sb').
Proof.
  destruct (@sheet_is_split_at_end_tag demo_broken) as (H1 & H2 & H3 & H4).
  split; [|split; [|split]].
  - apply H1. reflexivity.
  - apply H2. reflexivity.
  - apply H3. vm_compute. discriminate.
  - apply (H4 (demo_builder []) {| indexedStrings := [] |}
              [ ("xl/worksheets/sheet1.xml", "<worksheet/>");
                ("xl/worksheets/sheet2.xml", "<worksheet/>") ]).
    + reflexivity.
    + reflexivity.
    + apply healthy_nil.
    + reflexivity.
    + repeat constructor; intros _; eexists; vm_compute; reflexivity.
    + apply Exists_cons_hd. split; [reflexivity|]. vm_compute. discriminate.
Defined.



(** After [Close] the last sheet is still the current one: a row is not
    refused for want of a sheet, it is the archive that refuses it. *)
Lemma Write_after_Close :
  exists sf1 sf2,
    @Close demo (demo_session []) = Done (None, sf1)
    /\ currentSheet sf1
       = Some {| index := 2; rowCount := 1; columnCount := 1; writer := Some 2%nat |}
    /\ @Write demo ["x"] sf1 = Done (Some ZipClosedFile, sf2).
Proof.
  do 2 eexists.
  split; [vm_compute; reflexivity|].
  split; vm_compute; reflexivity.
Qed.

(** The plain collaborators give every header cell a column. *)
Lemma demo_WriteSlice_columns sheet cells sheet' n :
  @WriteSlice demo sheet cells = (sheet', n) -> len (Cols sheet') = n.
Proof.
  cbn [WriteSlice demo]. intros [= <- <-]. cbn [Cols].
  unfold len. rewrite length_replicate. reflexivity.
Qed.

(** A builder that is spent answers three calls. *)
Lemma builder_is_one_shot_witness :
  (exists sb',
     @calls demo [CallAddSheet "S3" ["D"]; CallAddSharedStrings ["x"]; CallBuild]
       (set_built true (demo_builder []))
     = Done ([Some BuiltStreamFileBuilderError; None; Some BuiltStreamFileBuilderError], sb')
     /\ sb_built sb' = true
     /\ sb_file sb' = sb_file (demo_builder []))
  /\ @AddSheet demo "S3" ["D"] (set_built true (demo_builder []))
     = Done (Some BuiltStreamFileBuilderError, set_built true (demo_builder [])).
Proof.
  destruct (@builder_is_one_shot demo) as (_ & _ & Hcall & Hcalls).
  split.
  - destruct (Hcalls (set_built true (demo_builder []))
                [CallAddSheet "S3" ["D"]; CallAddSharedStrings ["x"]; CallBuild] eq_refl)
      as (sb' & Hrun & Hb & Hf & _).
    exists sb'. split; [exact Hrun|]. split; assumption.
  - apply (Hcall (set_built true (demo_builder [])) "S3" ["D"] eq_refl).
Defined.

(** C8, the claim as it was stated: after [Build], [AddSharedStrings] still
    changes the string table of the builder, and it has no error to return. *)
Lemma AddSharedStrings_after_Build :
  exists sf sb1 sb2,
    @Build demo (demo_builder []) = Done (Ok sf, sb1)
    /\ sb_built sb1 = true
    /\ AddSharedStrings ["x"] sb1 = Done (tt, sb2)
    /\ sb_refTable sb1 = {| indexedStrings := [] |}
    /\ sb_refTable sb2 = {| indexedStrings := ["x"] |}.
Proof.
  do 3 eexists.
  split; [vm_compute; reflexivity|].
  split; [vm_compute; reflexivity|].
  split; [vm_compute; reflexivity|].
  split; vm_compute; reflexivity.
Qed.

(** One row goes in, the next is one cell short, the third is not looked at. *)
Lemma WriteAll_stops_at_first_failure_witness :
  exists sf1,
    @WriteAll demo [["1"; "2"]; ["3"]; ["4"; "5"]] (demo_session [])
    = Done (Some WrongNumberOfRowsError, set_err (Some WrongNumberOfRowsError) sf1)
    /\ entries (zipWriter sf1) =
         [ ("[Content_Types].xml", "<Types/>");
           ("xl/worksheets/sheet1.xml", "<worksheet><sheetData><row/><row>1,2</row>") ].
Proof.
  eexists. split.
  - eapply proj1.
    eapply (@WriteAll_stops_at_first_failure demo (demo_session []) _ _
              [["1"; "2"]] ["3"] [["4"; "5"]] WrongNumberOfRowsError eq_refl).
    + eapply rows_written_cons; [vm_compute; reflexivity|apply rows_written_nil].
    + vm_compute. reflexivity.
  - reflexivity.
Defined.

(** A builder that was given no sheet. *)
Lemma Build_without_sheets_panics_witness :
  @Build demo (NewStreamFileBuilder []) = Panics IndexOutOfRange.
Proof.
  apply (@Build_without_sheets_panics demo (NewStreamFileBuilder [])
           {| indexedStrings := [] |} [("[Content_Types].xml", "<Types/>")]).
  - reflexivity.
  - reflexivity.
  - reflexivity.
  - repeat constructor.
  - apply healthy_nil.
  - reflexivity.
Defined.

(** ** The path of a sheet and its index *)

Section SheetPath.

Lemma digits_value_acc (d : Decimal.uint) (acc : positive) :
  digits_value (NilEmpty.string_of_uint d) (Z.pos acc)
  = Some (Z.pos (Pos.of_uint_acc d acc)).
Proof.
  revert acc. induction d; intros acc; cbn [NilEmpty.string_of_uint digits_value Pos.of_uint_acc];
    try reflexivity;
    match goal with
    | |- context [digit_of ?c] =>
        change (digit_of c) with (Some (Z.of_nat (nat_of_ascii c) - 48)); cbv beta iota
    end;
    rewrite <- IHd; f_equal;
    match goal with
    | |- context [Z.of_nat (nat_of_ascii ?c)] =>
        let v := eval vm_compute in (Z.of_nat (nat_of_ascii c)) in
        change (Z.of_nat (nat_of_ascii c)) with v
    end; lia.
Qed.

Lemma digits_value_uint (d : Decimal.uint) :
  digits_value (NilEmpty.string_of_uint d) 0 = Some (Z.of_N (Pos.of_uint d)).
Proof.
  induction d; cbn [NilEmpty.string_of_uint digits_value Pos.of_uint];
    try reflexivity;
    match goal with
    | |- context [digit_of ?c] =>
        change (digit_of c) with (Some (Z.of_nat (nat_of_ascii c) - 48)); cbv beta iota
    end;
    match goal with
    | |- context [Z.of_nat (nat_of_ascii ?c)] =>
        let v := eval vm_compute in (10 * 0 + (Z.of_nat (nat_of_ascii c) - 48)) in
        change (10 * 0 + (Z.of_nat (nat_of_ascii c) - 48)) with v
    end;
    [exact IHd | apply digits_value_acc ..].
Qed.

(** [strconv.Atoi] reads back what [strconv.Itoa] prints for a positive
    [int]. *)
Lemma Atoi_Itoa (n : Z) : 0 < n <= int64_max -> Atoi (Itoa n) = Some n.
Proof.
  intros Hn. destruct n as [|p|p]; try lia.
  unfold Itoa. cbn [Z.to_int NilZero.string_of_int].
  unfold NilZero.string_of_uint.
  pose proof (DecimalPos.Unsigned.to_uint_nonnil p) as Hnil.
  pose proof (DecimalPos.Unsigned.of_to p) as Hof.
  pose proof (digits_value_uint (Pos.to_uint p)) as Hd.
  rewrite Hof in Hd. cbn [Z.of_N] in Hd.
  destruct (Pos.to_uint p) as [|d|d|d|d|d|d|d|d|d|d]; [congruence|..];
    cbn [NilEmpty.string_of_uint] in *; unfold Atoi; cbv beta iota; rewrite Hd;
    (destruct (Z.leb_spec int64_min (Z.pos p)); [|unfold int64_min in *; lia]);
    (destruct (Z.leb_spec (Z.pos p) int64_max); [|lia]); reflexivity.
Qed.

Lemma stake_sapp (a b : string) : stake (String.length a) (a +:+ b) = a.
Proof.
  induction a as [|c a IH]; [destruct b; reflexivity|].
  rewrite sapp_cons. cbn [String.length stake]. rewrite IH. reflexivity.
Qed.

Lemma sdrop_sapp (a b : string) : sdrop (String.length a) (a +:+ b) = b.
Proof.
  induction a as [|c a IH]; [reflexivity|].
  rewrite sapp_cons. cbn [String.length sdrop]. exact IH.
Qed.

(** X1. The path [NextSheet] gives the entry of sheet [n] is a sheet path
    for [Build], and [getSheetIndex] reads the position [n - 1] off it. *)
Theorem getSheetIndex_sheetPath sf n :
  1 <= n <= int64_max ->
  n <= len (sheetXmlPrefix sf) -> n <= len (sheetXmlSuffix sf) ->
  n <= len (Sheets (file sf)) ->
  String.prefix sheetFilePathPrefix (sheetPath n) = true
  /\ getSheetIndex sf (sheetPath n) = Done (Ok (n - 1)).
Proof.
  intros Hn Hp Hs Hf. split; [apply prefix_sapp|].
  unfold getSheetIndex, slice, sheetPath, slen.
  rewrite !slength_sapp.
  set (k := String.length (Itoa n)).
  replace (Z.of_nat (String.length sheetFilePathPrefix + (k + String.length sheetFilePathSuffix))
           - Z.of_nat (String.length sheetFilePathSuffix)
           - Z.of_nat (String.length sheetFilePathPrefix)) with (Z.of_nat k) by lia.
  rewrite !Nat2Z.id, sdrop_sapp. subst k. rewrite stake_sapp.
  destruct (Z.leb_spec 0 (Z.of_nat (String.length sheetFilePathPrefix))); [|lia].
  destruct (Z.leb_spec (Z.of_nat (String.length sheetFilePathPrefix))
              (Z.of_nat (String.length sheetFilePathPrefix
                         + (String.length (Itoa n) + String.length sheetFilePathSuffix))
               - Z.of_nat (String.length sheetFilePathSuffix))); [|lia].
  destruct (Z.leb_spec
              (Z.of_nat (String.length sheetFilePathPrefix
                         + (String.length (Itoa n) + String.length sheetFilePathSuffix))
               - Z.of_nat (String.length sheetFilePathSuffix))
              (Z.of_nat (String.length sheetFilePathPrefix
                         + (String.length (Itoa n) + String.length sheetFilePathSuffix))));
    [|lia].
  cbn [andb]. rewrite Atoi_Itoa by lia.
  destruct (Z.ltb_spec n 1); [lia|].
  destruct (Z.ltb_spec (len (sheetXmlPrefix sf)) n); [lia|].
  destruct (Z.ltb_spec (len (sheetXmlSuffix sf)) n); [lia|].
  destruct (Z.ltb_spec (len (Sheets (file sf))) n); [lia|].
  reflexivity.
Qed.

End SheetPath.

(** ** The template of a sheet *)

Section Template.

Lemma getSheetIndex_short sf path :
  slen path < slen sheetFilePathPrefix + slen sheetFilePathSuffix ->
  getSheetIndex sf path = Panics SliceBoundsOutOfRange.
Proof.
  intros Hlen. unfold getSheetIndex, slice.
  destruct (Z.leb_spec (slen sheetFilePathPrefix) (slen path - slen sheetFilePathSuffix));
    [lia|].
  rewrite andb_false_r. reflexivity.
Qed.

Lemma getSheetIndex_long sf path :
  slen sheetFilePathPrefix + slen sheetFilePathSuffix <= slen path ->
  exists r, getSheetIndex sf path = Done r.
Proof.
  intros Hlen. unfold getSheetIndex, slice.
  destruct (Z.leb_spec 0 (slen sheetFilePathPrefix)); [|unfold slen in *; lia].
  destruct (Z.leb_spec (slen sheetFilePathPrefix) (slen path - slen sheetFilePathSuffix));
    [|lia].
  destruct (Z.leb_spec (slen path - slen sheetFilePathSuffix) (slen path));
    [|unfold slen in *; lia].
  cbn [andb]. destruct (Atoi _) as [k|]; [|eauto].
  destruct (_ || _); eauto.
Qed.

(** X2. [processEmptySheetXML] has one way to panic: a path shorter than the
    sheet prefix and the suffix together, where the slice that is to hold the
    number has its end before its start. On every longer path it returns, and
    its two stores are within the bounds [getSheetIndex] has checked. *)
Theorem processEmptySheetXML_panics sf path data :
  (slen path < slen sheetFilePathPrefix + slen sheetFilePathSuffix ->
     processEmptySheetXML path data sf = Panics SliceBoundsOutOfRange)
  /\ (slen sheetFilePathPrefix + slen sheetFilePathSuffix <= slen path ->
      exists r sf', processEmptySheetXML path data sf = Done (r, sf')).
Proof.
  split; intros Hlen.
  - unfold processEmptySheetXML, bind, get, lift.
    rewrite (getSheetIndex_short _ _ Hlen). reflexivity.
  - destruct (getSheetIndex_long sf path Hlen) as [r Hr].
    unfold processEmptySheetXML, bind, get, lift, modify, ret. rewrite Hr.
    destruct r as [i|e]; [|eauto].
    destruct (getSheetIndex_bounds _ _ _ Hr) as [Hp Hs].
    destruct (splitSheetIntoPrefixAndSuffix data) as [[prefix suffix]|e]; [|eauto].
    unfold store_at.
    destruct (Z.leb_spec 0 i); [|lia].
    destruct (Z.ltb_spec i (len (sheetXmlPrefix sf))); [|lia].
    destruct (Z.ltb_spec i (len (sheetXmlSuffix sf))); [|lia].
    cbn [andb]. eauto.
Qed.

Lemma processEmptySheetXML_done sf path data sf' :
  processEmptySheetXML path data sf = Done (None, sf') ->
  exists i prefix suffix,
    getSheetIndex sf path = Done (Ok i)
    /\ sheetXmlPrefix sf' !! Z.to_nat i = Some prefix
    /\ sheetXmlSuffix sf' !! Z.to_nat i = Some suffix
    /\ prefix +:+ endSheetDataTag +:+ suffix = data
    /\ (forall j, j <> Z.to_nat i ->
          sheetXmlPrefix sf' !! j = sheetXmlPrefix sf !! j
          /\ sheetXmlSuffix sf' !! j = sheetXmlSuffix sf !! j)
    /\ zipWriter sf' = zipWriter sf /\ file sf' = file sf
    /\ currentSheet sf' = currentSheet sf /\ refTable sf' = refTable sf
    /\ err sf' = err sf.
Proof.
  unfold processEmptySheetXML, bind, get, lift, modify, ret.
  destruct (getSheetIndex sf path) as [[i|e]|p] eqn:Hi; try discriminate.
  destruct (getSheetIndex_bounds _ _ _ Hi) as [Hp Hs].
  destruct (splitSheetIntoPrefixAndSuffix data) as [[prefix suffix]|e] eqn:Hsplit;
    [|discriminate].
  unfold store_at.
  destruct (Z.leb_spec 0 i); [|lia].
  destruct (Z.ltb_spec i (len (sheetXmlPrefix sf))); [|lia].
  destruct (Z.ltb_spec i (len (sheetXmlSuffix sf))); [|lia].
  cbn [andb]. intros [= <-]. exists i, prefix, suffix.
  cbn [sheetXmlPrefix sheetXmlSuffix zipWriter file currentSheet refTable err
       set_sheetXmlPrefix set_sheetXmlSuffix].
  split; [reflexivity|].
  split; [apply list_lookup_insert_eq; unfold len in *; lia|].
  split; [apply list_lookup_insert_eq; unfold len in *; lia|].
  split.
  { destruct (Nat.eq_dec (occurrences endSheetDataTag data) 1%nat) as [Ho|Hne].
    - destruct (splitSheetIntoPrefixAndSuffix_ok _ Ho) as (p & s & Hs' & Hcat). congruence.
    - rewrite (splitSheetIntoPrefixAndSuffix_malformed _ Hne) in Hsplit. discriminate. }
  split; [|repeat split; reflexivity].
  intros j Hj. split; apply list_lookup_insert_ne; congruence.
Qed.

(** X3. When [processEmptySheetXML] returns no error, the prefix and the
    suffix it stored for the sheet of the path are the empty sheet cut at its
    end tag: with the tag between them they are the sheet again. The
    templates of the other sheets, the archive and the rest of the session
    are as they were. *)
Theorem processEmptySheetXML_stores sf path data sf' :
  processEmptySheetXML path data sf = Done (None, sf') ->
  exists i prefix suffix,
    getSheetIndex sf path = Done (Ok i)
    /\ sheetXmlPrefix sf' !! Z.to_nat i = Some prefix
    /\ sheetXmlSuffix sf' !! Z.to_nat i = Some suffix
    /\ prefix +:+ endSheetDataTag +:+ suffix = data
    /\ (forall j, j <> Z.to_nat i ->
          sheetXmlPrefix sf' !! j = sheetXmlPrefix sf !! j
          /\ sheetXmlSuffix sf' !! j = sheetXmlSuffix sf !! j)
    /\ zipWriter sf' = zipWriter sf /\ file sf' = file sf
    /\ currentSheet sf' = currentSheet sf /\ refTable sf' = refTable sf
    /\ err sf' = err sf.
Proof. exact (processEmptySheetXML_done sf path data sf'). Qed.

End Template.

(** ** The two parts of a split sheet *)

Section SplitParts.

Lemma prefix_sapp_l (sep a b : string) :
  String.prefix sep a = true -> String.prefix sep (a +:+ b) = true.
Proof.
  revert a. induction sep as [|c sep IH]; intros a Hp.
  - destruct (a +:+ b); reflexivity.
  - destruct a as [|d a]; [discriminate|]. rewrite sapp_cons.
    cbn [String.prefix] in *. destruct (ascii_dec c d); [|discriminate].
    apply IH. exact Hp.
Qed.

(** The occurrences in two strings are still there when the strings are put
    together. *)
Lemma occurrences_sapp (sep a b : string) :
  sep <> EmptyString ->
  (occurrences sep a + occurrences sep b <= occurrences sep (a +:+ b))%nat.
Proof.
  intros Hsep. induction a as [|c a IH].
  - rewrite sapp_nil_l. cbn [occurrences]. rewrite (prefix_empty _ Hsep). lia.
  - rewrite sapp_cons, !occurrences_cons.
    destruct (String.prefix sep (String c a)) eqn:Hp.
    + rewrite <- sapp_cons, (prefix_sapp_l _ _ b Hp). lia.
    + destruct (String.prefix sep (String c (a +:+ b))); lia.
Qed.

(** X4. The prefix and the suffix [splitSheetIntoPrefixAndSuffix] returns
    hold no end tag: the tag that [NextSheet] and [Close] write behind the
    rows is the only one of the entry's template. *)
Theorem splitSheetIntoPrefixAndSuffix_parts data prefix suffix :
  splitSheetIntoPrefixAndSuffix data = Ok (prefix, suffix) ->
  occurrences endSheetDataTag prefix = O /\ occurrences endSheetDataTag suffix = O.
Proof.
  intros Hs.
  destruct (Nat.eq_dec (occurrences endSheetDataTag data) 1%nat) as [Ho|Hne].
  - destruct (splitSheetIntoPrefixAndSuffix_ok _ Ho) as (p & s & Hs' & Hcat).
    rewrite Hs in Hs'. injection Hs' as <- <-.
    pose proof (occurrences_sapp endSheetDataTag prefix (endSheetDataTag +:+ suffix)
                  ltac:(discriminate)) as Hle.
    rewrite Hcat, Ho, occurrences_endSheetDataTag in Hle. lia.
  - rewrite (splitSheetIntoPrefixAndSuffix_malformed _ Hne) in Hs. discriminate.
Qed.

End SplitParts.

(** ** What every call of a session does and does not *)

Section SessionLaws.
Context `{Collaborators}.

(** X5. Every error [NextSheet] returns is the stored error afterwards. *)
Theorem NextSheet_stores_error sf e sf' :
  NextSheet sf = Done (Some e, sf') -> err sf' = Some e.
Proof.
  unfold NextSheet, bind at 1, gets.
  destruct (err sf) as [e0|] eqn:He; [intros [= <- <-]; exact He|].
  assert (Hopen : forall i s, NextSheet_open i s = Done (Some e, sf') -> err sf' = Some e).
  { intros i s. unfold NextSheet_open, bind, gets, lift, modify, ret.
    destruct (index_at _ _) as [sheet|]; [|discriminate].
    unfold with_zip at 1. destruct (zw_Create _ _) as [[fileWriter|e1] z1].
    - destruct (writeSheetStart _) as [[[e1|] s1]|p]; try discriminate.
      intros [= <- <-]. reflexivity.
    - intros [= <- <-]. reflexivity. }
  unfold bind at 1. destruct (currentSheet sf) as [cs|]; [|apply Hopen].
  unfold bind at 1, gets.
  destruct (len (Sheets (file sf)) <=? index cs).
  - unfold bind, modify, ret. intros [= <- <-]. reflexivity.
  - unfold bind at 1. destruct (writeSheetEnd sf) as [[[e1|] s1]|p]; try discriminate.
    + unfold bind, modify, ret. intros [= <- <-]. reflexivity.
    + apply Hopen.
Qed.

(** X6. When [NextSheet] returns no error, the session had no stored error
    and has none, the sheet behind the one that was open (the first sheet, if
    none was open) is the current one, with the row counter 1, the number of
    its columns as column count, and a writer the archive takes bytes from;
    the sheets, the templates and the string table are as they were. No
    assumption is made on the sink. *)
Theorem NextSheet_success sf sf' :
  NextSheet sf = Done (None, sf') ->
  err sf = None /\ err sf' = None
  /\ file sf' = file sf
  /\ sheetXmlPrefix sf' = sheetXmlPrefix sf
  /\ sheetXmlSuffix sf' = sheetXmlSuffix sf
  /\ refTable sf' = refTable sf
  /\ exists sheet w,
       let i := match currentSheet sf with Some cs => index cs | None => 0 end in
       0 <= i
       /\ Sheets (file sf) !! Z.to_nat i = Some sheet
       /\ currentSheet sf' =
            Some {| index := i + 1; rowCount := 1;
                    columnCount := len (Cols sheet); writer := Some w |}
       /\ entry_open w (zipWriter sf') = true.
Proof.
  intros Hn.
  destruct (NextSheet_done _ _ Hn)
    as (sheet & w & He & Hi & Hs & Hf & Hp & Hsu & Hr & He' & Hc' & Ho).
  repeat (split; [assumption|]). exists sheet, w. cbv zeta.
  repeat (split; [assumption|]). exact Ho.
Qed.

Lemma wrap64_id z : int64_min <= z <= int64_max -> wrap64 z = z.
Proof.
  unfold int64_min, int64_max, wrap64. intros Hz.
  rewrite Z.mod_small by lia. lia.
Qed.

Lemma Flush_sink_only sf r sf' :
  with_zip zw_Flush sf = Done (r, sf') ->
  exists z, sf' = set_zipWriter z sf
            /\ entries z = entries (zipWriter sf) /\ zclosed z = zclosed (zipWriter sf).
Proof.
  unfold with_zip, zw_Flush, tick. destruct (zipWriter sf) as [es c fs] eqn:Hz.
  cbn [faults entries zclosed].
  destruct fs as [|[n|] fs]; intros [= <- <-]; eexists; (split; [reflexivity|]);
    split; reflexivity.
Qed.

(** X7. When [Write] returns no error on a sheet whose row counter [n] is in
    the range of a sheet, the row had as many cells as the sheet has columns;
    it was encoded at the row position [n], which is 1 for the first row
    behind the header; its bytes, and nothing else, were appended to the
    entry of the sheet; the row counter is [n + 1] and no error is stored. *)
Theorem Write_success sf cs cells sf' :
  Write cells sf = Done (None, sf') ->
  currentSheet sf = Some cs ->
  0 <= rowCount cs < int64_max ->
  exists w rowBytes,
    writer cs = Some w
    /\ len cells = columnCount cs
    /\ xml_Marshal (snd (makeXLSXRowForStreaming (rowCount cs) cells (refTable sf)))
       = inl rowBytes
    /\ entries (zipWriter sf') = append_entry w rowBytes (entries (zipWriter sf))
    /\ currentSheet sf' = Some (set_rowCount (rowCount cs + 1) cs)
    /\ refTable sf' = fst (makeXLSXRowForStreaming (rowCount cs) cells (refTable sf))
    /\ err sf' = None.
Proof.
  intros Hw Hc Hn. revert Hw. unfold Write, bind at 1, gets.
  destruct (err sf) as [e|] eqn:He; [discriminate|].
  unfold bind. destruct (write cells sf) as [[[e|] sf1]|p] eqn:Hwr; try discriminate.
  intros Hfl. destruct (Flush_sink_only _ _ _ Hfl) as (z & -> & Hes & _).
  destruct (write_effect _ _ _ _ Hwr) as (_ & _ & _ & He1 & _).
  destruct (write_done _ _ _ Hwr) as (cs' & w & rowBytes & Hc' & Hw' & Hm & Hent & Hc1 & Hr).
  rewrite Hc in Hc'. injection Hc' as <-.
  assert (Hlen : len cells = columnCount cs).
  { revert Hwr. unfold write, bind, gets, ret. rewrite Hc.
    destruct (Z.eqb_spec (len cells) (columnCount cs)); [auto|discriminate]. }
  rewrite (wrap64_id (rowCount cs + 1)) in * by (unfold int64_min, int64_max in *; lia).
  replace (rowCount cs + 1 - 1) with (rowCount cs) in * by lia.
  rewrite (wrap64_id (rowCount cs)) in * by (unfold int64_min, int64_max in *; lia).
  exists w, rowBytes. cbn [zipWriter currentSheet refTable err set_zipWriter].
  split; [exact Hw'|]. split; [exact Hlen|]. split; [exact Hm|].
  split; [congruence|]. split; [exact Hc1|]. split; [exact Hr|]. congruence.
Qed.

Lemma WriteAll_rows_done records : forall sf sf',
  WriteAll_rows records sf = Done (None, sf') -> rows_written records sf sf'.
Proof.
  induction records as [|row records IH]; intros sf sf'; cbn [WriteAll_rows].
  - unfold ret. intros [= <-]. constructor.
  - unfold bind at 1. destruct (write row sf) as [[[e|] sf1]|p] eqn:Hw; try discriminate.
    intros Hrest. econstructor; [exact Hw|]. apply IH. exact Hrest.
Qed.

Lemma rows_written_err rows sf sf' :
  rows_written rows sf sf' -> err sf' = err sf.
Proof.
  induction 1 as [sf|row rows sf sf0 sf2 Hw _ IH]; [reflexivity|].
  destruct (write_effect _ _ _ _ Hw) as (_ & _ & _ & He1 & _). congruence.
Qed.

Lemma WriteAll_done sf records sf' :
  WriteAll records sf = Done (None, sf') ->
  exists sf1,
    rows_written records sf sf1
    /\ entries (zipWriter sf') = entries (zipWriter sf1)
    /\ err sf' = None
    /\ forall cs w,
         currentSheet sf = Some cs -> writer cs = Some w ->
         entries (zipWriter sf') =
           append_entry w (rows_xml (rowCount cs) (refTable sf) records)
             (entries (zipWriter sf)).
Proof.
  unfold WriteAll, bind at 1, gets.
  destruct (err sf) as [e|] eqn:He; [discriminate|].
  unfold bind. destruct (WriteAll_rows records sf) as [[[e|] sf1]|p] eqn:Hrows;
    try discriminate.
  intros Hfl. destruct (Flush_sink_only _ _ _ Hfl) as (z & -> & Hes & _).
  pose proof (WriteAll_rows_done _ _ _ Hrows) as Hwritten.
  exists sf1. cbn [zipWriter err set_zipWriter].
  split; [exact Hwritten|]. split; [exact Hes|]. split.
  - rewrite (rows_written_err _ _ _ Hwritten). exact He.
  - intros cs w Hc Hw. rewrite Hes. eapply rows_written_entries; eassumption.
Qed.

(** X8. When [WriteAll] returns no error, [write] took every row, one after
    the other, and the bytes of all of them, in their order, are what was
    appended to the entry of the sheet that is open. *)
Theorem WriteAll_success sf records sf' :
  WriteAll records sf = Done (None, sf') ->
  exists sf1,
    rows_written records sf sf1
    /\ entries (zipWriter sf') = entries (zipWriter sf1)
    /\ err sf' = None
    /\ forall cs w,
         currentSheet sf = Some cs -> writer cs = Some w ->
         entries (zipWriter sf') =
           append_entry w (rows_xml (rowCount cs) (refTable sf) records)
             (entries (zipWriter sf)).
Proof. exact (WriteAll_done sf records sf'). Qed.

(** X9. [WriteAll] with one row is [Write] with that row, on every session
    and every sink. *)
Theorem WriteAll_one_row sf row :
  WriteAll [row] sf = Write row sf.
Proof.
  unfold WriteAll, Write, bind at 1 3, gets.
  destruct (err sf); [reflexivity|].
  cbn [WriteAll_rows]. unfold bind.
  destruct (write row sf) as [[[e|] sf1]|p]; reflexivity.
Qed.

End SessionLaws.

(** ** The archive only grows *)

Section AppendOnly.
Context `{Collaborators}.

Lemma grown_trans l1 l2 l3 : grown l1 l2 -> grown l2 l3 -> grown l1 l3.
Proof.
  unfold grown. intros H12. revert l3.
  induction H12 as [|e1 e2 l1 l2 [Hp [d Hd]] _ IH]; intros l3 H23.
  - inversion H23. constructor.
  - inversion H23 as [|? e3 ? l3' [Hp' [d' Hd']] Hrest]; subst. constructor.
    + split; [congruence|]. exists (d +:+ d'). rewrite Hd', Hd. apply sapp_assoc.
    + apply IH. exact Hrest.
Qed.

Lemma archive_extended_refl l : archive_extended l l.
Proof. exists l, []. rewrite app_nil_r. split; [reflexivity|apply grown_refl]. Qed.

Lemma archive_extended_trans l1 l2 l3 :
  archive_extended l1 l2 -> archive_extended l2 l3 -> archive_extended l1 l3.
Proof.
  intros (k1 & k2 & -> & Hg) (j1 & j2 & -> & Hg').
  unfold grown in Hg'. apply Forall2_app_inv_l in Hg'.
  destruct Hg' as (ja & jb & Ha & Hb & ->).
  exists ja, (jb ++ j2). rewrite app_assoc. split; [reflexivity|].
  eapply grown_trans; [exact Hg|exact Ha].
Qed.

Lemma extends_ret {A} (a : A) : extends_archive (ret a).
Proof. intros sf a' sf'. unfold ret. intros [= _ <-]. apply archive_extended_refl. Qed.

Lemma extends_gets {A} (f : StreamFile -> A) : extends_archive (gets f).
Proof. intros sf a' sf'. unfold gets. intros [= _ <-]. apply archive_extended_refl. Qed.

Lemma extends_lift {A} (o : outcome A) : extends_archive (lift o).
Proof.
  intros sf a' sf'. unfold lift. destruct o; [|discriminate].
  intros [= _ <-]. apply archive_extended_refl.
Qed.

Lemma extends_throw {A} p : extends_archive (@throw StreamFile A p).
Proof. intros sf a' sf'. discriminate. Qed.

Lemma extends_modify (f : StreamFile -> StreamFile) :
  (forall sf, zipWriter (f sf) = zipWriter sf) -> extends_archive (modify f).
Proof.
  intros Hf sf a' sf'. unfold modify. intros [= _ <-]. rewrite Hf.
  apply archive_extended_refl.
Qed.

Lemma extends_bind {A B} (m : M StreamFile A) (k : A -> M StreamFile B) :
  extends_archive m -> (forall a, extends_archive (k a)) -> extends_archive (bind m k).
Proof.
  intros Hm Hk sf b sf'. unfold bind.
  destruct (m sf) as [[a sf1]|p] eqn:Hrun; [|discriminate].
  intros Hrun'. eapply archive_extended_trans; [eapply Hm|eapply Hk]; eassumption.
Qed.

Lemma extends_with_zip {A} (f : zip_Writer -> A * zip_Writer) :
  (forall z, archive_extended (entries z) (entries (snd (f z)))) ->
  extends_archive (with_zip f).
Proof.
  intros Hf sf a sf'. unfold with_zip. specialize (Hf (zipWriter sf)).
  destruct (f (zipWriter sf)) as [a' z']. intros [= _ <-]. exact Hf.
Qed.

Lemma tick_entries z : entries (snd (tick z)) = entries z.
Proof. unfold tick. destruct (faults z); reflexivity. Qed.

Lemma extends_fw_Write w data : extends_archive (with_zip (fw_Write w data)).
Proof.
  apply extends_with_zip. intros z. unfold fw_Write.
  destruct (entry_open w z); [|apply archive_extended_refl].
  pose proof (tick_entries z) as Ht. destruct (tick z) as [[c|] z']; cbn [snd entries] in *.
  - rewrite Ht. apply archive_extended_refl.
  - rewrite Ht. exists (append_entry w data (entries z)), [].
    rewrite app_nil_r. split; [reflexivity|apply grown_append_entry].
Qed.

Lemma extends_zw_Create path : extends_archive (with_zip (zw_Create path)).
Proof.
  apply extends_with_zip. intros z. unfold zw_Create.
  pose proof (tick_entries z) as Ht. destruct (tick z) as [[c|] z']; cbn [snd entries] in *.
  - rewrite Ht. apply archive_extended_refl.
  - rewrite Ht. eexists _, _. split; [reflexivity|apply grown_refl].
Qed.

Lemma extends_zw_Flush : extends_archive (with_zip zw_Flush).
Proof.
  apply extends_with_zip. intros z. unfold zw_Flush.
  pose proof (tick_entries z) as Ht. destruct (tick z) as [[c|] z']; cbn [snd entries] in *;
    rewrite Ht; apply archive_extended_refl.
Qed.

Lemma extends_zw_Close : extends_archive (with_zip zw_Close).
Proof.
  apply extends_with_zip. intros z. unfold zw_Close.
  destruct (zclosed z); [apply archive_extended_refl|].
  pose proof (tick_entries z) as Ht. destruct (tick z) as [[c|] z']; cbn [snd entries] in *;
    rewrite Ht; apply archive_extended_refl.
Qed.

Ltac extends_step :=
  first
    [ assumption
    | apply extends_ret | apply extends_gets | apply extends_lift | apply extends_throw
    | apply extends_fw_Write | apply extends_zw_Create | apply extends_zw_Flush
    | apply extends_zw_Close
    | apply extends_modify; intros ?; reflexivity
    | match goal with
      | |- extends_archive (match ?x with _ => _ end) => destruct x
      | |- extends_archive (if ?x then _ else _) => destruct x
      | |- extends_archive (let '(_, _) := ?x in _) => destruct x
      end
    | apply extends_bind; [|intros ?] ].

Lemma extends_streamSheet_write cs data : extends_archive (streamSheet_write cs data).
Proof. unfold streamSheet_write. repeat extends_step. Qed.

Lemma extends_write cells : extends_archive (write cells).
Proof.
  unfold write. repeat first [apply extends_streamSheet_write | extends_step].
Qed.

Lemma extends_NextSheet : extends_archive NextSheet.
Proof.
  unfold NextSheet, NextSheet_open, writeSheetEnd, writeSheetStart.
  repeat first [apply extends_streamSheet_write | extends_step].
Qed.

Lemma extends_WriteAll_rows records : extends_archive (WriteAll_rows records).
Proof.
  induction records as [|row records IH]; cbn [WriteAll_rows];
    repeat first [apply extends_write | extends_step].
Qed.

Lemma extends_Close_sheets fuel : extends_archive (Close_sheets fuel).
Proof.
  induction fuel as [|fuel IH]; cbn [Close_sheets];
    repeat first [apply extends_NextSheet | extends_step].
Qed.

(** X10. No call on a session takes anything back from the archive: whatever
    [Write], [WriteAll], [NextSheet], [Close] and [Flush] return, on whatever
    sink, the entries that were there are still there, in their order, each
    with the bytes it had and maybe more behind them, and maybe with further
    entries behind them. *)
Theorem session_extends_archive :
  (forall cells, extends_archive (Write cells))
  /\ (forall records, extends_archive (WriteAll records))
  /\ extends_archive NextSheet
  /\ extends_archive Close
  /\ extends_archive Flush.
Proof.
  split; [|split; [|split; [|split]]].
  - intros cells. unfold Write. repeat first [apply extends_write | extends_step].
  - intros records. unfold WriteAll.
    repeat first [apply extends_WriteAll_rows | extends_step].
  - apply extends_NextSheet.
  - unfold Close, Close_finish, writeSheetEnd.
    repeat first [apply extends_Close_sheets | apply extends_streamSheet_write
                 | extends_step].
  - unfold Flush. repeat extends_step.
Qed.

End AppendOnly.

(** ** Sessions in order, sessions that failed, sessions that are closed *)

Section Lifecycle.
Context `{Collaborators}.

(** X11. The session [Build] returns is in order: it has a prefix and a
    suffix for every sheet, no stored error, and its first sheet open, with
    the row counter 1, the column count of that sheet and the writer of the
    newest entry of the archive. *)
Theorem Build_returns_session_in_order sb sf sb' :
  Build sb = Done (Ok sf, sb') ->
  well_formed sf = true /\ err sf = None
  /\ exists cs, currentSheet sf = Some cs /\ index cs = 1 /\ rowCount cs = 1.
Proof. apply Build_well_formed. Qed.

Lemma rows_written_well_formed rows sf sf' :
  rows_written rows sf sf' -> well_formed sf = true -> well_formed sf' = true.
Proof.
  induction 1 as [sf|row rows sf sf1 sf2 Hw _ IH]; [auto|].
  intros Hwf. apply IH. eapply write_well_formed; eassumption.
Qed.

Lemma well_formed_sink_only sf z :
  entries z = entries (zipWriter sf) -> zclosed z = zclosed (zipWriter sf) ->
  well_formed (set_zipWriter z sf) = well_formed sf.
Proof.
  intros He Hc. unfold well_formed, current_ok, entry_open.
  cbn [set_zipWriter file sheetXmlPrefix sheetXmlSuffix currentSheet zipWriter].
  rewrite He, Hc. reflexivity.
Qed.

(** X12. A session that is in order stays in order, and without a stored
    error, through every [Write], [WriteAll] and [NextSheet] that returns no
    error. *)
Theorem session_stays_in_order sf sf' :
  well_formed sf = true ->
  (forall cells, Write cells sf = Done (None, sf') ->
     well_formed sf' = true /\ err sf' = None)
  /\ (forall records, WriteAll records sf = Done (None, sf') ->
        well_formed sf' = true /\ err sf' = None)
  /\ (NextSheet sf = Done (None, sf') ->
        well_formed sf' = true /\ err sf' = None).
Proof.
  intros Hwf. split; [|split].
  - intros cells. unfold Write, bind at 1, gets.
    destruct (err sf) as [e|] eqn:He; [discriminate|].
    unfold bind. destruct (write cells sf) as [[[e|] sf1]|p] eqn:Hw; try discriminate.
    intros Hfl. destruct (Flush_sink_only _ _ _ Hfl) as (z & -> & Hes & Hcl).
    destruct (write_well_formed _ _ _ Hwf Hw) as [Hwf1 He1].
    rewrite (well_formed_sink_only _ _ Hes Hcl). split; [exact Hwf1|].
    cbn [err set_zipWriter]. congruence.
  - intros records Hrun.
    destruct (WriteAll_done _ _ _ Hrun) as (sf1 & Hrows & _ & He' & _).
    split; [|exact He'].
    revert Hrun. unfold WriteAll, bind at 1, gets.
    destruct (err sf) as [e|]; [discriminate|].
    unfold bind. destruct (WriteAll_rows records sf) as [[[e|] sf2]|p] eqn:Hr;
      try discriminate.
    intros Hfl. destruct (Flush_sink_only _ _ _ Hfl) as (z & -> & Hes & Hcl).
    rewrite (well_formed_sink_only _ _ Hes Hcl).
    eapply rows_written_well_formed; [|exact Hwf].
    apply WriteAll_rows_done. exact Hr.
  - intros Hn.
    assert (Hl : length (sheetXmlPrefix sf) = length (Sheets (file sf))
                 /\ length (sheetXmlSuffix sf) = length (Sheets (file sf))).
    { unfold well_formed in Hwf.
      apply andb_true_iff in Hwf. destruct Hwf as [Hwf _].
      apply andb_true_iff in Hwf. destruct Hwf as [Hp Hs].
      apply Nat.eqb_eq in Hp, Hs. auto. }
    destruct (NextSheet_well_formed sf sf' (proj1 Hl) (proj2 Hl) Hn) as (Hwf' & He' & _).
    auto.
Qed.

(** X13. A session that has a stored error answers every [Write],
    [WriteAll], [NextSheet] and [Close] with that error, in whatever order
    and number they come, and nothing of the session changes: the sink is not
    called. *)
Theorem failed_session_refuses sf e cs :
  err sf = Some e ->
  session_runs cs sf = Done (map (fun _ => Some e) cs, sf).
Proof.
  intros He. induction cs as [|c cs IH]; [reflexivity|].
  cbn [session_runs map]. unfold bind at 1.
  assert (Hc : session_run c sf = Done (Some e, sf)).
  { destruct c; cbn [session_run];
      [apply Write_refused|apply WriteAll_refused|apply NextSheet_refused|apply Close_refused];
      exact He. }
  rewrite Hc. unfold bind, ret. rewrite IH. reflexivity.
Qed.

(** X14. [Close] on a session that has no sheet open and no stored error
    visits no sheet: on a sink that takes every call, all it adds to the
    archive is the entry of the shared strings, whatever sheets are left. *)
Theorem Close_without_current_sheet sf xml :
  err sf = None -> currentSheet sf = None ->
  marshalFullFile (makeXLSXSST (refTable sf)) = inl xml ->
  healthy (zipWriter sf) -> zclosed (zipWriter sf) = false ->
  Close sf =
    Done (None,
          set_zipWriter {| entries := entries (zipWriter sf) ++ [(sharedStringsFilePath, xml)];
                           zclosed := true;
                           faults := drop 3 (faults (zipWriter sf)) |} sf).
Proof.
  intros He Hc Hm Hh Hcl. unfold Close, bind at 1, gets. rewrite He.
  unfold bind at 1. rewrite Hc. apply Close_finish_healthy; assumption.
Qed.

Lemma tick_keeps z :
  entries (snd (tick z)) = entries z /\ zclosed (snd (tick z)) = zclosed z.
Proof. unfold tick. destruct (faults z); split; reflexivity. Qed.

Lemma Close_finish_done sf sf' :
  Close_finish sf = Done (None, sf') ->
  exists xml,
    marshalFullFile (makeXLSXSST (refTable sf)) = inl xml
    /\ entries (zipWriter sf') = entries (zipWriter sf) ++ [(sharedStringsFilePath, xml)]
    /\ zclosed (zipWriter sf') = true
    /\ err sf' = err sf /\ currentSheet sf' = currentSheet sf /\ file sf' = file sf.
Proof.
  unfold Close_finish, bind at 1, gets.
  destruct (marshalFullFile _) as [xml|msg]; [|discriminate].
  unfold bind at 1, with_zip at 1, zw_Create.
  destruct (tick_keeps (zipWriter sf)) as [Te Tc].
  destruct (tick (zipWriter sf)) as [[c|] z1]; [discriminate|]. cbn [snd] in Te, Tc.
  unfold bind at 1, with_zip at 1, fw_Write, entry_open.
  cbn [zipWriter set_zipWriter entries zclosed faults].
  destruct (zclosed z1) eqn:Hcl; [discriminate|]. rewrite length_app. cbn [length negb andb].
  rewrite Nat.add_1_r, Nat.eqb_refl.
  match goal with |- context [tick ?z] =>
    destruct (tick_keeps z) as [Te2 Tc2]; destruct (tick z) as [[c|] z2] end;
    [discriminate|].
  cbn [snd entries zclosed] in Te2, Tc2.
  unfold bind, with_zip, zw_Close. cbn [zipWriter set_zipWriter entries zclosed faults].
  rewrite Tc2.
  match goal with |- context [tick ?z] =>
    destruct (tick_keeps z) as [Te3 Tc3]; destruct (tick z) as [[c|] z3] end;
    [discriminate|].
  cbn [snd entries zclosed] in Te3, Tc3.
  unfold ret. intros [= <-]. exists xml.
  cbn [zipWriter set_zipWriter entries zclosed err currentSheet file].
  split; [reflexivity|]. split; [|repeat split; reflexivity].
  rewrite Te3, Te2, <- Te.
  fold (append_entry (length (entries z1)) xml
          (entries z1 ++ [(sharedStringsFilePath, EmptyString)])).
  apply append_entry_new.
Qed.

Lemma Close_sheets_done fuel : forall sf sf',
  Close_sheets fuel sf = Done (None, sf') ->
  err sf = None ->
  file sf' = file sf /\ refTable sf' = refTable sf /\ err sf' = None
  /\ exists cs', currentSheet sf' = Some cs' /\ len (Sheets (file sf)) <= index cs'.
Proof.
  induction fuel as [|fuel IH]; intros sf sf'; cbn [Close_sheets];
    unfold bind at 1, gets; destruct (currentSheet sf) as [cs|] eqn:Hc; try discriminate;
    unfold bind at 1;
    destruct (Z.ltb_spec (index cs) (len (Sheets (file sf)))) as [Hlt|Hge];
    try discriminate.
  - unfold ret. intros [= <-] He. repeat (split; [auto|]). exists cs. auto.
  - unfold bind at 1.
    destruct (NextSheet sf) as [[[e|] sf1]|p] eqn:Hn; try discriminate.
    intros Hrest He.
    destruct (NextSheet_done _ _ Hn)
      as (sheet & w & _ & _ & _ & Hf & _ & _ & Hr & He1 & _ & _).
    destruct (IH _ _ Hrest He1) as (Hf' & Hr' & He' & cs' & Hc' & Hi').
    split; [congruence|]. split; [congruence|]. split; [exact He'|].
    exists cs'. split; [exact Hc'|]. rewrite <- Hf. exact Hi'.
  - unfold ret. intros [= <-] He. repeat (split; [auto|]). exists cs. auto.
Qed.

(** X15. Whenever [Close] returns no error, on whatever sink: the archive is
    closed; its last entry is the entry of the shared strings, with the
    table of the session as its bytes; no error is stored; and if a sheet was
    open, the sheet that is current in the end is the last one. *)
Theorem Close_success sf sf' :
  Close sf = Done (None, sf') ->
  err sf = None /\ err sf' = None
  /\ zclosed (zipWriter sf') = true
  /\ (exists xml older,
        marshalFullFile (makeXLSXSST (refTable sf)) = inl xml
        /\ entries (zipWriter sf') = older ++ [(sharedStringsFilePath, xml)])
  /\ (forall cs, currentSheet sf = Some cs ->
        exists cs', currentSheet sf' = Some cs'
                    /\ len (Sheets (file sf)) <= index cs').
Proof.
  unfold Close, bind at 1, gets.
  destruct (err sf) as [e|] eqn:He; [discriminate|].
  unfold bind at 1. destruct (currentSheet sf) as [cs|] eqn:Hc.
  - unfold bind at 1, gets. unfold bind at 1.
    destruct (Close_sheets _ sf) as [[[e|] sf1]|p] eqn:Hsheets; try discriminate.
    unfold bind at 1.
    destruct (writeSheetEnd sf1) as [[[e|] sf2]|p] eqn:Hend; try discriminate.
    intros Hfin.
    destruct (Close_sheets_done _ _ _ Hsheets He) as (Hf & Hr & He1 & cs' & Hc' & Hi').
    destruct (writeSheetEnd_done _ _ Hend) as [z ->].
    destruct (Close_finish_done _ _ Hfin) as (xml & Hm & Hes & Hcl & He2 & Hc2 & _).
    cbn [refTable err currentSheet set_zipWriter] in Hm, He2, Hc2.
    split; [reflexivity|]. split; [congruence|]. split; [exact Hcl|]. split.
    + exists xml. eexists. split; [rewrite <- Hr; exact Hm|exact Hes].
    + intros cs0 _. exists cs'. split; [congruence|exact Hi'].
  - intros Hfin.
    destruct (Close_finish_done _ _ Hfin) as (xml & Hm & Hes & Hcl & He2 & _).
    split; [reflexivity|]. split; [congruence|]. split; [exact Hcl|]. split.
    + exists xml. eexists. split; [exact Hm|exact Hes].
    + discriminate.
Qed.

End Lifecycle.

(** ** What [Build] hands to the archive *)

Section BuildArchive.
Context `{Collaborators}.

Lemma metadata_written sf path data sf' :
  (r <- with_zip (zw_Create path) ;;
   match r with
   | Err e => ret (Some e)
   | Ok metadataFile => with_zip (fw_Write metadataFile data)
   end) sf = Done (None, sf') ->
  exists z, sf' = set_zipWriter z sf
            /\ entries z = entries (zipWriter sf) ++ [(path, data)].
Proof.
  unfold bind, with_zip at 1, zw_Create.
  destruct (tick_keeps (zipWriter sf)) as [Te _].
  destruct (tick (zipWriter sf)) as [[c|] z1]; [discriminate|]. cbn [snd] in Te.
  unfold with_zip, fw_Write. cbn [zipWriter set_zipWriter].
  destruct (entry_open _ _); [|discriminate].
  match goal with |- context [tick ?z] =>
    destruct (tick_keeps z) as [Te2 _]; destruct (tick z) as [[c|] z2] end;
    [discriminate|].
  cbn [snd entries] in Te2. intros [= <-]. eexists. split; [reflexivity|].
  cbn [entries]. rewrite Te2, <- Te.
  fold (append_entry (length (entries z1)) data (entries z1 ++ [(path, EmptyString)])).
  apply append_entry_new.
Qed.

(** The loop of [Build], when it returns no error: every part that is no
    sheet went to the archive as it is, in the order of the loop, and every
    sheet had the end tag once. *)
Lemma Build_parts_done parts : forall sf sf',
  Build_parts parts sf = Done (None, sf') ->
  entries (zipWriter sf') = entries (zipWriter sf) ++ metadata_parts parts
  /\ Forall (fun part => is_sheet_part part = true ->
                         occurrences endSheetDataTag (snd part) = 1%nat) parts.
Proof.
  induction parts as [|[path data] parts IH]; intros sf sf'; cbn [Build_parts].
  - unfold ret. intros [= <-]. cbn [metadata_parts List.filter].
    rewrite app_nil_r. split; [reflexivity|constructor].
  - unfold metadata_parts, is_sheet_part in *. cbn [List.filter fst snd].
    destruct (String.prefix sheetFilePathPrefix path) eqn:Hpre; cbn [negb].
    + unfold bind at 1.
      destruct (processEmptySheetXML path data sf) as [[[e|] sf1]|p] eqn:Hp;
        try discriminate.
      intros Hrest. destruct (IH _ _ Hrest) as [Hes Hall].
      destruct (processEmptySheetXML_done _ _ _ _ Hp)
        as (i & prefix & suffix & Hi & _ & _ & Hcat & _ & Hz & _).
      rewrite Hes, Hz. split; [reflexivity|]. constructor; [|exact Hall].
      intros _. cbn [snd].
      destruct (Nat.eq_dec (occurrences endSheetDataTag data) 1%nat) as [|Hne];
        [assumption|].
      revert Hp. unfold processEmptySheetXML, bind, get, lift, ret. rewrite Hi.
      rewrite (splitSheetIntoPrefixAndSuffix_malformed _ Hne). discriminate.
    + intros Hrun.
      assert (Hstep : exists sf1,
                 (r <- with_zip (zw_Create path) ;;
                  match r with
                  | Err e => ret (Some e)
                  | Ok metadataFile => with_zip (fw_Write metadataFile data)
                  end) sf = Done (None, sf1)
                 /\ Build_parts parts sf1 = Done (None, sf')).
      { revert Hrun. unfold bind.
        destruct (with_zip (zw_Create path) sf) as [[[metadataFile|e] s1]|p];
          try discriminate.
        destruct (with_zip (fw_Write metadataFile data) s1) as [[[e|] s2]|p];
          try discriminate.
        intros Hrest. exists s2. split; [reflexivity|exact Hrest]. }
      destruct Hstep as (sf1 & Hmeta & Hrest).
      destruct (metadata_written _ _ _ _ Hmeta) as (z & -> & Hz).
      destruct (IH _ _ Hrest) as [Hes Hall].
      cbn [zipWriter set_zipWriter] in Hes. rewrite Hes, Hz, <- app_assoc.
      split; [reflexivity|]. constructor; [|exact Hall]. cbn [fst]. congruence.
Qed.

Lemma NextSheet_open_entries sf i sf' :
  NextSheet_open i sf = Done (None, sf') ->
  entries (zipWriter sf') =
    entries (zipWriter sf) ++ [(sheetPath (i + 1), prefix_of sf (Z.to_nat i))].
Proof.
  unfold NextSheet_open, bind, gets, lift, modify, index_at.
  destruct (Z.ltb_spec (i + 1 - 1) 0) as [|Hi]; [discriminate|].
  replace (i + 1 - 1) with i in * by lia.
  destruct (Sheets (file sf) !! Z.to_nat i) as [sheet|]; [|discriminate].
  unfold with_zip at 1, zw_Create. cbn [zipWriter set_currentSheet].
  destruct (tick_keeps (zipWriter sf)) as [Te _].
  destruct (tick (zipWriter sf)) as [[c|] z1]; [discriminate|]. cbn [snd] in Te.
  unfold writeSheetStart, bind, gets, lift, index_at.
  cbn [currentSheet set_currentSheet set_zipWriter sheetXmlPrefix index set_writer].
  destruct (Z.ltb_spec (i + 1 - 1) 0); [discriminate|].
  replace (i + 1 - 1) with i in * by lia.
  unfold prefix_of.
  destruct (sheetXmlPrefix sf !! Z.to_nat i) as [pre|]; [|discriminate].
  unfold streamSheet_write, with_zip, fw_Write.
  cbn [writer set_writer zipWriter set_zipWriter set_currentSheet].
  destruct (entry_open _ _); [|discriminate].
  match goal with |- context [tick ?z] =>
    destruct (tick_keeps z) as [Te2 _]; destruct (tick z) as [[c|] z2] end;
    [discriminate|].
  cbn [snd entries] in Te2. intros [= <-].
  cbn [zipWriter set_zipWriter entries]. rewrite Te2, <- Te.
  fold (append_entry (length (entries z1)) pre
          (entries z1 ++ [(sheetPath (i + 1), EmptyString)])).
  rewrite append_entry_new. reflexivity.
Qed.

Lemma Build_done sb sf sb' :
  Build sb = Done (Ok sf, sb') ->
  sb_built sb = false /\ sb_built sb' = true
  /\ file sf = sb_file sb /\ sb_file sb' = sb_file sb
  /\ sb_zipWriter sb' = zipWriter sf /\ sb_refTable sb' = refTable sf
  /\ exists rt' parts,
       MarshallPartsForStreaming (sb_file sb) (sb_refTable sb) = (rt', inl parts)
       /\ refTable sf = rt'
       /\ entries (zipWriter sf) =
            entries (sb_zipWriter sb) ++ metadata_parts parts
            ++ [(sheetPath 1, prefix_of sf 0)]
       /\ Forall (fun part => is_sheet_part part = true ->
                              occurrences endSheetDataTag (snd part) = 1%nat) parts.
Proof.
  unfold Build, bind at 1, gets.
  destruct (sb_built sb) eqn:Hb; [discriminate|].
  unfold bind, modify, gets, ret.
  cbn [sb_file sb_refTable sb_zipWriter set_built set_sb_refTable].
  destruct (MarshallPartsForStreaming _ _) as [rt' [parts|msg]] eqn:Hm; [|discriminate].
  unfold on_session. cbn [sb_file sb_refTable sb_zipWriter set_built set_sb_refTable].
  destruct (Build_parts parts _) as [[[e|] sf1]|p] eqn:Hparts; try discriminate.
  destruct (NextSheet sf1) as [[[e|] sf2]|p] eqn:Hn; try discriminate.
  intros [= <- <-].
  destruct (Build_parts_shape _ _ _ _ Hparts) as (Hf & _ & _ & Hc & Hr & He).
  destruct (Build_parts_done _ _ _ Hparts) as [Hes Hall].
  cbn [newStreamFile file currentSheet refTable err zipWriter] in Hf, Hc, Hr, He, Hes.
  destruct (NextSheet_done _ _ Hn)
    as (sheet & w & _ & _ & _ & Hf2 & Hp2 & _ & Hr2 & _ & _ & _).
  assert (Hopen : NextSheet_open 0 sf1 = Done (None, sf2)).
  { revert Hn. unfold NextSheet, bind, gets. rewrite He, Hc. auto. }
  pose proof (NextSheet_open_entries _ _ _ Hopen) as Hes2.
  cbn [sb_built sb_file sb_zipWriter sb_refTable set_sb_zipWriter set_sb_refTable set_built].
  split; [reflexivity|]. split; [reflexivity|]. split; [congruence|].
  split; [reflexivity|]. split; [reflexivity|]. split; [reflexivity|].
  exists rt', parts. split; [reflexivity|]. split; [congruence|]. split; [|exact Hall].
  rewrite Hes2, Hes, <- app_assoc. unfold prefix_of. rewrite Hp2. reflexivity.
Qed.

(** X16. Whenever [Build] returns a session, on whatever sink: the builder
    was not spent and is spent now; the archive holds what it held, then the
    parts of the workbook that are no sheets, as they are and in the order
    in which the loop met them, then the entry of the first sheet, whose
    bytes are the prefix of that sheet; every sheet part had the end tag
    once; and the builder and the session share the archive and the string
    table. *)
Theorem Build_success sb sf sb' :
  Build sb = Done (Ok sf, sb') ->
  sb_built sb = false /\ sb_built sb' = true
  /\ file sf = sb_file sb /\ sb_file sb' = sb_file sb
  /\ sb_zipWriter sb' = zipWriter sf /\ sb_refTable sb' = refTable sf
  /\ exists rt' parts,
       MarshallPartsForStreaming (sb_file sb) (sb_refTable sb) = (rt', inl parts)
       /\ refTable sf = rt'
       /\ entries (zipWriter sf) =
            entries (sb_zipWriter sb) ++ metadata_parts parts
            ++ [(sheetPath 1, prefix_of sf 0)]
       /\ Forall (fun part => is_sheet_part part = true ->
                              occurrences endSheetDataTag (snd part) = 1%nat) parts.
Proof. exact (Build_done sb sf sb'). Qed.

(** X17. [Build] does return a session when the builder is not spent and has
    a sheet, every sheet part of the workbook names a registered sheet and
    has the end tag once, and the sink takes every call. *)
Theorem Build_succeeds sb rt' parts sheet :
  sb_built sb = false ->
  Sheets (sb_file sb) !! 0%nat = Some sheet ->
  MarshallPartsForStreaming (sb_file sb) (sb_refTable sb) = (rt', inl parts) ->
  healthy (sb_zipWriter sb) -> zclosed (sb_zipWriter sb) = false ->
  Forall (fun part =>
            is_sheet_part part = true ->
            (exists i, getSheetIndex (newStreamFile (sb_file sb) rt' (sb_zipWriter sb))
                         (fst part) = Done (Ok i))
            /\ occurrences endSheetDataTag (snd part) = 1%nat) parts ->
  exists sf sb', Build sb = Done (Ok sf, sb').
Proof.
  intros Hb Hs Hm Hh Hcl Hv.
  destruct (Build_healthy sb rt' parts Hb Hm Hh Hcl) as (sf & Hsh & Hh' & Hcl' & Hrun).
  { eapply Forall_impl; [exact Hv|]. intros part Hx Hy. apply (Hx Hy). }
  assert (Hall : forallb (fun part => negb (is_sheet_part part) || one_end_tag part) parts
                 = true).
  { apply forallb_forall. intros part Hin. rewrite Forall_forall in Hv.
    specialize (Hv part (proj2 (list_elem_of_In _ _) Hin)).
    destruct (is_sheet_part part); [|reflexivity].
    destruct (Hv eq_refl) as [_ Ho]. unfold one_end_tag. rewrite Ho. reflexivity. }
  rewrite Hall in Hrun.
  destruct Hsh as (Hf & Hp & _ & Hc & _ & He).
  cbn [newStreamFile file sheetXmlPrefix currentSheet err] in Hf, Hp, Hc, He.
  rewrite length_replicate in Hp.
  destruct (lookup_lt_is_Some_2 (sheetXmlPrefix sf) 0) as [pre Hpre].
  { rewrite Hp. apply lookup_lt_Some in Hs. exact Hs. }
  assert (Hn : exists sf', NextSheet sf = Done (None, sf')).
  { unfold NextSheet, bind, gets. rewrite He, Hc. eexists.
    apply (NextSheet_open_healthy sf 0 sheet pre); auto; [lia|rewrite Hf; exact Hs]. }
  destruct Hn as [sf' Hn]. rewrite Hn in Hrun. eauto.
Qed.

End BuildArchive.

(** ** The templates of the session and the empty sheets *)

Section Templates.
Context `{Collaborators}.

(** The loop of [Build] leaves the templates of a sheet alone that none of
    its parts names. *)
Lemma Build_parts_keeps_slot parts : forall sf sf' i,
  Build_parts parts sf = Done (None, sf') ->
  Forall (fun part => is_sheet_part part = true ->
                      getSheetIndex sf (fst part) <> Done (Ok i)) parts ->
  0 <= i ->
  sheetXmlPrefix sf' !! Z.to_nat i = sheetXmlPrefix sf !! Z.to_nat i
  /\ sheetXmlSuffix sf' !! Z.to_nat i = sheetXmlSuffix sf !! Z.to_nat i.
Proof.
  induction parts as [|[path data] parts IH]; intros sf sf' i; cbn [Build_parts].
  - unfold ret. intros [= <-]. auto.
  - intros Hrun Hall Hi. inversion Hall as [|? ? Hpart Hrest]; subst.
    unfold is_sheet_part in Hpart. cbn [fst] in Hpart.
    destruct (String.prefix sheetFilePathPrefix path) eqn:Hpre.
    + revert Hrun. unfold bind at 1.
      destruct (processEmptySheetXML path data sf) as [[[e|] sf1]|p] eqn:Hp;
        try discriminate.
      intros Hrun.
      destruct (processEmptySheetXML_done _ _ _ _ Hp)
        as (j & prefix & suffix & Hj & _ & _ & _ & Hother & Hz & Hf & Hc & Hr & He).
      destruct (getSheetIndex_bounds _ _ _ Hj) as [Hjp _].
      assert (Hne : Z.to_nat i <> Z.to_nat j).
      { intros Heq. apply (Hpart eq_refl). rewrite Hj. do 2 f_equal. lia. }
      destruct (Hother _ Hne) as [Hp1 Hs1].
      assert (Hsh : same_shape sf sf1).
      { revert Hp. unfold processEmptySheetXML, bind, get, lift, modify, ret.
        rewrite Hj. destruct (splitSheetIntoPrefixAndSuffix data) as [[p s]|e];
          [|discriminate].
        unfold store_at.
        destruct ((0 <=? j) && (j <? len (sheetXmlPrefix sf))); [|discriminate].
        destruct ((0 <=? j) && (j <? len (sheetXmlSuffix sf))); [|discriminate].
        intros [= <-]. unfold same_shape.
        cbn [file sheetXmlPrefix sheetXmlSuffix currentSheet refTable err
             set_sheetXmlPrefix set_sheetXmlSuffix].
        rewrite !length_insert. repeat split; reflexivity. }
      destruct (IH sf1 sf' i Hrun) as [Hp2 Hs2]; [|exact Hi|split; congruence].
      eapply Forall_impl; [exact Hrest|]. intros part Hx Hy.
      rewrite (getSheetIndex_shape _ _ _ Hsh). auto.
    + assert (Hstep : exists z, Build_parts parts (set_zipWriter z sf) = Done (None, sf')).
      { revert Hrun. unfold bind, with_zip.
        destruct (zw_Create path (zipWriter sf)) as [[metadataFile|e] z1];
          try discriminate.
        cbn [zipWriter set_zipWriter].
        destruct (fw_Write metadataFile data z1) as [[e|] z2]; try discriminate.
        intros Hrest'. exists z2. exact Hrest'. }
      destruct Hstep as [z Hrun'].
      destruct (IH _ sf' i Hrun') as [Hp2 Hs2]; [|exact Hi|split; assumption].
      eapply Forall_impl; [exact Hrest|]. intros part Hx Hy. apply Hx. exact Hy.
Qed.

(** The loop of [Build] stores, for a sheet part that no later part
    overrides, the two halves of its empty sheet. *)
Lemma Build_parts_templates pre : forall sf sf' path data post i,
  Build_parts (pre ++ (path, data) :: post) sf = Done (None, sf') ->
  String.prefix sheetFilePathPrefix path = true ->
  getSheetIndex sf path = Done (Ok i) ->
  Forall (fun part => is_sheet_part part = true ->
                      getSheetIndex sf (fst part) <> Done (Ok i)) post ->
  prefix_of sf' (Z.to_nat i) +:+ endSheetDataTag +:+ suffix_of sf' (Z.to_nat i) = data.
Proof.
  induction pre as [|[path0 data0] pre IH]; intros sf sf' path data post i;
    cbn [app Build_parts].
  - intros Hrun Hpre Hi Hpost. rewrite Hpre in Hrun. revert Hrun. unfold bind at 1.
    destruct (processEmptySheetXML path data sf) as [[[e|] sf1]|p] eqn:Hp;
      try discriminate.
    intros Hrun.
    destruct (processEmptySheetXML_done _ _ _ _ Hp)
      as (j & prefix & suffix & Hj & Hpl & Hsl & Hcat & _ & _ & Hf & _).
    rewrite Hi in Hj. injection Hj as <-.
    destruct (getSheetIndex_bounds _ _ _ Hi) as [[Hi0 _] _].
    assert (Hsh : same_shape sf sf1).
    { unfold same_shape. pose proof (Build_parts_shape [(path, data)] sf None sf1) as Hx.
      apply Hx. cbn [Build_parts]. rewrite Hpre. unfold bind. rewrite Hp. reflexivity. }
    destruct (Build_parts_keeps_slot post sf1 sf' i Hrun) as [Hp2 Hs2]; [|exact Hi0|].
    { eapply Forall_impl; [exact Hpost|]. intros part Hx Hy.
      rewrite (getSheetIndex_shape _ _ _ Hsh). auto. }
    unfold prefix_of, suffix_of. rewrite Hp2, Hs2, Hpl, Hsl. exact Hcat.
  - intros Hrun Hpre Hi Hpost.
    assert (Hstep : exists sf1, same_shape sf sf1
                                /\ Build_parts (pre ++ (path, data) :: post) sf1
                                   = Done (None, sf')).
    { destruct (String.prefix sheetFilePathPrefix path0) eqn:Hpre0.
      - revert Hrun. unfold bind at 1.
        destruct (processEmptySheetXML path0 data0 sf) as [[[e|] sf1]|p] eqn:Hp;
          try discriminate.
        intros Hrun. exists sf1. split; [|exact Hrun].
        apply (Build_parts_shape [(path0, data0)] sf None sf1).
        cbn [Build_parts]. rewrite Hpre0. unfold bind. rewrite Hp. reflexivity.
      - revert Hrun. unfold bind, with_zip.
        destruct (zw_Create path0 (zipWriter sf)) as [[metadataFile|e] z1];
          try discriminate.
        cbn [zipWriter set_zipWriter].
        destruct (fw_Write metadataFile data0 z1) as [[e|] z2]; try discriminate.
        intros Hrun. eexists. split; [|exact Hrun].
        unfold same_shape. repeat split; reflexivity. }
    destruct Hstep as (sf1 & Hsh & Hrun').
    apply (IH sf1 sf' path data post i Hrun' Hpre).
    + rewrite (getSheetIndex_shape _ _ _ Hsh). exact Hi.
    + eapply Forall_impl; [exact Hpost|]. intros part Hx Hy.
      rewrite (getSheetIndex_shape _ _ _ Hsh). auto.
Qed.

(** X18. In the session [Build] returns, the prefix and the suffix of a sheet
    are the two halves of the empty sheet the workbook had for it: with the
    end tag between them they are that sheet again. This holds for the part
    of a sheet that no later part of the loop overrides with the same
    number; so a sheet that gets no row ends up, through [NextSheet] and
    [Close], with the empty sheet of the workbook as its entry. *)
Theorem Build_templates sb sf sb' rt' pre path data post i :
  Build sb = Done (Ok sf, sb') ->
  MarshallPartsForStreaming (sb_file sb) (sb_refTable sb)
    = (rt', inl (pre ++ (path, data) :: post)) ->
  String.prefix sheetFilePathPrefix path = true ->
  getSheetIndex (newStreamFile (sb_file sb) rt' (sb_zipWriter sb)) path = Done (Ok i) ->
  Forall (fun part =>
            is_sheet_part part = true ->
            getSheetIndex (newStreamFile (sb_file sb) rt' (sb_zipWriter sb)) (fst part)
            <> Done (Ok i)) post ->
  prefix_of sf (Z.to_nat i) +:+ endSheetDataTag +:+ suffix_of sf (Z.to_nat i) = data
  /\ empty_sheet_entry sf (Z.to_nat i) = (sheetPath (i + 1), data).
Proof.
  intros Hbuild Hm Hpre Hi Hpost.
  assert (Hcat : prefix_of sf (Z.to_nat i) +:+ endSheetDataTag +:+ suffix_of sf (Z.to_nat i)
                 = data).
  { revert Hbuild. unfold Build, bind at 1, gets.
    destruct (sb_built sb); [discriminate|].
    unfold bind, modify, gets, ret.
    cbn [sb_file sb_refTable sb_zipWriter set_built set_sb_refTable].
    rewrite Hm. unfold on_session.
    cbn [sb_file sb_refTable sb_zipWriter set_built set_sb_refTable].
    destruct (Build_parts _ _) as [[[e|] sf1]|p] eqn:Hparts; try discriminate.
    destruct (NextSheet sf1) as [[[e|] sf2]|p] eqn:Hn; try discriminate.
    intros [= <- _].
    destruct (NextSheet_done _ _ Hn) as (sheet & w & _ & _ & _ & _ & Hp2 & Hs2 & _).
    unfold prefix_of, suffix_of. rewrite Hp2, Hs2.
    apply (Build_parts_templates _ _ _ _ _ _ _ Hparts Hpre Hi Hpost). }
  split; [exact Hcat|].
  unfold empty_sheet_entry. rewrite Hcat.
  destruct (getSheetIndex_bounds _ _ _ Hi) as [[Hi0 _] _].
  rewrite Z2Nat.id by lia. reflexivity.
Qed.

(** X19. After [AddSheet], the builder is spent exactly when the call
    returned an error; the archive and the string table of the builder are
    as they were, whatever it returned. *)
Theorem AddSheet_spends_on_error sb name headers r sb' :
  AddSheet name headers sb = Done (r, sb') ->
  (r = None <-> sb_built sb' = false)
  /\ sb_zipWriter sb' = sb_zipWriter sb /\ sb_refTable sb' = sb_refTable sb.
Proof.
  unfold AddSheet, bind, gets, ret, modify.
  destruct (sb_built sb) eqn:Hb.
  { intros [= <- <-]. rewrite Hb. split; [split; discriminate|split; reflexivity]. }
  destruct (File_AddSheet name (sb_file sb)) as [[f' sheet]|e].
  - destruct (WriteSlice sheet headers) as [sheet' count].
    destruct (count =? len headers); cbn [negb]; intros [= <- <-];
      cbn [sb_built sb_zipWriter sb_refTable set_sb_file set_built].
    + split; [split; [intros _; exact Hb|reflexivity]|split; reflexivity].
    + split; [split; discriminate|split; reflexivity].
  - intros [= <- <-]. cbn [sb_built sb_zipWriter sb_refTable set_built].
    split; [split; discriminate|split; reflexivity].
Qed.

End Templates.

(** ** The further statements at work on the two-sheet workbook *)

Lemma getSheetIndex_sheetPath_witness :
  String.prefix sheetFilePathPrefix (sheetPath 2) = true
  /\ getSheetIndex (demo_session []) (sheetPath 2) = Done (Ok (2 - 1)).
Proof.
  apply (getSheetIndex_sheetPath (demo_session []) 2).
  - unfold int64_max. lia.
  - unfold len. simpl. lia.
  - unfold len. simpl. lia.
  - unfold len. simpl. lia.
Defined.

Lemma processEmptySheetXML_panics_witness :
  processEmptySheetXML "xl/worksheets/sheet.xm" "<worksheet/>" (demo_session_idle [])
  = Panics SliceBoundsOutOfRange
  /\ exists r sf',
       processEmptySheetXML "xl/worksheets/sheet7.xml" "<worksheet/>" (demo_session_idle [])
       = Done (r, sf').
Proof.
  split.
  - apply (proj1 (processEmptySheetXML_panics (demo_session_idle [])
                    "xl/worksheets/sheet.xm" "<worksheet/>")).
    unfold slen. simpl. lia.
  - apply (proj2 (processEmptySheetXML_panics (demo_session_idle [])
                    "xl/worksheets/sheet7.xml" "<worksheet/>")).
    unfold slen. simpl. lia.
Defined.

Lemma processEmptySheetXML_stores_witness :
  exists sf' i prefix suffix,
    processEmptySheetXML "xl/worksheets/sheet2.xml" "<a/></sheetData><b/>"
      (demo_session_idle []) = Done (None, sf')
    /\ getSheetIndex (demo_session_idle []) "xl/worksheets/sheet2.xml" = Done (Ok i)
    /\ sheetXmlPrefix sf' !! Z.to_nat i = Some prefix
    /\ sheetXmlSuffix sf' !! Z.to_nat i = Some suffix
    /\ prefix +:+ endSheetDataTag +:+ suffix = "<a/></sheetData><b/>".
Proof.
  eexists.
  assert (Hrun : processEmptySheetXML "xl/worksheets/sheet2.xml" "<a/></sheetData><b/>"
                   (demo_session_idle []) = Done (None, _))
    by (vm_compute; reflexivity).
  destruct (processEmptySheetXML_stores _ _ _ _ Hrun)
    as (i & prefix & suffix & Hi & Hp & Hs & Hcat & _).
  exists i, prefix, suffix. split; [exact Hrun|]. split; [exact Hi|].
  split; [exact Hp|]. split; [exact Hs|exact Hcat].
Defined.

Lemma splitSheetIntoPrefixAndSuffix_parts_witness :
  occurrences endSheetDataTag "<a/>" = O /\ occurrences endSheetDataTag "<b/>" = O.
Proof.
  apply (splitSheetIntoPrefixAndSuffix_parts "<a/></sheetData><b/>" "<a/>" "<b/>").
  vm_compute. reflexivity.
Defined.

Lemma NextSheet_stores_error_witness :
  err (set_err (Some AlreadyOnLastSheetError) (demo_session_last []))
  = Some AlreadyOnLastSheetError.
Proof.
  apply (@NextSheet_stores_error (demo_session_last [])). vm_compute. reflexivity.
Defined.

Lemma NextSheet_success_witness :
  exists sf', NextSheet (demo_session []) = Done (None, sf') /\ err sf' = None
              /\ file sf' = file (demo_session [])
              /\ sheetXmlPrefix sf' = sheetXmlPrefix (demo_session []).
Proof.
  eexists.
  assert (Hrun : NextSheet (demo_session []) = Done (None, _)) by (vm_compute; reflexivity).
  destruct (NextSheet_success _ _ Hrun) as (_ & He & Hf & Hp & _).
  split; [exact Hrun|]. split; [exact He|]. split; [exact Hf|exact Hp].
Defined.

Lemma Write_success_witness :
  exists sf' w rowBytes,
    @Write demo ["1"; "2"] (demo_session []) = Done (None, sf')
    /\ entries (zipWriter sf') = append_entry w rowBytes (entries (zipWriter (demo_session [])))
    /\ err sf' = None.
Proof.
  eexists.
  assert (Hrun : @Write demo ["1"; "2"] (demo_session []) = Done (None, _))
    by (vm_compute; reflexivity).
  destruct (@Write_success demo _ _ _ _ Hrun eq_refl)
    as (w & rowBytes & _ & _ & _ & Hes & _ & _ & He).
  { unfold int64_max. simpl. lia. }
  exists w, rowBytes. split; [exact Hrun|]. split; [exact Hes|exact He].
Defined.

Lemma WriteAll_success_witness :
  exists sf' sf1,
    @WriteAll demo [["1"; "2"]; ["3"; "4"]] (demo_session []) = Done (None, sf')
    /\ @rows_written demo [["1"; "2"]; ["3"; "4"]] (demo_session []) sf1
    /\ entries (zipWriter sf') = entries (zipWriter sf1)
    /\ err sf' = None.
Proof.
  eexists.
  assert (Hrun : @WriteAll demo [["1"; "2"]; ["3"; "4"]] (demo_session []) = Done (None, _))
    by (vm_compute; reflexivity).
  destruct (@WriteAll_success demo _ _ _ Hrun) as (sf1 & Hrows & Hes & He & _).
  exists sf1. split; [exact Hrun|]. split; [exact Hrows|]. split; [exact Hes|exact He].
Defined.

Lemma session_extends_archive_witness :
  exists sf',
    @Write demo ["1"; "2"] (demo_session []) = Done (None, sf')
    /\ archive_extended (entries (zipWriter (demo_session []))) (entries (zipWriter sf')).
Proof.
  eexists.
  assert (Hrun : @Write demo ["1"; "2"] (demo_session []) = Done (None, _))
    by (vm_compute; reflexivity).
  split; [exact Hrun|].
  apply (proj1 (@session_extends_archive demo) ["1"; "2"] _ _ _ Hrun).
Defined.

Lemma Build_returns_session_in_order_witness :
  well_formed (demo_session []) = true /\ err (demo_session []) = None
  /\ exists cs, currentSheet (demo_session []) = Some cs /\ index cs = 1 /\ rowCount cs = 1.
Proof.
  eapply (@Build_returns_session_in_order demo (demo_builder [])).
  vm_compute. reflexivity.
Defined.

Lemma session_stays_in_order_witness :
  exists sf',
    NextSheet (demo_session []) = Done (None, sf')
    /\ well_formed sf' = true /\ err sf' = None.
Proof.
  eexists.
  assert (Hrun : NextSheet (demo_session []) = Done (None, _)) by (vm_compute; reflexivity).
  split; [exact Hrun|].
  apply (proj2 (proj2 (@session_stays_in_order demo (demo_session []) _ eq_refl)) Hrun).
Defined.

Lemma failed_session_refuses_witness :
  @session_runs demo [CallWrite ["1"; "2"]; CallNextSheet; CallClose]
    (set_err (Some NoCurrentSheetError) (demo_session []))
  = Done ([Some NoCurrentSheetError; Some NoCurrentSheetError; Some NoCurrentSheetError],
          set_err (Some NoCurrentSheetError) (demo_session [])).
Proof.
  apply (@failed_session_refuses demo (set_err (Some NoCurrentSheetError) (demo_session []))
           NoCurrentSheetError [CallWrite ["1"; "2"]; CallNextSheet; CallClose]).
  reflexivity.
Defined.

Lemma Close_without_current_sheet_witness :
  exists sf',
    @Close demo (demo_session_idle []) = Done (None, sf')
    /\ entries (zipWriter sf') =
         [ ("[Content_Types].xml", "<Types/>"); ("xl/sharedStrings.xml", "<sst></sst>") ].
Proof.
  eexists. split.
  - apply (@Close_without_current_sheet demo (demo_session_idle []) "<sst></sst>");
      [reflexivity|reflexivity|reflexivity|apply healthy_nil|reflexivity].
  - reflexivity.
Defined.

Lemma Close_success_witness :
  exists sf',
    @Close demo (demo_session []) = Done (None, sf')
    /\ err sf' = None /\ zclosed (zipWriter sf') = true.
Proof.
  eexists.
  assert (Hrun : @Close demo (demo_session []) = Done (None, _)) by (vm_compute; reflexivity).
  destruct (@Close_success demo _ _ Hrun) as (_ & He & Hcl & _).
  split; [exact Hrun|]. split; [exact He|exact Hcl].
Defined.

Lemma Build_success_witness :
  exists sf sb',
    @Build demo (demo_builder []) = Done (Ok sf, sb')
    /\ sb_built sb' = true /\ sb_zipWriter sb' = zipWriter sf.
Proof.
  do 2 eexists.
  assert (Hrun : @Build demo (demo_builder []) = Done (Ok _, _)) by (vm_compute; reflexivity).
  destruct (@Build_success demo _ _ _ Hrun) as (_ & Hb & _ & _ & Hz & _).
  split; [exact Hrun|]. split; [exact Hb|exact Hz].
Defined.

Lemma Build_succeeds_witness :
  exists sf sb', @Build demo (demo_builder []) = Done (Ok sf, sb').
Proof.
  apply (@Build_succeeds demo (demo_builder []) {| indexedStrings := [] |}
           (demo_parts (sb_file (demo_builder [])))
           {| Name := "S1"; Cols := [MkCol; MkCol] |}).
  - reflexivity.
  - reflexivity.
  - reflexivity.
  - apply healthy_nil.
  - reflexivity.
  - unfold demo_parts. cbn [demo_builder sb_file Sheets imap].
    apply Forall_cons_2; [intros Hs; vm_compute in Hs; discriminate Hs|].
    apply Forall_cons_2;
      [intros _; split; [eexists; vm_compute; reflexivity|vm_compute; reflexivity]|].
    apply Forall_cons_2;
      [intros _; split; [eexists; vm_compute; reflexivity|vm_compute; reflexivity]|].
    apply Forall_nil_2.
Defined.

Lemma Build_templates_witness :
  prefix_of (demo_session []) (Z.to_nat 1) +:+ endSheetDataTag
    +:+ suffix_of (demo_session []) (Z.to_nat 1) = demo_sheet_xml
  /\ empty_sheet_entry (demo_session []) (Z.to_nat 1) = (sheetPath (1 + 1), demo_sheet_xml).
Proof.
  eapply (@Build_templates demo (demo_builder []) (demo_session []) _
            {| indexedStrings := [] |}
            [ ("[Content_Types].xml", "<Types/>");
              ("xl/worksheets/sheet1.xml", demo_sheet_xml) ]
            "xl/worksheets/sheet2.xml" demo_sheet_xml [] 1).
  - vm_compute. reflexivity.
  - reflexivity.
  - reflexivity.
  - vm_compute. reflexivity.
  - constructor.
Defined.

Lemma AddSheet_spends_on_error_witness :
  (Some (DuplicateSheetName "S1") = None
   <-> sb_built (set_built true (demo_builder [])) = false)
  /\ sb_zipWriter (set_built true (demo_builder [])) = sb_zipWriter (demo_builder [])
  /\ sb_refTable (set_built true (demo_builder [])) = sb_refTable (demo_builder []).
Proof.
  apply (@AddSheet_spends_on_error demo (demo_builder []) "S1" ["A"]).
  vm_compute. reflexivity.
Defined.

(** ** Rows on a sink that takes every call *)

Section Progress.
Context `{Collaborators}.

Lemma Flush_sink_healthy sf :
  healthy (zipWriter sf) ->
  with_zip zw_Flush sf = Done (None, set_zipWriter (drain (zipWriter sf)) sf).
Proof.
  intros Hh. unfold with_zip, zw_Flush. rewrite (tick_healthy _ Hh). reflexivity.
Qed.

Lemma write_healthy sf cs w cells rowBytes :
  currentSheet sf = Some cs -> writer cs = Some w ->
  entry_open w (zipWriter sf) = true -> healthy (zipWriter sf) ->
  len cells = columnCount cs ->
  xml_Marshal (snd (makeXLSXRowForStreaming
                      (wrap64 (wrap64 (rowCount cs + 1) - 1)) cells (refTable sf)))
  = inl rowBytes ->
  write cells sf =
    Done (None,
      {| file := file sf;
         sheetXmlPrefix := sheetXmlPrefix sf;
         sheetXmlSuffix := sheetXmlSuffix sf;
         zipWriter := {| entries := append_entry w rowBytes (entries (zipWriter sf));
                         zclosed := zclosed (zipWriter sf);
                         faults := drop 2 (faults (zipWriter sf)) |};
         currentSheet := Some (set_rowCount (wrap64 (rowCount cs + 1)) cs);
         refTable := fst (makeXLSXRowForStreaming
                            (wrap64 (wrap64 (rowCount cs + 1) - 1)) cells (refTable sf));
         err := err sf |}).
Proof.
  intros Hc Hw Ho Hh Hlen Hm.
  unfold write, bind, gets, ret, modify. rewrite Hc, Hlen, Z.eqb_refl.
  cbn [negb refTable set_currentSheet rowCount set_rowCount].
  destruct (makeXLSXRowForStreaming _ _ _) as [rt' xRow] eqn:Hmk.
  cbn [fst snd] in Hm |- *. rewrite Hm.
  rewrite (streamSheet_write_healthy _ _ w);
    [|exact Hw|exact Ho|exact Hh].
  rewrite Flush_sink_healthy by (cbn [zipWriter set_zipWriter]; apply healthy_drop; exact Hh).
  unfold drain, set_zipWriter, set_refTable, set_currentSheet.
  cbn [entries zclosed faults zipWriter file sheetXmlPrefix sheetXmlSuffix currentSheet
       refTable err].
  rewrite drop_drop. reflexivity.
Qed.

Lemma WriteAll_rows_healthy rows : forall sf cs w,
  currentSheet sf = Some cs -> writer cs = Some w ->
  entry_open w (zipWriter sf) = true -> healthy (zipWriter sf) ->
  rows_encode (columnCount cs) (rowCount cs) (refTable sf) rows = true ->
  exists sf1 cs1,
    WriteAll_rows rows sf = Done (None, sf1)
    /\ currentSheet sf1 = Some cs1 /\ writer cs1 = Some w /\ index cs1 = index cs
    /\ entry_open w (zipWriter sf1) = true /\ healthy (zipWriter sf1)
    /\ file sf1 = file sf /\ sheetXmlPrefix sf1 = sheetXmlPrefix sf
    /\ sheetXmlSuffix sf1 = sheetXmlSuffix sf /\ err sf1 = err sf
    /\ refTable sf1 = rows_table (rowCount cs) (refTable sf) rows
    /\ entries (zipWriter sf1) =
         append_entry w (rows_xml (rowCount cs) (refTable sf) rows) (entries (zipWriter sf)).
Proof.
  induction rows as [|row rows IH]; intros sf cs w Hc Hw Ho Hh Hrows.
  - exists sf, cs. cbn [WriteAll_rows rows_table rows_xml]. rewrite append_entry_nil.
    unfold ret. repeat (split; [assumption || reflexivity|]). reflexivity.
  - cbn [rows_encode] in Hrows.
    destruct (makeXLSXRowForStreaming (wrap64 (wrap64 (rowCount cs + 1) - 1)) row (refTable sf))
      as [rt' xRow] eqn:Hmk.
    apply andb_true_iff in Hrows. destruct Hrows as [Hlen Hrows].
    apply Z.eqb_eq in Hlen.
    destruct (xml_Marshal xRow) as [rowBytes|msg] eqn:Hm; [|discriminate].
    assert (Hm' : xml_Marshal (snd (makeXLSXRowForStreaming
                     (wrap64 (wrap64 (rowCount cs + 1) - 1)) row (refTable sf)))
                  = inl rowBytes) by (rewrite Hmk; exact Hm).
    pose proof (write_healthy sf cs w row rowBytes Hc Hw Ho Hh Hlen Hm') as Hwrite.
    rewrite Hmk in Hwrite. cbn [fst] in Hwrite.
    match type of Hwrite with _ = Done (None, ?s) => set (sf0 := s) in * end.
    destruct (IH sf0 (set_rowCount (wrap64 (rowCount cs + 1)) cs) w)
      as (sf1 & cs1 & Hrun & Hc1 & Hw1 & Hi1 & Ho1 & Hh1 & Hf & Hp & Hs & He & Hr & Hes).
    + reflexivity.
    + exact Hw.
    + unfold sf0. cbn [zipWriter]. apply entry_open_append. exact Ho.
    + unfold sf0. cbn [zipWriter]. apply healthy_drop. exact Hh.
    + unfold sf0. cbn [refTable columnCount rowCount set_rowCount]. exact Hrows.
    + exists sf1, cs1. cbn [WriteAll_rows]. unfold bind at 1. rewrite Hwrite.
      split; [exact Hrun|]. split; [exact Hc1|]. split; [exact Hw1|].
      split; [exact Hi1|]. split; [exact Ho1|]. split; [exact Hh1|].
      split; [exact Hf|]. split; [exact Hp|]. split; [exact Hs|]. split; [exact He|].
      cbn [rows_table rows_xml]. rewrite Hmk, Hm. cbn [fst].
      split; [exact Hr|].
      rewrite Hes. unfold sf0. cbn [zipWriter entries rowCount set_rowCount refTable].
      rewrite append_entry_twice. reflexivity.
Qed.

Lemma Close_healthy sf cs w xml :
  err sf = None -> currentSheet sf = Some cs -> writer cs = Some w ->
  well_formed sf = true -> healthy (zipWriter sf) ->
  marshalFullFile (makeXLSXSST (refTable sf)) = inl xml ->
  exists sf',
    Close sf = Done (None, sf')
    /\ entries (zipWriter sf') =
         append_entry w (endSheetDataTag +:+ suffix_of sf (Z.to_nat (index cs - 1)))
           (entries (zipWriter sf))
         ++ map (empty_sheet_entry sf)
              (seq (Z.to_nat (index cs)) (Z.to_nat (len (Sheets (file sf)) - index cs)))
         ++ [(sharedStringsFilePath, xml)]
    /\ zclosed (zipWriter sf') = true
    /\ err sf' = None.
Proof.
  intros He Hc Hw Hwf Hh Hm.
  destruct (Close_sheets_healthy _ _ sf cs He Hc Hwf Hh eq_refl (le_n _))
    as (sf1 & cs1 & Hrun & Hf & Hp & Hs & Hr & He1 & Hc1 & Hi1 & Hwf1 & Hh1 & Hce).
  destruct (well_formed_current _ _ Hwf1 Hc1)
    as (Hlp & Hls & Hi & _ & (w1 & Hw1 & Hcl1 & Hlen1)).
  assert (Ho : entry_open w1 (zipWriter sf1) = true).
  { unfold entry_open. rewrite Hcl1, Hlen1, Nat.eqb_refl. reflexivity. }
  destruct (lookup_lt_is_Some_2 (sheetXmlSuffix sf1) (Z.to_nat (index cs1 - 1))) as [suf Hsuf];
    [unfold len in *; lia|].
  pose proof (writeSheetEnd_healthy _ _ _ _ Hc1 Hw1 Ho Hh1 ltac:(lia) Hsuf) as Hend.
  eexists. split; [|split; [|split]].
  - unfold Close, bind, gets. rewrite He, Hc.
    unfold bind in Hrun. rewrite Hrun, Hend.
    apply Close_finish_healthy.
    + cbn [refTable set_zipWriter]. rewrite Hr. exact Hm.
    + cbn [zipWriter set_zipWriter]. apply healthy_drop. exact Hh1.
    + cbn [zipWriter set_zipWriter zclosed]. exact Hcl1.
  - cbn [zipWriter set_zipWriter entries].
    unfold closed_entries in Hce. rewrite Hc1, Hw1, Hc, Hw in Hce.
    unfold suffix_of in Hce at 1. rewrite Hsuf in Hce.
    change (default EmptyString (Some suf)) with suf in Hce.
    rewrite Hce, <- app_assoc. reflexivity.
  - reflexivity.
  - cbn [err set_zipWriter]. exact He1.
Qed.

Lemma WriteAll_healthy sf cs w records :
  err sf = None -> currentSheet sf = Some cs -> writer cs = Some w ->
  well_formed sf = true -> healthy (zipWriter sf) ->
  rows_encode (columnCount cs) (rowCount cs) (refTable sf) records = true ->
  exists sf' cs',
    WriteAll records sf = Done (None, sf')
    /\ entries (zipWriter sf') =
         append_entry w (rows_xml (rowCount cs) (refTable sf) records)
           (entries (zipWriter sf))
    /\ refTable sf' = rows_table (rowCount cs) (refTable sf) records
    /\ currentSheet sf' = Some cs' /\ writer cs' = Some w /\ index cs' = index cs
    /\ file sf' = file sf /\ sheetXmlPrefix sf' = sheetXmlPrefix sf
    /\ sheetXmlSuffix sf' = sheetXmlSuffix sf
    /\ well_formed sf' = true /\ healthy (zipWriter sf') /\ err sf' = None.
Proof.
  intros He Hc Hw Hwf Hh Hrows.
  destruct (well_formed_current _ _ Hwf Hc) as (_ & _ & _ & _ & (w0 & Hw0 & Hcl & Hlen)).
  assert (w0 = w) as -> by congruence.
  assert (Ho : entry_open w (zipWriter sf) = true).
  { unfold entry_open. rewrite Hcl, Hlen, Nat.eqb_refl. reflexivity. }
  destruct (WriteAll_rows_healthy records sf cs w Hc Hw Ho Hh Hrows)
    as (sf1 & cs1 & Hrun & Hc1 & Hw1 & Hi1 & Ho1 & Hh1 & Hf & Hp & Hs & He1 & Hr & Hes).
  exists (set_zipWriter (drain (zipWriter sf1)) sf1), cs1.
  split.
  { unfold WriteAll, bind at 1, gets. rewrite He. unfold bind. rewrite Hrun.
    apply Flush_sink_healthy. exact Hh1. }
  cbn [zipWriter set_zipWriter drain entries refTable currentSheet file sheetXmlPrefix
       sheetXmlSuffix err].
  split; [exact Hes|]. split; [exact Hr|]. split; [exact Hc1|]. split; [exact Hw1|].
  split; [exact Hi1|]. split; [exact Hf|]. split; [exact Hp|]. split; [exact Hs|].
  split.
  { rewrite well_formed_sink_only by reflexivity.
    eapply rows_written_well_formed; [|exact Hwf].
    apply WriteAll_rows_done. exact Hrun. }
  split; [apply healthy_drain; exact Hh1|]. congruence.
Qed.

(** X20. On a session that is in order and has no stored error, with a sink
    that takes every call: [Write] takes a row that has as many cells as the
    open sheet has columns and that has an encoding. It returns no error,
    appends the bytes of the row to the entry of the sheet, adds one to the
    row counter, keeps the table the encoding returned, and calls the sink
    three times: for the bytes and for the two flushes. *)
Theorem Write_succeeds sf cs w cells rowBytes :
  err sf = None -> currentSheet sf = Some cs -> writer cs = Some w ->
  well_formed sf = true -> healthy (zipWriter sf) ->
  len cells = columnCount cs ->
  xml_Marshal (snd (makeXLSXRowForStreaming
                      (wrap64 (wrap64 (rowCount cs + 1) - 1)) cells (refTable sf)))
  = inl rowBytes ->
  Write cells sf =
    Done (None,
      {| file := file sf;
         sheetXmlPrefix := sheetXmlPrefix sf;
         sheetXmlSuffix := sheetXmlSuffix sf;
         zipWriter := {| entries := append_entry w rowBytes (entries (zipWriter sf));
                         zclosed := false;
                         faults := drop 3 (faults (zipWriter sf)) |};
         currentSheet := Some (set_rowCount (wrap64 (rowCount cs + 1)) cs);
         refTable := fst (makeXLSXRowForStreaming
                            (wrap64 (wrap64 (rowCount cs + 1) - 1)) cells (refTable sf));
         err := None |}).
Proof.
  intros He Hc Hw Hwf Hh Hlen Hm.
  destruct (well_formed_current _ _ Hwf Hc) as (_ & _ & _ & _ & (w0 & Hw0 & Hcl & Hl)).
  assert (w0 = w) as -> by congruence.
  assert (Ho : entry_open w (zipWriter sf) = true).
  { unfold entry_open. rewrite Hcl, Hl, Nat.eqb_refl. reflexivity. }
  unfold Write, bind at 1, gets. rewrite He. unfold bind.
  rewrite (write_healthy sf cs w cells rowBytes Hc Hw Ho Hh Hlen Hm).
  rewrite Flush_sink_healthy by (cbn [zipWriter]; apply healthy_drop; exact Hh).
  unfold set_zipWriter, drain.
  cbn [zipWriter entries zclosed faults file sheetXmlPrefix sheetXmlSuffix currentSheet
       refTable err].
  rewrite drop_drop, He, Hcl. reflexivity.
Qed.

(** X21. On such a session and sink, [WriteAll] takes every list of rows of
    which each has as many cells as the open sheet has columns and an
    encoding: it returns no error, the bytes of the rows are behind what the
    entry of the sheet had, in the order of the rows, the string table is the
    one the encodings built up, and the session is in order for the next
    call. *)
Theorem WriteAll_succeeds sf cs w records :
  err sf = None -> currentSheet sf = Some cs -> writer cs = Some w ->
  well_formed sf = true -> healthy (zipWriter sf) ->
  rows_encode (columnCount cs) (rowCount cs) (refTable sf) records = true ->
  exists sf',
    WriteAll records sf = Done (None, sf')
    /\ entries (zipWriter sf') =
         append_entry w (rows_xml (rowCount cs) (refTable sf) records)
           (entries (zipWriter sf))
    /\ refTable sf' = rows_table (rowCount cs) (refTable sf) records
    /\ well_formed sf' = true /\ healthy (zipWriter sf') /\ err sf' = None.
Proof.
  intros He Hc Hw Hwf Hh Hrows.
  destruct (WriteAll_healthy sf cs w records He Hc Hw Hwf Hh Hrows)
    as (sf' & cs' & Hrun & Hes & Hr & _ & _ & _ & _ & _ & _ & Hwf' & Hh' & He').
  exists sf'. split; [exact Hrun|]. split; [exact Hes|]. split; [exact Hr|].
  split; [exact Hwf'|]. split; [exact Hh'|exact He'].
Qed.

Lemma WriteAll_Close_healthy sf cs w records xml :
  err sf = None -> currentSheet sf = Some cs -> writer cs = Some w ->
  well_formed sf = true -> healthy (zipWriter sf) ->
  rows_encode (columnCount cs) (rowCount cs) (refTable sf) records = true ->
  marshalFullFile (makeXLSXSST (rows_table (rowCount cs) (refTable sf) records)) = inl xml ->
  exists sf1 sf',
    WriteAll records sf = Done (None, sf1)
    /\ Close sf1 = Done (None, sf')
    /\ entries (zipWriter sf') =
         append_entry w
           (rows_xml (rowCount cs) (refTable sf) records
            +:+ endSheetDataTag +:+ suffix_of sf (Z.to_nat (index cs - 1)))
           (entries (zipWriter sf))
         ++ map (empty_sheet_entry sf)
              (seq (Z.to_nat (index cs)) (Z.to_nat (len (Sheets (file sf)) - index cs)))
         ++ [(sharedStringsFilePath, xml)]
    /\ zclosed (zipWriter sf') = true
    /\ err sf' = None.
Proof.
  intros He Hc Hw Hwf Hh Hrows Hm.
  destruct (WriteAll_healthy sf cs w records He Hc Hw Hwf Hh Hrows)
    as (sf1 & cs1 & Hrun & Hes & Hr & Hc1 & Hw1 & Hi1 & Hf & Hp & Hs & Hwf1 & Hh1 & He1).
  rewrite <- Hr in Hm.
  destruct (Close_healthy sf1 cs1 w xml He1 Hc1 Hw1 Hwf1 Hh1 Hm)
    as (sf' & Hclose & Hes' & Hcl & He').
  exists sf1, sf'. split; [exact Hrun|]. split; [exact Hclose|].
  split; [|split; [exact Hcl|exact He']].
  rewrite Hes', Hes, append_entry_twice, Hi1, Hf.
  unfold suffix_of. rewrite Hs. f_equal. f_equal.
  apply map_ext. intros j. unfold empty_sheet_entry, prefix_of, suffix_of.
  rewrite Hp, Hs. reflexivity.
Qed.

(** X22. Rows and then [Close], on such a session and sink: the entry of
    the open sheet ends up as what it had, the rows, the end tag and the
    suffix of the sheet; every sheet behind it gets its empty sheet; the
    string table the rows built up is the last entry; the archive is
    closed. *)
Theorem rows_then_Close sf cs w records xml :
  err sf = None -> currentSheet sf = Some cs -> writer cs = Some w ->
  well_formed sf = true -> healthy (zipWriter sf) ->
  rows_encode (columnCount cs) (rowCount cs) (refTable sf) records = true ->
  marshalFullFile (makeXLSXSST (rows_table (rowCount cs) (refTable sf) records)) = inl xml ->
  exists sf1 sf',
    WriteAll records sf = Done (None, sf1)
    /\ Close sf1 = Done (None, sf')
    /\ entries (zipWriter sf') =
         append_entry w
           (rows_xml (rowCount cs) (refTable sf) records
            +:+ endSheetDataTag +:+ suffix_of sf (Z.to_nat (index cs - 1)))
           (entries (zipWriter sf))
         ++ map (empty_sheet_entry sf)
              (seq (Z.to_nat (index cs)) (Z.to_nat (len (Sheets (file sf)) - index cs)))
         ++ [(sharedStringsFilePath, xml)]
    /\ zclosed (zipWriter sf') = true
    /\ err sf' = None.
Proof. exact (WriteAll_Close_healthy sf cs w records xml). Qed.

End Progress.

(** ** From the builder to the closed archive *)

Section Workbook.
Context `{Collaborators}.

Lemma append_entry_last l path content data :
  append_entry (length l) data (l ++ [(path, content)]) = l ++ [(path, content +:+ data)].
Proof.
  unfold append_entry.
  replace (length l) with (length l + 0)%nat by lia.
  rewrite alter_app_r. reflexivity.
Qed.

Lemma Build_ready sb rt' parts sheet :
  sb_built sb = false ->
  Sheets (sb_file sb) !! 0%nat = Some sheet ->
  MarshallPartsForStreaming (sb_file sb) (sb_refTable sb) = (rt', inl parts) ->
  healthy (sb_zipWriter sb) -> zclosed (sb_zipWriter sb) = false ->
  Forall (fun part =>
            is_sheet_part part = true ->
            (exists i, getSheetIndex (newStreamFile (sb_file sb) rt' (sb_zipWriter sb))
                         (fst part) = Done (Ok i))
            /\ occurrences endSheetDataTag (snd part) = 1%nat) parts ->
  exists sf sb' cs,
    Build sb = Done (Ok sf, sb')
    /\ healthy (zipWriter sf)
    /\ currentSheet sf = Some cs
    /\ index cs = 1 /\ rowCount cs = 1 /\ columnCount cs = len (Cols sheet).
Proof.
  intros Hb Hs Hm Hh Hcl Hv.
  destruct (Build_healthy sb rt' parts Hb Hm Hh Hcl) as (sf & Hsh & Hh' & Hcl' & Hrun).
  { eapply Forall_impl; [exact Hv|]. intros part Hx Hy. apply (Hx Hy). }
  assert (Hall : forallb (fun part => negb (is_sheet_part part) || one_end_tag part) parts
                 = true).
  { apply forallb_forall. intros part Hin. rewrite Forall_forall in Hv.
    specialize (Hv part (proj2 (list_elem_of_In _ _) Hin)).
    destruct (is_sheet_part part); [|reflexivity].
    destruct (Hv eq_refl) as [_ Ho]. unfold one_end_tag. rewrite Ho. reflexivity. }
  rewrite Hall in Hrun.
  destruct Hsh as (Hf & Hp & _ & Hc & _ & He).
  cbn [newStreamFile file sheetXmlPrefix currentSheet err] in Hf, Hp, Hc, He.
  rewrite length_replicate in Hp.
  destruct (lookup_lt_is_Some_2 (sheetXmlPrefix sf) 0) as [pre Hpre].
  { rewrite Hp. apply lookup_lt_Some in Hs. exact Hs. }
  assert (Hn : NextSheet sf = NextSheet_open 0 sf).
  { unfold NextSheet, bind, gets. rewrite He, Hc. reflexivity. }
  rewrite Hn, (NextSheet_open_healthy sf 0 sheet pre) in Hrun;
    [|lia|rewrite Hf; exact Hs|exact Hpre|exact Hh'|exact Hcl'].
  do 3 eexists. split; [exact Hrun|].
  cbn [zipWriter set_zipWriter currentSheet set_currentSheet].
  split; [apply healthy_drop; exact Hh'|].
  split; [reflexivity|]. cbn [index rowCount columnCount].
  split; [reflexivity|]. split; reflexivity.
Qed.

(** X23. The whole way, on a sink that takes every call: a builder that is
    not spent, has a sheet, and whose workbook parts are in order is built;
    the session takes the rows for the first sheet, each with as many cells
    as that sheet has columns and an encoding, the first of them at the row
    position 1; and [Close] ends the archive. What the archive then holds
    behind what it held before: the parts that are no sheets; the first
    sheet, as its prefix, the rows, the end tag and its suffix; the other
    sheets, each as its empty sheet; and the string table the rows built
    up. *)
Theorem Build_rows_Close sb rt' parts sheet records xml :
  sb_built sb = false ->
  Sheets (sb_file sb) !! 0%nat = Some sheet ->
  MarshallPartsForStreaming (sb_file sb) (sb_refTable sb) = (rt', inl parts) ->
  healthy (sb_zipWriter sb) -> zclosed (sb_zipWriter sb) = false ->
  Forall (fun part =>
            is_sheet_part part = true ->
            (exists i, getSheetIndex (newStreamFile (sb_file sb) rt' (sb_zipWriter sb))
                         (fst part) = Done (Ok i))
            /\ occurrences endSheetDataTag (snd part) = 1%nat) parts ->
  rows_encode (len (Cols sheet)) 1 rt' records = true ->
  marshalFullFile (makeXLSXSST (rows_table 1 rt' records)) = inl xml ->
  exists sf0 sb' sf1 sf',
    Build sb = Done (Ok sf0, sb')
    /\ WriteAll records sf0 = Done (None, sf1)
    /\ Close sf1 = Done (None, sf')
    /\ entries (zipWriter sf') =
         entries (sb_zipWriter sb) ++ metadata_parts parts
         ++ [(sheetPath 1,
              prefix_of sf0 0 +:+ rows_xml 1 rt' records
                +:+ endSheetDataTag +:+ suffix_of sf0 0)]
         ++ map (empty_sheet_entry sf0)
              (seq 1 (Z.to_nat (len (Sheets (sb_file sb)) - 1)))
         ++ [(sharedStringsFilePath, xml)]
    /\ zclosed (zipWriter sf') = true
    /\ err sf' = None.
Proof.
  intros Hb Hs Hm Hh Hcl Hv Hrows Hx.
  destruct (Build_ready sb rt' parts sheet Hb Hs Hm Hh Hcl Hv)
    as (sf0 & sb' & cs & Hbuild & Hh0 & Hc & Hi & Hrc & Hcc).
  destruct (Build_well_formed _ _ _ Hbuild) as (Hwf & He & _).
  destruct (Build_done _ _ _ Hbuild)
    as (_ & _ & Hf & _ & _ & _ & (rt2 & parts2 & Hm2 & Hr & Hes & _)).
  rewrite Hm in Hm2. injection Hm2 as <- <-.
  destruct (well_formed_current _ _ Hwf Hc) as (_ & _ & _ & _ & (w & Hw & _ & Hlen)).
  rewrite <- Hcc, <- Hrc, <- Hr in Hrows. rewrite <- Hrc, <- Hr in Hx.
  destruct (WriteAll_Close_healthy sf0 cs w records xml He Hc Hw Hwf Hh0 Hrows Hx)
    as (sf1 & sf' & Hrun & Hclose & Hes' & Hcl' & He').
  exists sf0, sb', sf1, sf'.
  split; [exact Hbuild|]. split; [exact Hrun|]. split; [exact Hclose|].
  split; [|split; [exact Hcl'|exact He']].
  rewrite Hes', Hi, Hrc, Hr, Hf. change (Z.to_nat (1 - 1)) with 0%nat.
  change (Z.to_nat 1) with 1%nat.
  rewrite Hes in Hlen |- *.
  rewrite !length_app in Hlen. cbn [length] in Hlen.
  assert (Hw' : w = length (entries (sb_zipWriter sb) ++ metadata_parts parts))
    by (rewrite length_app; lia).
  rewrite (app_assoc (entries (sb_zipWriter sb)) (metadata_parts parts)
             [(sheetPath 1, prefix_of sf0 0)]).
  rewrite Hw', append_entry_last, <- !app_assoc. reflexivity.
Qed.

End Workbook.

(** ** The errors of the row calls, and the number in a sheet path *)

Section RowErrors.
Context `{Collaborators}.

Lemma Flush_sink_error sf e sf' :
  with_zip zw_Flush sf = Done (Some e, sf') ->
  exists c z, e = SinkError c /\ sf' = set_zipWriter z sf
              /\ entries z = entries (zipWriter sf) /\ zclosed z = zclosed (zipWriter sf).
Proof.
  unfold with_zip, zw_Flush, tick. destruct (zipWriter sf) as [es cl fs] eqn:Hz.
  cbn [faults entries zclosed].
  destruct fs as [|[n|] fs]; try discriminate.
  intros [= <- <-]. eexists _, _. split; [reflexivity|]. split; [reflexivity|].
  split; reflexivity.
Qed.

(** X24. An error [Write] returns is either the stored error afterwards, or
    it is the error of the sink for the flush that ends [Write]: then [write]
    took the row, its bytes are in the archive and it is counted, and the
    session stores no error. *)
Theorem Write_error_stored_or_flush sf cells e sf' :
  Write cells sf = Done (Some e, sf') ->
  err sf' = Some e
  \/ (exists c sf1,
        e = SinkError c /\ write cells sf = Done (None, sf1)
        /\ entries (zipWriter sf') = entries (zipWriter sf1)
        /\ currentSheet sf' = currentSheet sf1
        /\ err sf' = None).
Proof.
  unfold Write, bind at 1, gets.
  destruct (err sf) as [e0|] eqn:He.
  - unfold ret. intros [= <- <-]. left. exact He.
  - unfold bind. destruct (write cells sf) as [[[e1|] sf1]|p] eqn:Hw; try discriminate.
    + unfold modify, ret. intros [= <- <-]. left. reflexivity.
    + intros Hfl. right.
      destruct (Flush_sink_error _ _ _ Hfl) as (c & z & -> & -> & Hes & _).
      exists c, sf1. split; [reflexivity|]. split; [reflexivity|].
      cbn [zipWriter set_zipWriter currentSheet err].
      split; [exact Hes|]. split; [reflexivity|].
      destruct (write_effect _ _ _ _ Hw) as (_ & _ & _ & He1 & _). congruence.
Qed.

(** X25. An error [WriteAll] returns is either the stored error afterwards,
    or it is the error of the sink for the flush that ends [WriteAll]: then
    [write] took every row, and the session stores no error. *)
Theorem WriteAll_error_stored_or_flush sf records e sf' :
  WriteAll records sf = Done (Some e, sf') ->
  err sf' = Some e
  \/ (exists c sf1,
        e = SinkError c /\ rows_written records sf sf1
        /\ entries (zipWriter sf') = entries (zipWriter sf1)
        /\ currentSheet sf' = currentSheet sf1
        /\ err sf' = None).
Proof.
  assert (Hstored : forall rows s e1 s1,
             WriteAll_rows rows s = Done (Some e1, s1) -> err s1 = Some e1).
  { induction rows as [|row rows IH]; intros s e1 s1; cbn [WriteAll_rows].
    - unfold ret. discriminate.
    - unfold bind at 1. destruct (write row s) as [[[e2|] s2]|p]; try discriminate.
      + unfold bind, modify, ret. intros [= <- <-]. reflexivity.
      + apply IH. }
  unfold WriteAll, bind at 1, gets.
  destruct (err sf) as [e0|] eqn:He.
  - unfold ret. intros [= <- <-]. left. exact He.
  - unfold bind. destruct (WriteAll_rows records sf) as [[[e1|] sf1]|p] eqn:Hw;
      try discriminate.
    + unfold ret. intros [= <- <-]. left. exact (Hstored _ _ _ _ Hw).
    + intros Hfl. right.
      destruct (Flush_sink_error _ _ _ Hfl) as (c & z & -> & -> & Hes & _).
      pose proof (WriteAll_rows_done _ _ _ Hw) as Hrows.
      exists c, sf1. split; [reflexivity|]. split; [exact Hrows|].
      cbn [zipWriter set_zipWriter currentSheet err].
      split; [exact Hes|]. split; [reflexivity|].
      rewrite (rows_written_err _ _ _ Hrows). exact He.
Qed.

End RowErrors.

(** X26. [getSheetIndex] reads the number between the first 19 and the last
    4 characters of the path and looks at no other character: what stands in
    the place of the sheet prefix and of the suffix makes no difference to
    what it returns. *)
Theorem getSheetIndex_reads_number_only sf p number s :
  slen p = slen sheetFilePathPrefix -> slen s = slen sheetFilePathSuffix ->
  getSheetIndex sf (p +:+ number +:+ s)
  = getSheetIndex sf (sheetFilePathPrefix +:+ number +:+ sheetFilePathSuffix).
Proof.
  assert (Hslice : forall a b,
             slice (a +:+ number +:+ b) (slen a) (slen (a +:+ number +:+ b) - slen b)
             = Done number).
  { intros a b. unfold slice, slen. rewrite !slength_sapp.
    destruct (Z.leb_spec 0 (Z.of_nat (String.length a))); [|lia].
    destruct (Z.leb_spec (Z.of_nat (String.length a))
                (Z.of_nat (String.length a + (String.length number + String.length b))
                 - Z.of_nat (String.length b))); [|lia].
    destruct (Z.leb_spec
                (Z.of_nat (String.length a + (String.length number + String.length b))
                 - Z.of_nat (String.length b))
                (Z.of_nat (String.length a + (String.length number + String.length b))));
      [|lia].
    cbn [andb]. rewrite Nat2Z.id, sdrop_sapp.
    replace (Z.to_nat _) with (String.length number) by lia.
    rewrite stake_sapp. reflexivity. }
  intros Hp Hs. unfold getSheetIndex.
  rewrite <- Hp at 1. rewrite <- Hs at 1. rewrite !Hslice. reflexivity.
Qed.

(** ** What the calls of a session leave alone *)

Section Keeps.
Context `{Collaborators}.
Variable R : StreamFile -> StreamFile -> Prop.
Hypothesis R_refl : forall sf, R sf sf.
Hypothesis R_trans : forall sf1 sf2 sf3, R sf1 sf2 -> R sf2 sf3 -> R sf1 sf3.
Hypothesis R_modify :
  forall sf e cs rt,
    R sf (set_err e sf) /\ R sf (set_currentSheet cs sf) /\ R sf (set_refTable rt sf).
Hypothesis R_sink :
  forall sf z, zclosed z = zclosed (zipWriter sf) -> R sf (set_zipWriter z sf).

Lemma keeps_ret {A} (a : A) : session_keeps R (ret a).
Proof. intros sf a' sf'. unfold ret. intros [= _ <-]. apply R_refl. Qed.

Lemma keeps_gets {A} (f : StreamFile -> A) : session_keeps R (gets f).
Proof. intros sf a' sf'. unfold gets. intros [= _ <-]. apply R_refl. Qed.

Lemma keeps_lift {A} (o : outcome A) : session_keeps R (lift o).
Proof.
  intros sf a' sf'. unfold lift. destruct o; [|discriminate].
  intros [= _ <-]. apply R_refl.
Qed.

Lemma keeps_throw {A} p : session_keeps R (@throw StreamFile A p).
Proof. intros sf a' sf'. discriminate. Qed.

Lemma keeps_set_err e : session_keeps R (modify (set_err e)).
Proof.
  intros sf a' sf'. unfold modify. intros [= _ <-].
  apply (R_modify sf e None (refTable sf)).
Qed.

Lemma keeps_set_currentSheet cs : session_keeps R (modify (set_currentSheet cs)).
Proof.
  intros sf a' sf'. unfold modify. intros [= _ <-].
  apply (R_modify sf None cs (refTable sf)).
Qed.

Lemma keeps_set_refTable rt : session_keeps R (modify (set_refTable rt)).
Proof. intros sf a' sf'. unfold modify. intros [= _ <-]. apply (R_modify sf None None rt). Qed.

Lemma keeps_bind {A B} (m : M StreamFile A) (k : A -> M StreamFile B) :
  session_keeps R m -> (forall a, session_keeps R (k a)) -> session_keeps R (bind m k).
Proof.
  intros Hm Hk sf b sf'. unfold bind.
  destruct (m sf) as [[a sf1]|p] eqn:Hrun; [|discriminate].
  intros Hrun'. eapply R_trans; [eapply Hm|eapply Hk]; eassumption.
Qed.

Lemma keeps_fw_Write w data : session_keeps R (with_zip (fw_Write w data)).
Proof.
  intros sf a sf'. unfold with_zip, fw_Write.
  destruct (entry_open w (zipWriter sf)).
  - destruct (tick_keeps (zipWriter sf)) as [_ Hc].
    destruct (tick (zipWriter sf)) as [[c|] z']; cbn [snd] in Hc;
      intros [= _ <-]; apply R_sink; exact Hc.
  - intros [= _ <-]. apply R_sink. reflexivity.
Qed.

Lemma keeps_zw_Create path : session_keeps R (with_zip (zw_Create path)).
Proof.
  intros sf a sf'. unfold with_zip, zw_Create.
  destruct (tick_keeps (zipWriter sf)) as [_ Hc].
  destruct (tick (zipWriter sf)) as [[c|] z']; cbn [snd] in Hc;
    intros [= _ <-]; apply R_sink; exact Hc.
Qed.

Lemma keeps_zw_Flush : session_keeps R (with_zip zw_Flush).
Proof.
  intros sf a sf'. unfold with_zip, zw_Flush.
  destruct (tick_keeps (zipWriter sf)) as [_ Hc].
  destruct (tick (zipWriter sf)) as [[c|] z']; cbn [snd] in Hc;
    intros [= _ <-]; apply R_sink; exact Hc.
Qed.

Ltac keeps_step :=
  first
    [ assumption
    | apply keeps_ret | apply keeps_gets | apply keeps_lift | apply keeps_throw
    | apply keeps_fw_Write | apply keeps_zw_Create | apply keeps_zw_Flush
    | apply keeps_set_err | apply keeps_set_currentSheet | apply keeps_set_refTable
    | match goal with
      | |- session_keeps _ (match ?x with _ => _ end) => destruct x
      | |- session_keeps _ (if ?x then _ else _) => destruct x
      | |- session_keeps _ (let '(_, _) := ?x in _) => destruct x
      end
    | apply keeps_bind; [|intros ?] ].

Lemma keeps_streamSheet_write cs data : session_keeps R (streamSheet_write cs data).
Proof. unfold streamSheet_write. repeat keeps_step. Qed.

Lemma keeps_write cells : session_keeps R (write cells).
Proof. unfold write. repeat first [apply keeps_streamSheet_write | keeps_step]. Qed.

Lemma keeps_Write cells : session_keeps R (Write cells).
Proof. unfold Write. repeat first [apply keeps_write | keeps_step]. Qed.

Lemma keeps_WriteAll_rows records : session_keeps R (WriteAll_rows records).
Proof.
  induction records as [|row records IH]; cbn [WriteAll_rows];
    repeat first [apply keeps_write | keeps_step].
Qed.

Lemma keeps_WriteAll records : session_keeps R (WriteAll records).
Proof. unfold WriteAll. repeat first [apply keeps_WriteAll_rows | keeps_step]. Qed.

Lemma keeps_NextSheet : session_keeps R NextSheet.
Proof.
  unfold NextSheet, NextSheet_open, writeSheetEnd, writeSheetStart.
  repeat first [apply keeps_streamSheet_write | keeps_step].
Qed.

Lemma keeps_Flush : session_keeps R Flush.
Proof. unfold Flush. repeat keeps_step. Qed.

Lemma keeps_Close_sheets fuel : session_keeps R (Close_sheets fuel).
Proof.
  induction fuel as [|fuel IH]; cbn [Close_sheets];
    repeat first [apply keeps_NextSheet | keeps_step].
Qed.

Lemma keeps_Close :
  (forall sf z, R sf (set_zipWriter z sf)) -> session_keeps R Close.
Proof.
  intros Hany.
  assert (Hclose : session_keeps R (with_zip zw_Close)).
  { intros sf a sf'. unfold with_zip. destruct (zw_Close (zipWriter sf)).
    intros [= _ <-]. apply Hany. }
  unfold Close, Close_finish, writeSheetEnd.
  repeat first [apply keeps_Close_sheets | apply keeps_streamSheet_write
               | apply Hclose | keeps_step].
Qed.

End Keeps.

Section Frozen.
Context `{Collaborators}.

Lemma same_templates_refl sf : same_templates sf sf.
Proof. unfold same_templates. auto. Qed.

Lemma same_templates_trans sf1 sf2 sf3 :
  same_templates sf1 sf2 -> same_templates sf2 sf3 -> same_templates sf1 sf3.
Proof. unfold same_templates. intros (? & ? & ?) (? & ? & ?). repeat split; congruence. Qed.

Lemma same_openness_trans sf1 sf2 sf3 :
  same_openness sf1 sf2 -> same_openness sf2 sf3 -> same_openness sf1 sf3.
Proof. unfold same_openness. congruence. Qed.

(** X27. No call on a session touches the workbook or the templates: after
    [Write], [WriteAll], [NextSheet], [Close] and [Flush], whatever they
    return and on whatever sink, the sheets, the prefixes and the suffixes
    are the ones [Build] set up. *)
Theorem session_keeps_templates :
  (forall cells, session_keeps same_templates (Write cells))
  /\ (forall records, session_keeps same_templates (WriteAll records))
  /\ session_keeps same_templates NextSheet
  /\ session_keeps same_templates Close
  /\ session_keeps same_templates Flush.
Proof.
  assert (Hm : forall sf e cs rt,
             same_templates sf (set_err e sf) /\ same_templates sf (set_currentSheet cs sf)
             /\ same_templates sf (set_refTable rt sf)).
  { intros sf e cs rt. unfold same_templates. cbn. tauto. }
  assert (Hz : forall sf z, same_templates sf (set_zipWriter z sf)).
  { intros sf z. unfold same_templates. cbn. tauto. }
  split; [|split; [|split; [|split]]].
  - intros cells.
    exact (keeps_Write _ same_templates_refl same_templates_trans Hm (fun sf z _ => Hz sf z)
             cells).
  - intros records.
    exact (keeps_WriteAll _ same_templates_refl same_templates_trans Hm
             (fun sf z _ => Hz sf z) records).
  - exact (keeps_NextSheet _ same_templates_refl same_templates_trans Hm
             (fun sf z _ => Hz sf z)).
  - exact (keeps_Close _ same_templates_refl same_templates_trans Hm
             (fun sf z _ => Hz sf z) Hz).
  - exact (keeps_Flush _ same_templates_refl same_templates_trans Hm
             (fun sf z _ => Hz sf z)).
Qed.

(** X28. Only [Close] closes the archive: after [Write], [WriteAll],
    [NextSheet] and [Flush], whatever they return and on whatever sink, the
    archive is as open as it was. *)
Theorem only_Close_closes_archive :
  (forall cells, session_keeps same_openness (Write cells))
  /\ (forall records, session_keeps same_openness (WriteAll records))
  /\ session_keeps same_openness NextSheet
  /\ session_keeps same_openness Flush.
Proof.
  assert (Hr : forall sf, same_openness sf sf) by reflexivity.
  assert (Hm : forall sf e cs rt,
             same_openness sf (set_err e sf) /\ same_openness sf (set_currentSheet cs sf)
             /\ same_openness sf (set_refTable rt sf)).
  { intros sf e cs rt. unfold same_openness. cbn. tauto. }
  assert (Hz : forall sf z, zclosed z = zclosed (zipWriter sf) ->
                            same_openness sf (set_zipWriter z sf)).
  { intros sf z Hc. unfold same_openness. cbn. exact Hc. }
  split; [|split; [|split]].
  - intros cells. exact (keeps_Write _ Hr same_openness_trans Hm Hz cells).
  - intros records. exact (keeps_WriteAll _ Hr same_openness_trans Hm Hz records).
  - exact (keeps_NextSheet _ Hr same_openness_trans Hm Hz).
  - exact (keeps_Flush _ Hr same_openness_trans Hm Hz).
Qed.

End Frozen.

(** ** Rows, errors and invariants at work on the two-sheet workbook *)

Lemma Write_succeeds_witness :
  exists sf',
    @Write demo ["1"; "2"] (demo_session []) = Done (None, sf')
    /\ entries (zipWriter sf') =
         [ ("[Content_Types].xml", "<Types/>");
           ("xl/worksheets/sheet1.xml", "<worksheet><sheetData><row/><row>1,2</row>") ].
Proof.
  eexists. split.
  - apply (@Write_succeeds demo (demo_session [])
           {| index := 1; rowCount := 1; columnCount := 2; writer := Some 1%nat |}
           1%nat ["1"; "2"] "<row>1,2</row>");
      [reflexivity|reflexivity|reflexivity|reflexivity|apply healthy_nil
      |reflexivity|vm_compute; reflexivity].
  - vm_compute. reflexivity.
Defined.

Lemma WriteAll_succeeds_witness :
  exists sf',
    @WriteAll demo [["1"; "2"]; ["3"; "4"]] (demo_session []) = Done (None, sf')
    /\ well_formed sf' = true /\ err sf' = None.
Proof.
  destruct (@WriteAll_succeeds demo (demo_session [])
              {| index := 1; rowCount := 1; columnCount := 2; writer := Some 1%nat |}
              1%nat [["1"; "2"]; ["3"; "4"]]
              eq_refl eq_refl eq_refl eq_refl (healthy_nil _ _))
    as (sf' & Hrun & _ & _ & Hwf & _ & He).
  - vm_compute. reflexivity.
  - exists sf'. split; [exact Hrun|]. split; [exact Hwf|exact He].
Defined.

Lemma rows_then_Close_witness :
  exists sf1 sf',
    @WriteAll demo [["1"; "2"]] (demo_session []) = Done (None, sf1)
    /\ @Close demo sf1 = Done (None, sf')
    /\ zclosed (zipWriter sf') = true.
Proof.
  destruct (@rows_then_Close demo (demo_session [])
              {| index := 1; rowCount := 1; columnCount := 2; writer := Some 1%nat |}
              1%nat [["1"; "2"]] "<sst>1,2</sst>"
              eq_refl eq_refl eq_refl eq_refl (healthy_nil _ _))
    as (sf1 & sf' & Hrun & Hclose & _ & Hcl & _).
  - vm_compute. reflexivity.
  - vm_compute. reflexivity.
  - exists sf1, sf'. split; [exact Hrun|]. split; [exact Hclose|exact Hcl].
Defined.

Lemma Build_rows_Close_witness :
  exists sf0 sb' sf1 sf',
    @Build demo (demo_builder []) = Done (Ok sf0, sb')
    /\ @WriteAll demo [["1"; "2"]] sf0 = Done (None, sf1)
    /\ @Close demo sf1 = Done (None, sf')
    /\ zclosed (zipWriter sf') = true.
Proof.
  destruct (@Build_rows_Close demo (demo_builder []) {| indexedStrings := [] |}
              (demo_parts (sb_file (demo_builder [])))
              {| Name := "S1"; Cols := [MkCol; MkCol] |} [["1"; "2"]] "<sst>1,2</sst>"
              eq_refl eq_refl eq_refl (healthy_nil _ _) eq_refl)
    as (sf0 & sb' & sf1 & sf' & Hbuild & Hrun & Hclose & _ & Hcl & _).
  - unfold demo_parts. cbn [demo_builder sb_file Sheets imap].
    apply Forall_cons_2; [intros Hs; vm_compute in Hs; discriminate Hs|].
    apply Forall_cons_2;
      [intros _; split; [eexists; vm_compute; reflexivity|vm_compute; reflexivity]|].
    apply Forall_cons_2;
      [intros _; split; [eexists; vm_compute; reflexivity|vm_compute; reflexivity]|].
    apply Forall_nil_2.
  - vm_compute. reflexivity.
  - vm_compute. reflexivity.
  - exists sf0, sb', sf1, sf'. split; [exact Hbuild|]. split; [exact Hrun|].
    split; [exact Hclose|exact Hcl].
Defined.

Lemma Write_error_stored_or_flush_witness :
  exists sf',
    @Write demo ["1"; "2"] (demo_session [None; None; Some 3%nat])
    = Done (Some (SinkError 3), sf')
    /\ (err sf' = Some (SinkError 3)
        \/ exists c sf1,
             SinkError 3 = SinkError c
             /\ @write demo ["1"; "2"] (demo_session [None; None; Some 3%nat])
                = Done (None, sf1)
             /\ entries (zipWriter sf') = entries (zipWriter sf1)
             /\ currentSheet sf' = currentSheet sf1
             /\ err sf' = None).
Proof.
  eexists.
  assert (Hrun : @Write demo ["1"; "2"] (demo_session [None; None; Some 3%nat])
                 = Done (Some (SinkError 3), _)) by (vm_compute; reflexivity).
  split; [exact Hrun|].
  exact (@Write_error_stored_or_flush demo _ _ _ _ Hrun).
Defined.

Lemma WriteAll_error_stored_or_flush_witness :
  exists sf',
    @WriteAll demo [["1"; "2"]] (demo_session [None; None; Some 3%nat])
    = Done (Some (SinkError 3), sf')
    /\ (err sf' = Some (SinkError 3)
        \/ exists c sf1,
             SinkError 3 = SinkError c
             /\ @rows_written demo [["1"; "2"]] (demo_session [None; None; Some 3%nat]) sf1
             /\ entries (zipWriter sf') = entries (zipWriter sf1)
             /\ currentSheet sf' = currentSheet sf1
             /\ err sf' = None).
Proof.
  eexists.
  assert (Hrun : @WriteAll demo [["1"; "2"]] (demo_session [None; None; Some 3%nat])
                 = Done (Some (SinkError 3), _)) by (vm_compute; reflexivity).
  split; [exact Hrun|].
  exact (@WriteAll_error_stored_or_flush demo _ _ _ _ Hrun).
Defined.

Lemma getSheetIndex_reads_number_only_witness :
  getSheetIndex (demo_session []) ("xl/worksheets/other" +:+ "2" +:+ ".bin")
  = getSheetIndex (demo_session [])
      (sheetFilePathPrefix +:+ "2" +:+ sheetFilePathSuffix).
Proof.
  apply (getSheetIndex_reads_number_only (demo_session []) "xl/worksheets/other" "2" ".bin");
    reflexivity.
Defined.

Lemma session_keeps_templates_witness :
  exists sf',
    NextSheet (demo_session []) = Done (None, sf')
    /\ same_templates (demo_session []) sf'.
Proof.
  eexists.
  assert (Hrun : NextSheet (demo_session []) = Done (None, _)) by (vm_compute; reflexivity).
  split; [exact Hrun|].
  exact (proj1 (proj2 (proj2 (@session_keeps_templates demo))) _ _ _ Hrun).
Defined.

Lemma only_Close_closes_archive_witness :
  exists sf',
    NextSheet (demo_session []) = Done (None, sf')
    /\ same_openness (demo_session []) sf'.
Proof.
  eexists.
  assert (Hrun : NextSheet (demo_session []) = Done (None, _)) by (vm_compute; reflexivity).
  split; [exact Hrun|].
  exact (proj1 (proj2 (proj2 (@only_Close_closes_archive demo))) _ _ _ Hrun).
Defined.
